(** * mbuild.formats: HOOMD force-field initialisation and legacy XML I/O

    A shallow embedding of [mbuild/formats/hoomd_simulation.py] and
    [mbuild/formats/hoomdxml.py].

    Conventions of the embedding:
    - Python floats are idealised as real numbers ([R]); rounding is not
      modelled.  Float division by zero raises [ZeroDivisionError], as it
      does for Python floats.
    - Python strings are [string]s; comparison is the lexicographic order on
      character codes ([String.ltb]), which is Python's order on [str].
    - A [dict] is an association list in insertion order, which is the
      iteration order of a Python dict.
    - The simulation engine (hoomd) is an external collaborator: each call
      into it is recorded, with its arguments, in a chronological trace.
      Calls into the engine, and into the helpers of the package that are
      not among the sources at hand ([to_hoomdsnapshot], [natural_sort],
      [RB_to_OPLS]), are taken to return normally and to leave the
      structure alone.
    - Exceptions are values of type [exn]; a computation is a function from
      the world (the object passed by the caller and the trace so far) to an
      outcome and a new world. *)

From Stdlib Require Import Reals Lra List String Ascii ZArith Bool Lia.
From Stdlib Require Import Permutation Sorted.
Import ListNotations.

Local Open Scope string_scope.
Local Open Scope list_scope.
Local Open Scope R_scope.

(* ------------------------------------------------------------------ *)
(** ** Python values and builtins *)

Module Py.

Inductive exn : Type :=
| ValueError (msg : string)
| AttributeError (msg : string)
| TypeError (msg : string)
| KeyError (key : string)
| IndexError
| ZeroDivisionError
| NameError (name : string)
| UnboundLocalError (name : string)
| IOError (filename : string).

(** [dict]: keys are strings, insertion order is kept. *)
Definition dict (V : Type) : Type := list (string * V).

Definition keys {V} (d : dict V) : list string := map fst d.
Definition items {V} (d : dict V) : list (string * V) := d.

(** [k in d] *)
Fixpoint contains {V} (k : string) (d : dict V) : bool :=
  match d with
  | [] => false
  | (k', _) :: d' => if String.eqb k' k then true else contains k d'
  end.

(** [d.get(k, None)] *)
Fixpoint get {V} (d : dict V) (k : string) : option V :=
  match d with
  | [] => None
  | (k', v) :: d' => if String.eqb k' k then Some v else get d' k
  end.

(** [d[k] = v]: an existing key keeps its position, a new one goes last. *)
Fixpoint setitem {V} (d : dict V) (k : string) (v : V) : dict V :=
  match d with
  | [] => [(k, v)]
  | (k', v') :: d' =>
      if String.eqb k' k then (k', v) :: d' else (k', v') :: setitem d' k v
  end.

(** [sorted(l)] for a list compared with [lt]: a stable sort that, like
    Python's, only ever asks whether a later element is smaller than an
    earlier one. *)
Fixpoint insort {X} (lt : X -> X -> bool) (x : X) (l : list X) : list X :=
  match l with
  | [] => [x]
  | y :: l' => if lt x y then x :: y :: l' else y :: insort lt x l'
  end.

Definition sorted {X} (lt : X -> X -> bool) (l : list X) : list X :=
  fold_left (fun acc x => insort lt x acc) l [].

(** [itertools.combinations_with_replacement(l, 2)] *)
Fixpoint combinations_with_replacement_2 {X} (l : list X) : list (X * X) :=
  match l with
  | [] => []
  | x :: l' => map (pair x) (x :: l') ++ combinations_with_replacement_2 l'
  end.

(** [sep.join(ls)] *)
Definition join (sep : string) (ls : list string) : string :=
  String.concat sep ls.

(** [str.lower], on the ASCII letters. *)
Definition lower_ascii (c : ascii) : ascii :=
  let n := nat_of_ascii c in
  if (65 <=? n)%nat && (n <=? 90)%nat then ascii_of_nat (n + 32) else c.

Fixpoint lower (s : string) : string :=
  match s with
  | EmptyString => EmptyString
  | String c s' => String (lower_ascii c) (lower s')
  end.

(** [l1 == l2] on lists of strings *)
Fixpoint list_eq (l1 l2 : list string) : bool :=
  match l1, l2 with
  | [], [] => true
  | x :: l1', y :: l2' => String.eqb x y && list_eq l1' l2'
  | _, _ => false
  end.

(** [s.splitlines()], for the line ends LF, CR and CR LF. *)
Fixpoint splitlines_from (cur s : string) : list string :=
  match s with
  | EmptyString => if String.eqb cur "" then [] else [cur]
  | String c s' =>
      if Ascii.eqb c "010" then cur :: splitlines_from "" s'
      else if Ascii.eqb c "013" then
        match s' with
        | String c' s'' =>
            if Ascii.eqb c' "010" then cur :: splitlines_from "" s''
            else cur :: splitlines_from "" s'
        | EmptyString => cur :: splitlines_from "" s'
        end
      else splitlines_from (cur ++ String c "") s'
  end.

Definition splitlines (s : string) : list string := splitlines_from "" s.

(** [s.split()]: the maximal runs of characters that are not white space. *)
Definition isspace (c : ascii) : bool :=
  let n := nat_of_ascii c in
  (n =? 32)%nat || ((9 <=? n)%nat && (n <=? 13)%nat).

Fixpoint split_from (cur s : string) : list string :=
  match s with
  | EmptyString => if String.eqb cur "" then [] else [cur]
  | String c s' =>
      if isspace c
      then if String.eqb cur "" then split_from "" s'
           else cur :: split_from "" s'
      else split_from (cur ++ String c "") s'
  end.

Definition split (s : string) : list string := split_from "" s.

(** [s.isdigit()] and [int(s)] for such an [s]. *)
Definition is_digit (c : ascii) : bool :=
  let n := nat_of_ascii c in (48 <=? n)%nat && (n <=? 57)%nat.

Fixpoint all_digits (s : string) : bool :=
  match s with
  | EmptyString => true
  | String c s' => is_digit c && all_digits s'
  end.

Definition isdigit (s : string) : bool :=
  negb (String.eqb s "") && all_digits s.

Fixpoint int_from (acc : Z) (s : string) : Z :=
  match s with
  | EmptyString => acc
  | String c s' => int_from (10 * acc + Z.of_nat (nat_of_ascii c - 48)) s'
  end.

Definition int (s : string) : Z := int_from 0 s.

(** Values carried by keyword dictionaries. *)
Inductive value : Type :=
| Int (n : Z)
| Float (x : R)
| Str (s : string)
| Bool (b : bool).

End Py.

(* ------------------------------------------------------------------ *)
(** ** The ParmEd structure, as far as the code reads it *)

Module AtomType.
Record t : Type := mk
  { sigma : R;
    epsilon : R;
    (** [nbfix]: other type name -> (rmin, eps, rmin14, eps14) *)
    nbfix : Py.dict (R * R * R * R) }.
End AtomType.

Module Atom.
Record t : Type := mk
  { type : string;
    atom_type : AtomType.t }.
End Atom.

Module BondType.
Record t : Type := mk { k : R; req : R }.
End BondType.

Module Bond.
Record t : Type := mk
  { atom1 : Atom.t; atom2 : Atom.t; type : BondType.t }.
End Bond.

Module AngleType.
Record t : Type := mk { k : R; theteq : R }.
End AngleType.

Module Angle.
Record t : Type := mk
  { atom1 : Atom.t; atom2 : Atom.t; atom3 : Atom.t; type : AngleType.t }.
End Angle.

Module DihedralType.
Record t : Type := mk { phi_k : R; per : Z; phase : R }.
End DihedralType.

Module Dihedral.
Record t : Type := mk
  { atom1 : Atom.t; atom2 : Atom.t; atom3 : Atom.t; atom4 : Atom.t;
    type : DihedralType.t }.
End Dihedral.

Module RBTorsionType.
Record t : Type := mk { c0 : R; c1 : R; c2 : R; c3 : R; c4 : R; c5 : R }.
End RBTorsionType.

Module RBTorsion.
Record t : Type := mk
  { atom1 : Atom.t; atom2 : Atom.t; atom3 : Atom.t; atom4 : Atom.t;
    type : RBTorsionType.t }.
End RBTorsion.

Module AdjustType.
Record t : Type := mk { sigma : R; epsilon : R; chgscale : R }.
End AdjustType.

Module Adjust.
Record t : Type := mk
  { atom1 : Atom.t; atom2 : Atom.t; type : AdjustType.t }.
End Adjust.

Module Structure.
Record t : Type := mk
  { atoms : list Atom.t;
    bonds : list Bond.t;
    angles : list Angle.t;
    dihedrals : list Dihedral.t;
    rb_torsions : list RBTorsion.t;
    adjusts : list Adjust.t;
    bond_types : list BondType.t;
    angle_types : list AngleType.t;
    dihedral_types : list DihedralType.t;
    rb_torsion_types : list RBTorsionType.t;
    (** [structure]: not an attribute that parmed.Structure declares.
        [None] for a plain structure (reading it raises AttributeError);
        [Some ds] for an object that carries an attribute of that name
        whose own [dihedrals] are [ds]. *)
    structure : option (list Dihedral.t) }.
End Structure.

(** What the caller may pass as [structure]. *)
Inductive object : Type :=
| mb_Compound
| pmd_Structure (s : Structure.t)
| other_object.


(** [hoomd_snapshot.to_hoomdsnapshot] is not among the sources at hand and
    the snapshot it builds is only handed on to the engine: a snapshot is
    kept symbolic, as the arguments it was built from. *)
Record Snapshot : Type := to_hoomdsnapshot
  { snapshot_structure : Structure.t;
    snapshot_ref_distance : R;
    snapshot_ref_mass : R;
    snapshot_ref_energy : R;
    snapshot_kwargs : Py.dict Py.value }.

(* ------------------------------------------------------------------ *)
(** ** Effects: calls into the engine, standard output, warnings *)

Inductive effect : Type :=
| hoomd_context_initialize (args : string)
| hoomd_init_read_snapshot (snapshot : Snapshot)
| hoomd_md_nlist_cell
| nl_reset_exclusions (exclusions : list string)
| hoomd_md_pair_lj (r_cut : R)
| lj_pair_coeff_set (a b : string) (sigma epsilon : R)
| hoomd_group_charged
| hoomd_md_charge_pppm
| qq_set_params (Nx Ny Nz order : Py.value) (r_cut : R)
| hoomd_md_special_pair_lj
| hoomd_md_special_pair_coulomb
| lj_14_pair_coeff_set (name : string) (sigma epsilon alpha r_cut : R)
| qq_14_pair_coeff_set (name : string) (alpha r_cut : R)
| hoomd_md_bond_harmonic
| harmonic_bond_bond_coeff_set (name : string) (k r0 : R)
| hoomd_md_angle_harmonic
| harmonic_angle_angle_coeff_set (name : string) (t0 k : R)
| hoomd_md_dihedral_harmonic
| periodic_torsion_dihedral_coeff_set (name : string) (k : R) (d n : Z)
| hoomd_md_dihedral_opls
| rb_torsion_dihedral_coeff_set (name : string) (k1 k2 k3 k4 : R)
| print (line : string)
| warnings_warn (msg : string).

(** The world: the object the caller passed as [structure] and everything
    done so far, oldest first. *)
Record World : Type := mkWorld
  { heap : object;
    trace : list effect }.

(** Computations over a state [S] that may raise. *)
Definition St (S A : Type) : Type := S -> (Py.exn + A) * S.

Definition ret {S A} (a : A) : St S A := fun w => (inr a, w).

Definition raise {S A} (e : Py.exn) : St S A := fun w => (inl e, w).

Definition bind {S A B} (m : St S A) (f : A -> St S B) : St S B :=
  fun w =>
    match m w with
    | (inl e, w') => (inl e, w')
    | (inr a, w') => f a w'
    end.

Definition M (A : Type) : Type := St World A.

Declare Scope py_scope.
Delimit Scope py_scope with py.
Notation "x <- c1 ;; c2" := (bind c1 (fun x => c2))
  (at level 61, c1 at next level, right associativity) : py_scope.
Notation "' pat <- c1 ;; c2" :=
  (bind c1 (fun x => match x with pat => c2 end))
  (at level 61, pat pattern, c1 at next level, right associativity) : py_scope.
Notation "c1 ;; c2" := (bind c1 (fun _ => c2))
  (at level 61, right associativity) : py_scope.
Local Open Scope py_scope.

Definition emit (e : effect) : M unit :=
  fun w => (inr tt, {| heap := heap w; trace := trace w ++ [e] |}).

Definition the_object : M object := fun w => (inr (heap w), w).

(** [for x in l: body x] *)
Fixpoint for_ {S X} (l : list X) (body : X -> St S unit) : St S unit :=
  match l with
  | [] => ret tt
  | x :: l' => body x ;; for_ l' body
  end.

(** [x / y] on floats *)
Definition truediv {S} (x y : R) : St S R :=
  if Req_dec_T y 0 then raise Py.ZeroDivisionError else ret (x / y).

(** [d[k]] *)
Definition getitem {S V} (d : Py.dict V) (k : string) : St S V :=
  match Py.get d k with
  | Some v => ret v
  | None => raise (Py.KeyError k)
  end.

(** [l[0]] *)
Definition getitem0 {S X} (l : list X) : St S X :=
  match l with
  | x :: _ => ret x
  | [] => raise Py.IndexError
  end.

(** [np.deg2rad(x)] *)
Definition deg2rad (x : R) : R := x * (PI / 180).

(** Truth value of a list. *)
Definition truthy {X} (l : list X) : bool :=
  match l with [] => false | _ :: _ => true end.

(* ------------------------------------------------------------------ *)
(** ** hoomd_simulation.py: Lennard-Jones and Coulomb *)

(** The ValueError of the mixing-rule check. *)
Definition mixing_rule_error (mixing_rule : string) : Py.exn :=
  Py.ValueError
    (("Mixing rule " ++ mixing_rule ++ " ") ++ "not supported, use lorentz").

Definition _init_hoomd_lj (structure : Structure.t) (r_cut : R)
    (mixing_rule : string) (ref_distance ref_energy : R) : M unit :=
  (* Identify the unique atom types before setting *)
  let atom_type_params :=
    fold_left
      (fun (atom_type_params : Py.dict AtomType.t) atom =>
         if negb (Py.contains (Atom.type atom) atom_type_params)
         then Py.setitem atom_type_params (Atom.type atom) (Atom.atom_type atom)
         else atom_type_params)
      (Structure.atoms structure) [] in
  (* Set the hoomd parameters for self-interactions *)
  emit (hoomd_md_pair_lj r_cut) ;;
  for_ (Py.items atom_type_params) (fun '(name, atom_type) =>
    sigma <- truediv (AtomType.sigma atom_type) ref_distance ;;
    epsilon <- truediv (AtomType.epsilon atom_type) ref_energy ;;
    emit (lj_pair_coeff_set name name sigma epsilon)) ;;
  (* Cross interactions, mixing rules, NBfixes *)
  let all_atomtypes := Py.sorted String.ltb (Py.keys atom_type_params) in
  for_ (Py.combinations_with_replacement_2 all_atomtypes) (fun '(a1, a2) =>
    t1 <- getitem atom_type_params a1 ;;
    let nb_fix_info := Py.get (AtomType.nbfix t1) a2 in
    ' (sigma, epsilon) <-
      match nb_fix_info with
      | None =>
          (* No nbfix means use mixing rule to find cross-interaction *)
          if String.eqb (Py.lower mixing_rule) "lorentz" then
            p1 <- getitem atom_type_params a1 ;;
            p2 <- getitem atom_type_params a2 ;;
            sigma <- truediv (AtomType.sigma p1 + AtomType.sigma p2)
                             (2 * ref_distance) ;;
            q1 <- getitem atom_type_params a1 ;;
            q2 <- getitem atom_type_params a2 ;;
            epsilon <- truediv (AtomType.epsilon q1 * AtomType.epsilon q2)
                               (ref_energy ^ 2) ;;
            ret (sigma, epsilon)
          else raise (mixing_rule_error mixing_rule)
      | Some (rmin, eps, _, _) =>
          (* If we have nbfix info, use it *)
          sigma <- truediv rmin (ref_distance * Rpower 2 (1 / 6)) ;;
          epsilon <- truediv eps ref_energy ;;
          ret (sigma, epsilon)
      end ;;
    emit (lj_pair_coeff_set a1 a2 sigma epsilon)).

Definition _init_hoomd_qq (structure : Structure.t)
    (Nx Ny Nz order : Py.value) (r_cut : R) : M unit :=
  emit hoomd_group_charged ;;
  emit hoomd_md_charge_pppm ;;
  emit (qq_set_params Nx Ny Nz order r_cut).

(** The key of a 1-4 pair between atoms of types [t1] and [t2]. *)
Definition adjust_key (t1 t2 : string) : string :=
  Py.join "-" (Py.sorted String.ltb [t1; t2]).

Definition _init_hoomd_14_pairs (structure : Structure.t)
    (r_cut ref_distance ref_energy : R) : M unit :=
  emit (nl_reset_exclusions ["1-2"; "1-3"; "1-4"]) ;;
  emit hoomd_md_special_pair_lj ;;
  emit hoomd_md_special_pair_coulomb ;;
  (* Identify unique 14 scalings *)
  let params_14 :=
    fold_left
      (fun (params_14 : Py.dict AdjustType.t) adjust =>
         let t1 := Atom.type (Adjust.atom1 adjust) in
         let t2 := Atom.type (Adjust.atom2 adjust) in
         let ps := adjust_key t1 t2 in
         if negb (Py.contains ps params_14)
         then Py.setitem params_14 ps (Adjust.type adjust)
         else params_14)
      (Structure.adjusts structure) [] in
  for_ (Py.items params_14) (fun '(name, adjust_type) =>
    sigma <- truediv (AdjustType.sigma adjust_type) ref_distance ;;
    epsilon <- truediv (AdjustType.epsilon adjust_type) ref_energy ;;
    emit (lj_14_pair_coeff_set name sigma epsilon 1 r_cut) ;;
    emit (qq_14_pair_coeff_set name (AdjustType.chgscale adjust_type) r_cut)).

(* ------------------------------------------------------------------ *)
(** ** hoomd_simulation.py: bonded interactions and the entry point *)

Section HoomdSimulation.

(** [mbuild.utils.sorting.natural_sort] is used as a sort key but is not
    among the sources at hand.  It is a parameter of the development:
    [natural_sort_lt a b] is the outcome of
    [natural_sort(a) < natural_sort(b)]. *)
Variable natural_sort_lt : string -> string -> bool.

(** [mbuild.utils.conversion.RB_to_OPLS], likewise a parameter: it maps the
    six Ryckaert-Bellemans coefficients to the four OPLS ones. *)
Variable RB_to_OPLS : R -> R -> R -> R -> R -> R -> R * R * R * R.

(** The key of a bond between atoms of types [t1] and [t2]; [None] when the
    guard on empty type names skips the bond. *)
Definition bond_key (t1 t2 : string) : option string :=
  match Py.sorted natural_sort_lt [t1; t2] with
  | [t1; t2] =>
      if negb (String.eqb t1 "") && negb (String.eqb t2 "")
      then Some (Py.join "-" [t1; t2])
      else None
  | _ => None
  end.

Definition _init_hoomd_bonds (structure : Structure.t)
    (ref_distance ref_energy : R) : M unit :=
  (* Identify the unique bond types before setting *)
  let bond_type_params :=
    fold_left
      (fun (bond_type_params : Py.dict BondType.t) bond =>
         let t1 := Atom.type (Bond.atom1 bond) in
         let t2 := Atom.type (Bond.atom2 bond) in
         match bond_key t1 t2 with
         | Some bond_type =>
             if negb (Py.contains bond_type bond_type_params)
             then Py.setitem bond_type_params bond_type (Bond.type bond)
             else bond_type_params
         | None => bond_type_params
         end)
      (Structure.bonds structure) [] in
  (* Set the hoomd parameters *)
  emit hoomd_md_bond_harmonic ;;
  for_ (Py.items bond_type_params) (fun '(name, bond_type) =>
    k <- truediv (2 * BondType.k bond_type * ref_distance ^ 2) ref_energy ;;
    r0 <- truediv (BondType.req bond_type) ref_distance ;;
    emit (harmonic_bond_bond_coeff_set name k r0)).

(** The key of an angle over atoms of types [t1], [t2], [t3]. *)
Definition angle_key (t1 t2 t3 : string) : string :=
  match Py.sorted natural_sort_lt [t1; t3] with
  | [t1; t3] => Py.join "-" [t1; t2; t3]
  | _ => Py.join "-" [t1; t2; t3]
  end.

Definition _init_hoomd_angles (structure : Structure.t)
    (ref_energy : R) : M unit :=
  (* Identify the unique angle types before setting *)
  let angle_type_params :=
    fold_left
      (fun (angle_type_params : Py.dict AngleType.t) angle =>
         let t1 := Atom.type (Angle.atom1 angle) in
         let t2 := Atom.type (Angle.atom2 angle) in
         let t3 := Atom.type (Angle.atom3 angle) in
         let angle_type := angle_key t1 t2 t3 in
         if negb (Py.contains angle_type angle_type_params)
         then Py.setitem angle_type_params angle_type (Angle.type angle)
         else angle_type_params)
      (Structure.angles structure) [] in
  (* set the hoomd parameters *)
  emit hoomd_md_angle_harmonic ;;
  for_ (Py.items angle_type_params) (fun '(name, angle_type) =>
    k <- truediv (2 * AngleType.k angle_type) ref_energy ;;
    emit (harmonic_angle_angle_coeff_set name
            (deg2rad (AngleType.theteq angle_type)) k)).

(** The key of a dihedral (periodic or RB) over atoms of types
    [t1], [t2], [t3], [t4]. *)
Definition dihedral_key (t1 t2 t3 t4 : string) : string :=
  if Py.list_eq [t2; t3] (Py.sorted natural_sort_lt [t2; t3])
  then Py.join "-" [t1; t2; t3; t4]
  else Py.join "-" [t4; t3; t2; t1].

Definition _init_hoomd_dihedrals (structure : Structure.t)
    (ref_energy : R) : M unit :=
  (* Identify the unique dihedral types before setting *)
  match Structure.structure structure with
  | None =>
      raise (Py.AttributeError
               "'Structure' object has no attribute 'structure'")
  | Some structure_structure_dihedrals =>
      let dihedral_type_params :=
        fold_left
          (fun (dihedral_type_params : Py.dict DihedralType.t) dihedral =>
             let t1 := Atom.type (Dihedral.atom1 dihedral) in
             let t2 := Atom.type (Dihedral.atom2 dihedral) in
             let t3 := Atom.type (Dihedral.atom3 dihedral) in
             let t4 := Atom.type (Dihedral.atom4 dihedral) in
             let dihedral_type := dihedral_key t1 t2 t3 t4 in
             if negb (Py.contains dihedral_type dihedral_type_params)
             then Py.setitem dihedral_type_params dihedral_type
                    (Dihedral.type dihedral)
             else dihedral_type_params)
          structure_structure_dihedrals [] in
      (* Set the hoomd parameters *)
      emit hoomd_md_dihedral_harmonic ;;
      for_ (Py.items dihedral_type_params) (fun '(name, dihedral_type) =>
        if Rgt_dec (DihedralType.phase dihedral_type) (1 / 10000)
        then
          (* building the warning text reads [dihedral_type.phae] *)
          raise (Py.AttributeError
                   "'DihedralType' object has no attribute 'phae'")
        else
          k <- truediv (2 * DihedralType.phi_k dihedral_type) ref_energy ;;
          emit (periodic_torsion_dihedral_coeff_set name k 1
                  (DihedralType.per dihedral_type)))
  end.

Definition _init_hoomd_rb_torsions (structure : Structure.t)
    (ref_energy : R) : M unit :=
  (* Identify the unique dihedral types before setting *)
  let dihedral_type_params :=
    fold_left
      (fun (dihedral_type_params : Py.dict RBTorsionType.t) dihedral =>
         let t1 := Atom.type (RBTorsion.atom1 dihedral) in
         let t2 := Atom.type (RBTorsion.atom2 dihedral) in
         let t3 := Atom.type (RBTorsion.atom3 dihedral) in
         let t4 := Atom.type (RBTorsion.atom4 dihedral) in
         let dihedral_type := dihedral_key t1 t2 t3 t4 in
         if negb (Py.contains dihedral_type dihedral_type_params)
         then Py.setitem dihedral_type_params dihedral_type
                (RBTorsion.type dihedral)
         else dihedral_type_params)
      (Structure.rb_torsions structure) [] in
  (* Set the hoomd parameter *)
  emit hoomd_md_dihedral_opls ;;
  for_ (Py.items dihedral_type_params) (fun '(name, dihedral_type) =>
    c0 <- truediv (RBTorsionType.c0 dihedral_type) ref_energy ;;
    c1 <- truediv (RBTorsionType.c1 dihedral_type) ref_energy ;;
    c2 <- truediv (RBTorsionType.c2 dihedral_type) ref_energy ;;
    c3 <- truediv (RBTorsionType.c3 dihedral_type) ref_energy ;;
    c4 <- truediv (RBTorsionType.c4 dihedral_type) ref_energy ;;
    c5 <- truediv (RBTorsionType.c5 dihedral_type) ref_energy ;;
    let '(k1, k2, k3, k4) := RB_to_OPLS c0 c1 c2 c3 c4 c5 in
    emit (rb_torsion_dihedral_coeff_set name k1 k2 k3 k4)).

(** Passing [**kwargs] next to explicit keywords: a key that repeats one of
    them, or that the callee does not accept, is a TypeError. *)
Definition kwargs_clash (taken : list string) (kwargs : Py.dict Py.value)
  : bool :=
  existsb (fun k => existsb (String.eqb k) taken) (Py.keys kwargs).

Definition kwargs_unexpected (accepted : list string)
    (kwargs : Py.dict Py.value) : bool :=
  existsb (fun k => negb (existsb (String.eqb k) accepted)) (Py.keys kwargs).

Definition kwarg (kwargs : Py.dict Py.value) (k : string)
    (default : Py.value) : Py.value :=
  match Py.get kwargs k with Some v => v | None => default end.

Definition compound_error : Py.exn :=
  Py.ValueError
    ("You passed mb.Compound to create_hoomd_simulation, " ++
     "there will be no angles, dihedrals, or force field parameters. " ++
     "Please use " ++
     "hoomd_snapshot.to_hoomdsnapshot to create a hoomd.Snapshot, " ++
     "then create your own hoomd context " ++
     "and pass your hoomd.Snapshot " ++
     "to hoomd.init.read_snapshot()").

Definition not_structure_error : Py.exn :=
  Py.ValueError
    ("Please pass a parmed.Structure to " ++ "create_hoomd_simulation").

(** The entry point.  Its [structure] argument is the object in the world. *)
Definition create_hoomd_simulation (ref_distance ref_mass ref_energy : R)
    (mixing_rule : string) (r_cut : R)
    (snapshot_kwargs pppm_kwargs : Py.dict Py.value) : M unit :=
  obj <- the_object ;;
  match obj with
  | mb_Compound => raise compound_error
  | other_object => raise not_structure_error
  | pmd_Structure structure =>
      emit (hoomd_context_initialize "") ;;
      snapshot <-
        (if kwargs_clash
              ["structure"; "ref_distance"; "ref_mass"; "ref_energy"]
              snapshot_kwargs
         then raise (Py.TypeError
                       "to_hoomdsnapshot() got multiple values for argument")
         else ret (to_hoomdsnapshot structure ref_distance ref_mass
                     ref_energy snapshot_kwargs)) ;;
      emit (hoomd_init_read_snapshot snapshot) ;;
      emit hoomd_md_nlist_cell ;;
      emit (nl_reset_exclusions ["1-2"; "1-3"]) ;;
      atom0 <- getitem0 (Structure.atoms structure) ;;
      (if negb (String.eqb (Atom.type atom0) "") then
         emit (print "Processing LJ and QQ") ;;
         _init_hoomd_lj structure r_cut "lorentz" ref_distance ref_energy ;;
         (if kwargs_clash ["structure"; "nl"; "r_cut"] pppm_kwargs
             || kwargs_unexpected
                  ["structure"; "nl"; "Nx"; "Ny"; "Nz"; "order"; "r_cut"]
                  pppm_kwargs
          then raise (Py.TypeError
                        "_init_hoomd_qq() got an unexpected keyword argument")
          else _init_hoomd_qq structure
                 (kwarg pppm_kwargs "Nx" (Py.Int 1))
                 (kwarg pppm_kwargs "Ny" (Py.Int 1))
                 (kwarg pppm_kwargs "Nz" (Py.Int 1))
                 (kwarg pppm_kwargs "order" (Py.Int 4))
                 r_cut)
       else ret tt) ;;
      (if truthy (Structure.adjusts structure) then
         emit (print
           "Processing 1-4 interactions, adjusting neighborlist exclusions") ;;
         _init_hoomd_14_pairs structure (12 / 10) ref_distance ref_energy
       else ret tt) ;;
      (if truthy (Structure.bond_types structure) then
         emit (print "Processing harmonic bonds") ;;
         _init_hoomd_bonds structure ref_distance ref_energy
       else ret tt) ;;
      (if truthy (Structure.angle_types structure) then
         emit (print "Processing harmonic angles") ;;
         _init_hoomd_angles structure ref_energy
       else ret tt) ;;
      (if truthy (Structure.dihedral_types structure) then
         emit (print "Processing periodic torsions") ;;
         _init_hoomd_dihedrals structure ref_energy
       else ret tt) ;;
      (if truthy (Structure.rb_torsion_types structure) then
         emit (print "Processing RB torsions") ;;
         _init_hoomd_rb_torsions structure ref_energy
       else ret tt) ;;
      emit (print "HOOMD SimulationContext updated from ParmEd Structure")
  end.

End HoomdSimulation.

(* ------------------------------------------------------------------ *)
(** ** hoomdxml.py: the host it runs on *)

Module Xml.

(** An element of a parsed document, as [xml.etree] presents it. *)
#[warnings="-register-all"]
Inductive element : Type :=
| Element (tag : string) (attrib : Py.dict string) (text : option string)
    (children : list element).

Definition tag (e : element) : string :=
  match e with Element t _ _ _ => t end.

Definition attrib (e : element) : Py.dict string :=
  match e with Element _ a _ _ => a end.

Definition text (e : element) : option string :=
  match e with Element _ _ t _ => t end.

Definition children (e : element) : list element :=
  match e with Element _ _ _ c => c end.

(** [e.find(name)]: the first child with that tag, or [None]. *)
Definition find (e : element) (name : string) : option element :=
  List.find (fun c => String.eqb (tag c) name) (children e).

End Xml.

(** A particle of a compound, as [save_hoomdxml] reads it. *)
Record Particle : Type := mkParticle
  { kind : string;
    pos : R * R * R }.

Record Compound : Type := mkCompound
  { compound_atoms : list Particle;
    compound_bonds : list (Particle * Particle) }.

(** Cells of the tables read from optional nodes. *)
Inductive cell : Type :=
| cell_int (n : Z)
| cell_float (x : R)
| cell_str (s : string).

(** The two shapes of [pandas.DataFrame] the loader builds: a frame filled
    column by column (each column holds one parsed line per row), and a
    frame built from rows under given column names. *)
Inductive DataFrame : Type :=
| by_columns (columns : Py.dict (list (list cell)))
| by_rows (columns : list string) (rows : list (list cell)).

(** [mdtraj] objects are kept symbolic, as the data they are built from. *)
Record Topology : Type := from_dataframe
  { atoms_df : list (option string * string * Z * string * Z);
    topology_bonds : option (list (list cell)) }.

Record Trajectory : Type := mkTrajectory
  { xyz : list (list R);
    topology : Topology;
    unitcell_vectors : list (list (list R)) }.

(** [traj.n_atoms]: the number of rows of the coordinate array. *)
Definition n_atoms (traj : Trajectory) : nat := List.length (xyz traj).

(** What [load_hoomdxml] returns. *)
Inductive loaded : Type :=
| traj_only (traj : Trajectory)
| traj_and_optional_data (traj : Trajectory)
    (optional_data : Py.dict DataFrame).

(** Objects a module-level name may be bound to. *)
Inductive pyobj : Type :=
| obj_compound (c : Compound)
| obj_float (x : R)
| obj_particles (l : list Particle)
| obj_strings (l : list string)
| obj_other.

(** Pieces of text written to a file: literal text, or a format string with
    the values it is applied to ([str.format] is not interpreted). *)
Inductive chunk : Type :=
| literal (s : string)
| formatted (fmt : string) (args : list Py.value).

Inductive file : Type :=
| xml_document (root : Xml.element)
| text_file (written : list chunk).

(** The host: the global names of the module, the files, standard output. *)
Record Host : Type := mkHost
  { namespace : Py.dict pyobj;
    disk : Py.dict file;
    stdout : list string }.

(** The names [hoomdxml.py] binds at module level. *)
Definition hoomdxml_namespace : Py.dict pyobj :=
  [("pdb", obj_other); ("warn", obj_other); ("__all__", obj_other);
   ("load_hoomdxml", obj_other); ("save_hoomdxml", obj_other)].

(** Reading a name that is not local: it is looked up in the module. *)
Definition load_global (name : string) : St Host pyobj :=
  fun h =>
    match Py.get (namespace h) name with
    | Some o => (inr o, h)
    | None => (inl (Py.NameError name), h)
    end.

Definition store_global (name : string) (o : pyobj) : St Host unit :=
  fun h =>
    (inr tt, {| namespace := Py.setitem (namespace h) name o;
                disk := disk h; stdout := stdout h |}).

(** The [print] statement. *)
Definition print_line (s : string) : St Host unit :=
  fun h =>
    (inr tt, {| namespace := namespace h; disk := disk h;
                stdout := stdout h ++ [s] |}).

(** [open(filename, 'w')]: the file is created or emptied. *)
Definition open_w (filename : string) : St Host unit :=
  fun h =>
    (inr tt, {| namespace := namespace h;
                disk := Py.setitem (disk h) filename (text_file []);
                stdout := stdout h |}).

(** [xml_file.write(c)] on the file opened under [filename]. *)
Definition write (filename : string) (c : chunk) : St Host unit :=
  fun h =>
    match Py.get (disk h) filename with
    | Some (text_file cs) =>
        (inr tt, {| namespace := namespace h;
                    disk := Py.setitem (disk h) filename (text_file (cs ++ [c]));
                    stdout := stdout h |})
    | _ => (inl (Py.IOError filename), h)
    end.

(** [etree.parse(filename).getroot()] *)
Definition etree_parse (filename : string) : St Host Xml.element :=
  fun h =>
    match Py.get (disk h) filename with
    | Some (xml_document root) => (inr root, h)
    | _ => (inl (Py.IOError filename), h)
    end.

(** [[f(x) for x in l]] *)
Fixpoint comprehension {S X Y} (f : X -> St S Y) (l : list X)
  : St S (list Y) :=
  match l with
  | [] => ret []
  | x :: l' => y <- f x ;; ys <- comprehension f l' ;; ret (y :: ys)
  end.

(** Attribute access on a value that may be [None]. *)
Definition not_None {S A} (o : option A) (attribute : string) : St S A :=
  match o with
  | Some a => ret a
  | None =>
      raise (Py.AttributeError
               ("'NoneType' object has no attribute '" ++ attribute ++ "'"))
  end.

(** [node.text.splitlines()[1:]] *)
Definition text_lines {S} (node : option Xml.element) : St S (list string) :=
  n <- not_None node "text" ;;
  t <- not_None (Xml.text n) "splitlines" ;;
  ret (tl (Py.splitlines t)).

(* ------------------------------------------------------------------ *)
(** ** hoomdxml.py: the loader and the writer *)

(** [try: m  except <caught>: handler] *)
Definition try_except {S A} (m : St S A) (caught : Py.exn -> bool)
    (handler : St S A) : St S A :=
  fun w =>
    match m w with
    | (inl e, w') => if caught e then handler w' else (inl e, w')
    | (inr a, w') => (inr a, w')
    end.

Definition is_AttributeError (e : Py.exn) : bool :=
  match e with Py.AttributeError _ => true | _ => false end.

Definition is_AttributeError_or_ValueError (e : Py.exn) : bool :=
  match e with
  | Py.AttributeError _ | Py.ValueError _ => true
  | _ => false
  end.

(** A loop that carries a local variable [a] along. *)
Fixpoint for_fold {S X A} (l : list X) (a : A) (body : A -> X -> St S A)
  : St S A :=
  match l with
  | [] => ret a
  | x :: l' => a' <- body a x ;; for_fold l' a' body
  end.

Definition per_particle_nodes : list string :=
  ["image"; "velocity"; "acceleration"; "mass"; "diameter"; "charge";
   "body"; "orientation"; "moment_inertia"].

Definition multi_particle_nodes : list (string * nat) :=
  [("bond", 2%nat); ("angle", 3%nat); ("dihedral", 4%nat);
   ("improper", 4%nat)].

(** [df[node] = values]: pandas refuses a column whose length differs from
    that of a non-empty index. *)
Definition set_column {S} (df : Py.dict (list (list cell))) (node : string)
    (values : list (list cell)) : St S (Py.dict (list (list cell))) :=
  match df with
  | (_, col) :: _ =>
      if (List.length col =? List.length values)%nat
         || (List.length col =? 0)%nat
      then ret (Py.setitem df node values)
      else raise (Py.ValueError
                    "Length of values does not match length of index")
  | [] => ret (Py.setitem df node values)
  end.

(** [df.empty] *)
Definition df_empty (df : Py.dict (list (list cell))) : bool :=
  match df with
  | [] => true
  | (_, col) :: _ => (List.length col =? 0)%nat
  end.

(** [str(n)] for a small index. *)
Definition str_index (n : nat) : string :=
  String (ascii_of_nat (48 + n)) "".

(** [repr] of a list of plain strings. *)
Definition repr_list (l : list string) : string :=
  ("[" ++ Py.join ", " (map (fun s => "'" ++ s ++ "'") l) ++ "]")%string.

Section HoomdXml.

(** The builtin [float] on text: [None] where it raises ValueError. *)
Variable float : string -> option R.

Definition to_float {S} (s : string) : St S R :=
  match float s with
  | Some x => ret x
  | None => raise (Py.ValueError ("could not convert string to float: " ++ s))
  end.

Definition load_hoomdxml (filename : string) (optional_nodes : bool)
  : St Host loaded :=
  root <- etree_parse filename ;;
  let config := Xml.find root "configuration" in
  (* Required nodes for valid HOOMD simulation: box, position and type. *)
  config <- not_None config "find" ;;
  box <- not_None (Xml.find config "box") "attrib" ;;
  lx <- bind (getitem (Xml.attrib box) "lx") to_float ;;
  ly <- bind (getitem (Xml.attrib box) "ly") to_float ;;
  lz <- bind (getitem (Xml.attrib box) "lz") to_float ;;
  xy <- bind (getitem (Xml.attrib box) "xy") to_float ;;
  xz <- bind (getitem (Xml.attrib box) "xz") to_float ;;
  yz <- bind (getitem (Xml.attrib box) "yz") to_float ;;
  let unitcell_vectors :=
    [[[lx; xy * ly; xz * lz];
      [0;  ly;      xy * lz];
      [0;  0;       lz     ]]] in
  position_lines <- text_lines (Xml.find config "position") ;;
  xyz <- comprehension
           (fun pos => comprehension to_float (Py.split pos))
           position_lines ;;
  n_atoms <-
    match position_lines with
    | [] => raise (Py.UnboundLocalError "n")
    | _ :: _ => ret (List.length position_lines)
    end ;;
  atom_types <- text_lines (Xml.find config "type") ;;
  (* [None]: the names optional_data and per_particle_df stay unbound *)
  optional <-
    (if optional_nodes then
       (* Create a dataframe with all available per-particle information. *)
       per_particle_df <-
         for_fold per_particle_nodes [] (fun per_particle_df node =>
           try_except
             (node_text <- text_lines (Xml.find config node) ;;
              parsed_node_text <-
                comprehension
                  (fun raw_line =>
                     comprehension
                       (fun x =>
                          if Py.isdigit x then ret (cell_int (Py.int x))
                          else x' <- to_float x ;; ret (cell_float x'))
                       (Py.split raw_line))
                  node_text ;;
              set_column per_particle_df node parsed_node_text)
             is_AttributeError
             (ret per_particle_df)) ;;
       let optional_data :=
         if negb (df_empty per_particle_df)
         then [("per_particle", by_columns per_particle_df)]
         else [] in
       (* Add a dataframe for each available multi-particle node. *)
       optional_data <-
         for_fold multi_particle_nodes optional_data
           (fun optional_data '(node, n_indices) =>
              try_except
                (node_text <- text_lines (Xml.find config node) ;;
                 let parsed_node_text :=
                   map (fun raw_line =>
                          map (fun x =>
                                 if Py.isdigit x then cell_int (Py.int x)
                                 else cell_str x)
                              (Py.split raw_line))
                       node_text in
                 let columns :=
                   (node ++ "type")%string ::
                   map (fun n => ("id" ++ str_index n)%string)
                       (seq 0 n_indices) in
                 if forallb
                      (fun row =>
                         (List.length row =? List.length columns)%nat)
                      parsed_node_text
                 then ret (Py.setitem optional_data node
                             (by_rows columns parsed_node_text))
                 else raise (Py.ValueError "columns passed do not match"))
                is_AttributeError_or_ValueError
                (ret optional_data)) ;;
       ret (Some (optional_data, per_particle_df))
     else ret None) ;;
  ' (optional_data, per_particle_df) <-
    match optional with
    | Some locals => ret locals
    | None => raise (Py.UnboundLocalError "optional_data")
    end ;;
  let found :=
    filter (fun node => negb (String.eqb node "per_particle"))
           (Py.keys optional_data)
    ++ Py.keys per_particle_df in
  print_line
    ("Parsed the following optional nodes from '" ++ filename ++ "':") ;;
  print_line (repr_list found) ;;
  atoms_df <-
    (if (List.length atom_types =? n_atoms)%nat then
       ret (map (fun name => (Some name, "", 1%Z, "RES", 1%Z)) atom_types)
     else
       match atom_types with
       | [] => ret (repeat (None, "", 1%Z, "RES", 1%Z) n_atoms)
       | _ :: _ =>
           raise (Py.ValueError
                    "Length of values does not match length of index")
       end) ;;
  (* TODO: Infer chains by finding isolated bonded structures. *)
  let bonds :=
    match Py.get optional_data "bond" with
    | Some (by_rows _ rows) =>
        Some (map (fun row => firstn 2 (skipn 1 row)) rows)
    | _ => None
    end in
  let top := from_dataframe atoms_df bonds in
  let traj := mkTrajectory xyz top unitcell_vectors in
  if optional_nodes
  then ret (traj_and_optional_data traj optional_data)
  else ret (traj_only traj).

End HoomdXml.

(** Dynamic checks on what a global name is bound to. *)
Definition as_compound (o : pyobj) (attribute : string) : St Host Compound :=
  match o with
  | obj_compound c => ret c
  | _ => raise (Py.AttributeError attribute)
  end.

Definition as_particles (o : pyobj) : St Host (list Particle) :=
  match o with
  | obj_particles l => ret l
  | obj_compound c => ret (compound_atoms c)
  | _ => raise (Py.TypeError "object is not iterable")
  end.

Definition as_strings (o : pyobj) (attribute : string)
  : St Host (list string) :=
  match o with
  | obj_strings l => ret l
  | _ => raise (Py.AttributeError attribute)
  end.

Definition as_particles_or_strings (o : pyobj) : St Host (list string) :=
  match o with
  | obj_strings l => ret l
  | obj_particles l => ret (map kind l)
  | _ => raise (Py.TypeError "object is not iterable")
  end.

Definition as_value (o : pyobj) : Py.value :=
  match o with
  | obj_float x => Py.Float x
  | _ => Py.Str "<object>"
  end.

(** The characters that string literals are put together from. *)
Definition dq : string := String (ascii_of_nat 34) "".
Definition nl : string := String (ascii_of_nat 10) "".

Definition save_hoomdxml (traj : Trajectory)
    (optional_nodes : option (Py.dict DataFrame)) (filename : string)
  : St Host unit :=
  component <- bind (load_global "component")
                 (fun o => as_compound o "atoms") ;;
  let n_atoms :=
    List.length
      (filter (fun atom => negb (String.eqb (kind atom) "G"))
              (compound_atoms component)) in
  component <- bind (load_global "component")
                 (fun o => as_compound o "bonds") ;;
  let n_bonds := List.length (compound_bonds component) in
  open_w filename ;;
  write filename
    (literal ("<?xml version=" ++ dq ++ "1.3" ++ dq ++ " encoding=" ++ dq
              ++ "UTF-8" ++ dq ++ "?>" ++ nl)) ;;
  write filename (literal ("<hoomd_xml>" ++ nl)) ;;
  write filename
    (literal ("<configuration time_step=" ++ dq ++ "0" ++ dq ++ ">" ++ nl)) ;;
  lx <- load_global "lx" ;;
  ly <- load_global "ly" ;;
  lz <- load_global "lz" ;;
  write filename
    (formatted ("<box lx=" ++ dq ++ "{0}" ++ dq ++ " ly=" ++ dq ++ "{1}" ++ dq
                ++ " lz=" ++ dq ++ "{2}" ++ dq ++ "/>" ++ nl)
       [as_value lx; as_value ly; as_value lz]) ;;
  write filename
    (formatted ("<position num=" ++ dq ++ "{0}" ++ dq ++ ">" ++ nl)
       [Py.Int (Z.of_nat n_atoms)]) ;;
  ATOMS <- bind (load_global "ATOMS") as_particles ;;
  for_ ATOMS (fun atom =>
    atom_types <- bind (load_global "atom_types")
                    (fun o => as_strings o "append") ;;
    store_global "atom_types" (obj_strings (atom_types ++ [kind atom])) ;;
    let '(x, y, z) := pos atom in
    write filename
      (formatted ("{0:8.5f} {1:8.5f} {2:8.5f}" ++ nl)
         [Py.Float x; Py.Float y; Py.Float z])) ;;
  write filename (literal ("</position>" ++ nl)) ;;
  write filename
    (formatted ("<type num=" ++ dq ++ "{0}" ++ dq ++ ">" ++ nl)
       [Py.Int (Z.of_nat n_atoms)]) ;;
  atom_types <- bind (load_global "atom_types") as_particles_or_strings ;;
  for_ atom_types (fun atom_type =>
    write filename (formatted ("{0}" ++ nl) [Py.Str atom_type])) ;;
  write filename (literal ("</type>" ++ nl)) ;;
  (* TODO: optional things *)
  write filename (literal ("</configuration>" ++ nl)) ;;
  write filename (literal ("</hoomd_xml>" ++ nl)).

(* ------------------------------------------------------------------ *)
(** ** Vocabulary of the statements *)

(** One step of a de-duplicating loop: [key] gives the signature of an
    entity ([None]: the entity is skipped), and only a signature not yet in
    the table is entered. *)
Definition enter {E V} (key : E -> option string) (val : E -> V)
    (d : Py.dict V) (e : E) : Py.dict V :=
  match key e with
  | Some k => if negb (Py.contains k d) then Py.setitem d k (val e) else d
  | None => d
  end.

(** The table such a loop leaves behind, entities being visited in order. *)
Definition first_seen {E V} (key : E -> option string) (val : E -> V)
    (l : list E) : Py.dict V :=
  fold_left (enter key val) l [].

(** The first entity of [l] that bears the signature [name]. *)
Definition first_with {E} (key : E -> option string) (name : string)
    (l : list E) : option E :=
  find (fun e =>
          match key e with
          | Some k => String.eqb k name
          | None => false
          end) l.

(** How many elements of [l] satisfy [p]. *)
Definition count {X} (p : X -> bool) (l : list X) : nat :=
  List.length (filter p l).

(** Signatures of the entities. *)
Definition atom_signature (atom : Atom.t) : option string :=
  Some (Atom.type atom).

Definition adjust_signature (adjust : Adjust.t) : option string :=
  Some (adjust_key (Atom.type (Adjust.atom1 adjust))
                   (Atom.type (Adjust.atom2 adjust))).

Definition bond_signature (natural_sort_lt : string -> string -> bool)
    (bond : Bond.t) : option string :=
  bond_key natural_sort_lt (Atom.type (Bond.atom1 bond))
                           (Atom.type (Bond.atom2 bond)).

Definition angle_signature (natural_sort_lt : string -> string -> bool)
    (angle : Angle.t) : option string :=
  Some (angle_key natural_sort_lt (Atom.type (Angle.atom1 angle))
          (Atom.type (Angle.atom2 angle)) (Atom.type (Angle.atom3 angle))).

Definition dihedral_signature (natural_sort_lt : string -> string -> bool)
    (dihedral : Dihedral.t) : option string :=
  Some (dihedral_key natural_sort_lt
          (Atom.type (Dihedral.atom1 dihedral))
          (Atom.type (Dihedral.atom2 dihedral))
          (Atom.type (Dihedral.atom3 dihedral))
          (Atom.type (Dihedral.atom4 dihedral))).

Definition rb_torsion_signature (natural_sort_lt : string -> string -> bool)
    (dihedral : RBTorsion.t) : option string :=
  Some (dihedral_key natural_sort_lt
          (Atom.type (RBTorsion.atom1 dihedral))
          (Atom.type (RBTorsion.atom2 dihedral))
          (Atom.type (RBTorsion.atom3 dihedral))
          (Atom.type (RBTorsion.atom4 dihedral))).

(** Recognisers of the coefficient-setting calls, by table and key. *)
Definition is_lj_pair_coeff_set (a b : string) (e : effect) : bool :=
  match e with
  | lj_pair_coeff_set a' b' _ _ => String.eqb a' a && String.eqb b' b
  | _ => false
  end.

Definition is_lj_14_pair_coeff_set (name : string) (e : effect) : bool :=
  match e with
  | lj_14_pair_coeff_set n _ _ _ _ => String.eqb n name
  | _ => false
  end.

Definition is_qq_14_pair_coeff_set (name : string) (e : effect) : bool :=
  match e with
  | qq_14_pair_coeff_set n _ _ => String.eqb n name
  | _ => false
  end.

Definition is_bond_coeff_set (name : string) (e : effect) : bool :=
  match e with
  | harmonic_bond_bond_coeff_set n _ _ => String.eqb n name
  | _ => false
  end.

Definition is_angle_coeff_set (name : string) (e : effect) : bool :=
  match e with
  | harmonic_angle_angle_coeff_set n _ _ => String.eqb n name
  | _ => false
  end.

Definition is_periodic_coeff_set (name : string) (e : effect) : bool :=
  match e with
  | periodic_torsion_dihedral_coeff_set n _ _ _ => String.eqb n name
  | _ => false
  end.

Definition is_rb_coeff_set (name : string) (e : effect) : bool :=
  match e with
  | rb_torsion_dihedral_coeff_set n _ _ _ _ => String.eqb n name
  | _ => false
  end.

(** The table of atom types of a structure, and the call the cross loop
    makes for a pair of its keys. *)
Definition atom_type_table (structure : Structure.t) : Py.dict AtomType.t :=
  first_seen atom_signature Atom.atom_type (Structure.atoms structure).

Definition lj_self_call (ref_distance ref_energy : R)
    (item : string * AtomType.t) : list effect :=
  let '(name, atom_type) := item in
  [lj_pair_coeff_set name name
     (AtomType.sigma atom_type / ref_distance)
     (AtomType.epsilon atom_type / ref_energy)].

Definition lj_cross_call (atom_type_params : Py.dict AtomType.t)
    (ref_distance ref_energy : R) (pair : string * string) : list effect :=
  let '(a1, a2) := pair in
  match Py.get atom_type_params a1, Py.get atom_type_params a2 with
  | Some p1, Some p2 =>
      match Py.get (AtomType.nbfix p1) a2 with
      | None =>
          [lj_pair_coeff_set a1 a2
             ((AtomType.sigma p1 + AtomType.sigma p2) / (2 * ref_distance))
             (AtomType.epsilon p1 * AtomType.epsilon p2 / ref_energy ^ 2)]
      | Some (rmin, eps, _, _) =>
          [lj_pair_coeff_set a1 a2
             (rmin / (ref_distance * Rpower 2 (1 / 6)))
             (eps / ref_energy)]
      end
  | _, _ => []
  end.

(** The pairs the cross loop visits. *)
Definition lj_pairs (structure : Structure.t) : list (string * string) :=
  Py.combinations_with_replacement_2
    (Py.sorted String.ltb (Py.keys (atom_type_table structure))).

(** The tables of the other helpers and the calls made for their items. *)
Definition adjust_table (structure : Structure.t) : Py.dict AdjustType.t :=
  first_seen adjust_signature Adjust.type (Structure.adjusts structure).

Definition adjust_calls (r_cut ref_distance ref_energy : R)
    (item : string * AdjustType.t) : list effect :=
  let '(name, adjust_type) := item in
  [lj_14_pair_coeff_set name
     (AdjustType.sigma adjust_type / ref_distance)
     (AdjustType.epsilon adjust_type / ref_energy) 1 r_cut;
   qq_14_pair_coeff_set name (AdjustType.chgscale adjust_type) r_cut].

Definition bond_table (natural_sort_lt : string -> string -> bool)
    (structure : Structure.t) : Py.dict BondType.t :=
  first_seen (bond_signature natural_sort_lt) Bond.type
    (Structure.bonds structure).

Definition bond_call (ref_distance ref_energy : R)
    (item : string * BondType.t) : list effect :=
  let '(name, bond_type) := item in
  [harmonic_bond_bond_coeff_set name
     (2 * BondType.k bond_type * ref_distance ^ 2 / ref_energy)
     (BondType.req bond_type / ref_distance)].

Definition angle_table (natural_sort_lt : string -> string -> bool)
    (structure : Structure.t) : Py.dict AngleType.t :=
  first_seen (angle_signature natural_sort_lt) Angle.type
    (Structure.angles structure).

Definition angle_call (ref_energy : R) (item : string * AngleType.t)
  : list effect :=
  let '(name, angle_type) := item in
  [harmonic_angle_angle_coeff_set name
     (deg2rad (AngleType.theteq angle_type))
     (2 * AngleType.k angle_type / ref_energy)].

Definition dihedral_table (natural_sort_lt : string -> string -> bool)
    (dihedrals : list Dihedral.t) : Py.dict DihedralType.t :=
  first_seen (dihedral_signature natural_sort_lt) Dihedral.type dihedrals.

Definition periodic_call (ref_energy : R) (item : string * DihedralType.t)
  : list effect :=
  let '(name, dihedral_type) := item in
  [periodic_torsion_dihedral_coeff_set name
     (2 * DihedralType.phi_k dihedral_type / ref_energy) 1
     (DihedralType.per dihedral_type)].

Definition rb_torsion_table (natural_sort_lt : string -> string -> bool)
    (structure : Structure.t) : Py.dict RBTorsionType.t :=
  first_seen (rb_torsion_signature natural_sort_lt) RBTorsion.type
    (Structure.rb_torsions structure).

Definition rb_call (RB_to_OPLS : R -> R -> R -> R -> R -> R -> R * R * R * R)
    (ref_energy : R) (item : string * RBTorsionType.t) : list effect :=
  let '(name, dihedral_type) := item in
  let '(k1, k2, k3, k4) :=
    RB_to_OPLS (RBTorsionType.c0 dihedral_type / ref_energy)
               (RBTorsionType.c1 dihedral_type / ref_energy)
               (RBTorsionType.c2 dihedral_type / ref_energy)
               (RBTorsionType.c3 dihedral_type / ref_energy)
               (RBTorsionType.c4 dihedral_type / ref_energy)
               (RBTorsionType.c5 dihedral_type / ref_energy) in
  [rb_torsion_dihedral_coeff_set name k1 k2 k3 k4].

(** A type name without the character the keys are joined with. *)
Fixpoint hyphen_free (s : string) : bool :=
  match s with
  | EmptyString => true
  | String c s' => negb (Ascii.eqb c "-") && hyphen_free s'
  end.

(** Python's [a <= b] on strings, as a proposition. *)
Definition le_string (a b : string) : Prop := String.leb a b = true.

(** [m] leaves the object it was given alone, only adds to the trace, and
    raises no exception outside [P]. *)
Definition behaves {A} (P : Py.exn -> Prop) (m : M A) : Prop :=
  forall w,
    heap (snd (m w)) = heap w /\
    (exists calls, trace (snd (m w)) = trace w ++ calls) /\
    (forall e, fst (m w) = inl e -> P e).

Definition not_ValueError (e : Py.exn) : Prop :=
  match e with Py.ValueError _ => False | _ => True end.

(** Among [calls], the signature [name] is served as the de-duplication
    promises: if some entity of [l] bears it, exactly one call of the table
    carries it, and that call is [call_of] the first such entity; if none
    does, no call carries it. *)
Definition once_from {E} (key : E -> option string) (name : string)
    (l : list E) (is_call : string -> effect -> bool) (calls : list effect)
    (call_of : E -> effect) : Prop :=
  match first_with key name l with
  | Some e => count (is_call name) calls = 1%nat /\ In (call_of e) calls
  | None => count (is_call name) calls = 0%nat
  end.

(** [m] never returns normally. *)
Definition always_raises {S A} (m : St S A) : Prop :=
  forall w, exists e w', m w = (inl e, w').

(* ------------------------------------------------------------------ *)
(** ** Example inputs *)

Definition atom_A : Atom.t :=
  {| Atom.type := "A";
     Atom.atom_type :=
       {| AtomType.sigma := 1; AtomType.epsilon := 4; AtomType.nbfix := [] |} |}.

Definition atom_B : Atom.t :=
  {| Atom.type := "B";
     Atom.atom_type :=
       {| AtomType.sigma := 3; AtomType.epsilon := 9; AtomType.nbfix := [] |} |}.

Definition atom_C : Atom.t :=
  {| Atom.type := "C";
     Atom.atom_type :=
       {| AtomType.sigma := 2; AtomType.epsilon := 1; AtomType.nbfix := [] |} |}.

Definition bond_type_1 : BondType.t := {| BondType.k := 100; BondType.req := 2 |}.
Definition bond_type_2 : BondType.t := {| BondType.k := 7; BondType.req := 5 |}.
Definition angle_type_1 : AngleType.t :=
  {| AngleType.k := 50; AngleType.theteq := 90 |}.
Definition rb_type_1 : RBTorsionType.t :=
  {| RBTorsionType.c0 := 1; RBTorsionType.c1 := 2; RBTorsionType.c2 := 3;
     RBTorsionType.c3 := 4; RBTorsionType.c4 := 5; RBTorsionType.c5 := 6 |}.
Definition adjust_type_1 : AdjustType.t :=
  {| AdjustType.sigma := 1; AdjustType.epsilon := 2;
     AdjustType.chgscale := 1 / 2 |}.

(** A structure with one atom type. *)
Definition one_type_structure : Structure.t :=
  {| Structure.atoms := [atom_A];
     Structure.bonds := []; Structure.angles := [];
     Structure.dihedrals := []; Structure.rb_torsions := [];
     Structure.adjusts := [];
     Structure.bond_types := []; Structure.angle_types := [];
     Structure.dihedral_types := []; Structure.rb_torsion_types := [];
     Structure.structure := None |}.

(** A structure with two atom types, bonds in both directions, an angle,
    a 1-4 pair and an RB torsion. *)
Definition two_type_structure : Structure.t :=
  {| Structure.atoms := [atom_A; atom_B; atom_A];
     Structure.bonds :=
       [ {| Bond.atom1 := atom_A; Bond.atom2 := atom_B;
            Bond.type := bond_type_1 |};
         {| Bond.atom1 := atom_B; Bond.atom2 := atom_A;
            Bond.type := bond_type_2 |} ];
     Structure.angles :=
       [ {| Angle.atom1 := atom_A; Angle.atom2 := atom_B;
            Angle.atom3 := atom_A; Angle.type := angle_type_1 |} ];
     Structure.dihedrals := [];
     Structure.rb_torsions :=
       [ {| RBTorsion.atom1 := atom_A; RBTorsion.atom2 := atom_B;
            RBTorsion.atom3 := atom_A; RBTorsion.atom4 := atom_B;
            RBTorsion.type := rb_type_1 |} ];
     Structure.adjusts :=
       [ {| Adjust.atom1 := atom_B; Adjust.atom2 := atom_A;
            Adjust.type := adjust_type_1 |} ];
     Structure.bond_types := [bond_type_1; bond_type_2];
     Structure.angle_types := [angle_type_1];
     Structure.dihedral_types := [];
     Structure.rb_torsion_types := [rb_type_1];
     Structure.structure := None |}.

(** An instance of the conversion of RB coefficients, for the examples. *)
Definition example_RB_to_OPLS (c0 c1 c2 c3 c4 c5 : R) : R * R * R * R :=
  (- (3 / 2) * c3 - 2 * c1, c0 + c1 + c3, - (1 / 2) * c3, - (1 / 4) * c4).

(** [float] on the numerals of the examples: strings of digits. *)
Definition example_float (s : string) : option R :=
  if Py.isdigit s then Some (IZR (Py.int s)) else None.

(** A small well-formed file: a box, two positions, two types. *)
Definition example_document : Xml.element :=
  Xml.Element "hoomd_xml" [] None
    [Xml.Element "configuration" [("time_step", "0")] None
       [Xml.Element "box"
          [("lx", "10"); ("ly", "10"); ("lz", "10");
           ("xy", "0"); ("xz", "0"); ("yz", "0")] None [];
        Xml.Element "position" [("num", "2")]
          (Some (nl ++ "1 2 3" ++ nl ++ "4 5 6" ++ nl)%string) [];
        Xml.Element "type" [("num", "2")]
          (Some (nl ++ "A" ++ nl ++ "B" ++ nl)%string) []]].

Definition example_host : Host :=
  {| namespace := hoomdxml_namespace;
     disk := [("init.xml", xml_document example_document)];
     stdout := [] |}.

Definition example_trajectory : Trajectory :=
  {| xyz := [[1; 2; 3]; [4; 5; 6]];
     topology :=
       from_dataframe
         [(Some "A", "", 1%Z, "RES", 1%Z); (Some "B", "", 1%Z, "RES", 1%Z)]
         None;
     unitcell_vectors := [[[10; 0 * 10; 0 * 10]; [0; 10; 0 * 10]; [0; 0; 10]]] |}.

(** A structure without atoms. *)
Definition empty_structure : Structure.t :=
  {| Structure.atoms := [];
     Structure.bonds := []; Structure.angles := [];
     Structure.dihedrals := []; Structure.rb_torsions := [];
     Structure.adjusts := [];
     Structure.bond_types := []; Structure.angle_types := [];
     Structure.dihedral_types := []; Structure.rb_torsion_types := [];
     Structure.structure := None |}.

(** A plain structure with a periodic dihedral. *)
Definition dihedral_type_1 : DihedralType.t :=
  {| DihedralType.phi_k := 3; DihedralType.per := 2%Z;
     DihedralType.phase := 0 |}.

Definition dihedral_structure : Structure.t :=
  {| Structure.atoms := [atom_A; atom_B; atom_A; atom_B];
     Structure.bonds := []; Structure.angles := [];
     Structure.dihedrals :=
       [ {| Dihedral.atom1 := atom_A; Dihedral.atom2 := atom_B;
            Dihedral.atom3 := atom_A; Dihedral.atom4 := atom_B;
            Dihedral.type := dihedral_type_1 |} ];
     Structure.rb_torsions := []; Structure.adjusts := [];
     Structure.bond_types := []; Structure.angle_types := [];
     Structure.dihedral_types := [dihedral_type_1];
     Structure.rb_torsion_types := [];
     Structure.structure := None |}.

(** Two atom types with an NBFIX entry for the pair, recorded on A. *)
Definition atom_A_nbfix : Atom.t :=
  {| Atom.type := "A";
     Atom.atom_type :=
       {| AtomType.sigma := 1; AtomType.epsilon := 4;
          AtomType.nbfix := [("A", (3, 7, 0, 0)); ("B", (2, 5, 0, 0))] |} |}.

Definition atom_B_nbfix : Atom.t :=
  {| Atom.type := "B";
     Atom.atom_type :=
       {| AtomType.sigma := 3; AtomType.epsilon := 9;
          AtomType.nbfix := [("B", (4, 6, 0, 0))] |} |}.

Definition nbfix_structure : Structure.t :=
  {| Structure.atoms := [atom_B_nbfix; atom_A_nbfix];
     Structure.bonds := []; Structure.angles := [];
     Structure.dihedrals := []; Structure.rb_torsions := [];
     Structure.adjusts := [];
     Structure.bond_types := []; Structure.angle_types := [];
     Structure.dihedral_types := []; Structure.rb_torsion_types := [];
     Structure.structure := None |}.

(** An object that does carry an inner [structure]: its periodic dihedrals
    are one plain type and one with a phase shift of 180 degrees. *)
Definition dihedral_type_shifted : DihedralType.t :=
  {| DihedralType.phi_k := 5; DihedralType.per := 1%Z;
     DihedralType.phase := 180 |}.

Definition shifted_dihedrals : list Dihedral.t :=
  [ {| Dihedral.atom1 := atom_A; Dihedral.atom2 := atom_B;
       Dihedral.atom3 := atom_A; Dihedral.atom4 := atom_B;
       Dihedral.type := dihedral_type_1 |};
    {| Dihedral.atom1 := atom_B; Dihedral.atom2 := atom_B;
       Dihedral.atom3 := atom_B; Dihedral.atom4 := atom_B;
       Dihedral.type := dihedral_type_shifted |} ].

Definition shifted_dihedral_structure : Structure.t :=
  {| Structure.atoms := [atom_A; atom_B; atom_A; atom_B];
     Structure.bonds := []; Structure.angles := [];
     Structure.dihedrals := shifted_dihedrals;
     Structure.rb_torsions := []; Structure.adjusts := [];
     Structure.bond_types := []; Structure.angle_types := [];
     Structure.dihedral_types := [dihedral_type_1; dihedral_type_shifted];
     Structure.rb_torsion_types := [];
     Structure.structure := Some shifted_dihedrals |}.

(** A file whose box has the three edge lengths and no tilt factors. *)
Definition plain_box : Xml.element :=
  Xml.Element "box" [("lx", "10"); ("ly", "10"); ("lz", "10")] None [].

Definition plain_box_configuration : Xml.element :=
  Xml.Element "configuration" [("time_step", "0")] None
    [plain_box;
     Xml.Element "position" [("num", "1")]
       (Some (nl ++ "1 2 3" ++ nl)%string) [];
     Xml.Element "type" [("num", "1")] (Some (nl ++ "A" ++ nl)%string) []].

Definition plain_box_host : Host :=
  {| namespace := hoomdxml_namespace;
     disk := [("plain.xml",
               xml_document
                 (Xml.Element "hoomd_xml" [] None [plain_box_configuration]))];
     stdout := [] |}.







(** A file for no particle at all. *)
Definition empty_position : Xml.element :=
  Xml.Element "position" [("num", "0")] (Some nl) [].

Definition empty_configuration : Xml.element :=
  Xml.Element "configuration" [("time_step", "0")] None
    [Xml.Element "box"
       [("lx", "10"); ("ly", "10"); ("lz", "10");
        ("xy", "0"); ("xz", "0"); ("yz", "0")] None [];
     empty_position;
     Xml.Element "type" [("num", "0")] (Some nl) []].

Definition empty_host : Host :=
  {| namespace := hoomdxml_namespace;
     disk := [("empty.xml",
               xml_document
                 (Xml.Element "hoomd_xml" [] None [empty_configuration]))];
     stdout := [] |}.



(** A comparison by a key that is the same for distinct names: the names
    in lower case. *)
Definition caseless_lt (a b : string) : bool :=
  String.ltb (Py.lower a) (Py.lower b).

(** The world before a call: the object passed, and nothing done yet. *)
Definition initial (o : object) : World := {| heap := o; trace := [] |}.

(* ------------------------------------------------------------------ *)
(** ** Vocabulary of the further properties *)

(** [m] returns normally whatever the world, having added exactly [calls]
    to the trace. *)
Definition appends (m : M unit) (calls : list effect) : Prop :=
  forall w,
    m w = (inr tt, {| heap := heap w; trace := trace w ++ calls |}).

(** [m] raises [e] whatever the world, having added exactly [calls] to the
    trace. *)
Definition raises_after {A} (m : M A) (e : Py.exn) (calls : list effect)
  : Prop :=
  forall w,
    m w = (inl e, {| heap := heap w; trace := trace w ++ calls |}).

(** Whatever [m] adds to the trace satisfies [Q], however [m] ends. *)
Definition only_emits {A} (Q : effect -> Prop) (m : M A) : Prop :=
  forall w,
    exists calls, trace (snd (m w)) = trace w ++ calls /\ Forall Q calls.

(** What each helper does when all goes well. *)
Definition lj_calls (structure : Structure.t)
    (r_cut ref_distance ref_energy : R) : list effect :=
  hoomd_md_pair_lj r_cut ::
  flat_map (lj_self_call ref_distance ref_energy)
    (atom_type_table structure) ++
  flat_map (lj_cross_call (atom_type_table structure) ref_distance ref_energy)
    (lj_pairs structure).

Definition qq_calls (Nx Ny Nz order : Py.value) (r_cut : R) : list effect :=
  [hoomd_group_charged; hoomd_md_charge_pppm;
   qq_set_params Nx Ny Nz order r_cut].

Definition pairs_14_calls (structure : Structure.t)
    (r_cut ref_distance ref_energy : R) : list effect :=
  [nl_reset_exclusions ["1-2"; "1-3"; "1-4"];
   hoomd_md_special_pair_lj; hoomd_md_special_pair_coulomb] ++
  flat_map (adjust_calls r_cut ref_distance ref_energy)
    (adjust_table structure).

Definition bond_calls (natural_sort_lt : string -> string -> bool)
    (structure : Structure.t) (ref_distance ref_energy : R) : list effect :=
  hoomd_md_bond_harmonic ::
  flat_map (bond_call ref_distance ref_energy)
    (bond_table natural_sort_lt structure).

Definition angle_calls (natural_sort_lt : string -> string -> bool)
    (structure : Structure.t) (ref_energy : R) : list effect :=
  hoomd_md_angle_harmonic ::
  flat_map (angle_call ref_energy) (angle_table natural_sort_lt structure).

Definition periodic_calls (natural_sort_lt : string -> string -> bool)
    (dihedrals : list Dihedral.t) (ref_energy : R) : list effect :=
  hoomd_md_dihedral_harmonic ::
  flat_map (periodic_call ref_energy)
    (dihedral_table natural_sort_lt dihedrals).

Definition rb_calls (natural_sort_lt : string -> string -> bool)
    (RB_to_OPLS : R -> R -> R -> R -> R -> R -> R * R * R * R)
    (structure : Structure.t) (ref_energy : R) : list effect :=
  hoomd_md_dihedral_opls ::
  flat_map (rb_call RB_to_OPLS ref_energy)
    (rb_torsion_table natural_sort_lt structure).

(** The [configuration] element of the document stored under a name. *)
Definition configuration (h : Host) (filename : string)
  : option Xml.element :=
  match Py.get (disk h) filename with
  | Some (xml_document root) => Xml.find root "configuration"
  | _ => None
  end.

(** The attributes of the box, in the order the loader reads them. *)
Definition box_attributes : list string :=
  ["lx"; "ly"; "lz"; "xy"; "xz"; "yz"].

(** The number an attribute of an element stands for, if it has the
    attribute and [float] accepts its text. *)
Definition attribute_value (float : string -> option R)
    (node : Xml.element) (name : string) : option R :=
  match Py.get (Xml.attrib node) name with
  | Some s => float s
  | None => None
  end.

(** The lines of a node's text after the first. *)
Definition data_lines (node : Xml.element) : option (list string) :=
  option_map (fun t => tl (Py.splitlines t)) (Xml.text node).

(** [rows] holds, line by line and field by field, the numbers [float]
    reads from [lines]. *)
Definition parsed_as (float : string -> option R) (lines : list string)
    (rows : list (list R)) : Prop :=
  Forall2
    (fun line row =>
       Forall2 (fun field x => float field = Some x) (Py.split line) row)
    lines rows.


(** The first line the loader prints. *)
Definition report_header (filename : string) : string :=
  ("Parsed the following optional nodes from '" ++ filename ++ "':")%string.

(** The unit cell the loader builds from the box. *)
Definition unit_cell (lx ly lz xy xz : R) : list (list (list R)) :=
  [[[lx; xy * ly; xz * lz];
    [0;  ly;      xy * lz];
    [0;  0;       lz     ]]].

(** [m] leaves the host as it is, however it ends. *)
Definition quiet {A} (m : St Host A) : Prop :=
  forall h, snd (m h) = h.

(** [m] leaves files and globals alone; it either prints nothing and
    raises, or prints a report of two lines, of which [header] is the
    first. *)
Definition reports {A} (header : string) (m : St Host A) : Prop :=
  forall h,
    namespace (snd (m h)) = namespace h /\
    disk (snd (m h)) = disk h /\
    ((stdout (snd (m h)) = stdout h /\ exists e, fst (m h) = inl e) \/
     exists found, stdout (snd (m h)) = stdout h ++ [header; found]).

(** A block of the entry point: skipped, or announced and carried out. *)
Definition gated (condition : bool) (line : string) (calls : list effect)
  : list effect :=
  if condition then print line :: calls else [].

(** The first four things the entry point does to the engine. *)
Definition setup_calls (structure : Structure.t)
    (ref_distance ref_mass ref_energy : R)
    (snapshot_kwargs : Py.dict Py.value) : list effect :=
  [hoomd_context_initialize "";
   hoomd_init_read_snapshot
     (to_hoomdsnapshot structure ref_distance ref_mass ref_energy
        snapshot_kwargs);
   hoomd_md_nlist_cell;
   nl_reset_exclusions ["1-2"; "1-3"]].

(** Whether the first atom of the structure has a type name. *)
Definition first_atom_typed (structure : Structure.t) : bool :=
  match Structure.atoms structure with
  | atom0 :: _ => negb (String.eqb (Atom.type atom0) "")
  | [] => false
  end.

(** What the entry point does from the non-bonded block to the angles. *)
Definition forces_before_dihedrals
    (natural_sort_lt : string -> string -> bool) (structure : Structure.t)
    (ref_distance ref_energy r_cut : R) (pppm_kwargs : Py.dict Py.value)
  : list effect :=
  gated (first_atom_typed structure) "Processing LJ and QQ"
    (lj_calls structure r_cut ref_distance ref_energy ++
     qq_calls (kwarg pppm_kwargs "Nx" (Py.Int 1))
              (kwarg pppm_kwargs "Ny" (Py.Int 1))
              (kwarg pppm_kwargs "Nz" (Py.Int 1))
              (kwarg pppm_kwargs "order" (Py.Int 4)) r_cut) ++
  gated (truthy (Structure.adjusts structure))
    "Processing 1-4 interactions, adjusting neighborlist exclusions"
    (pairs_14_calls structure (12 / 10) ref_distance ref_energy) ++
  gated (truthy (Structure.bond_types structure)) "Processing harmonic bonds"
    (bond_calls natural_sort_lt structure ref_distance ref_energy) ++
  gated (truthy (Structure.angle_types structure))
    "Processing harmonic angles"
    (angle_calls natural_sort_lt structure ref_energy).

(** The keyword dictionaries the entry point can pass on. *)
Definition snapshot_kwargs_fit (snapshot_kwargs : Py.dict Py.value) : bool :=
  negb (kwargs_clash ["structure"; "ref_distance"; "ref_mass"; "ref_energy"]
          snapshot_kwargs).

Definition pppm_kwargs_fit (pppm_kwargs : Py.dict Py.value) : bool :=
  negb (kwargs_clash ["structure"; "nl"; "r_cut"] pppm_kwargs
        || kwargs_unexpected
             ["structure"; "nl"; "Nx"; "Ny"; "Nz"; "order"; "r_cut"]
             pppm_kwargs).

(** The blocks of the entry point, and the block a call belongs to. *)
Inductive block : Type :=
| setup_block
| nonbonded_block
| pairs_14_block
| bond_block
| angle_block
| periodic_block
| rb_block
| output.

Definition block_of (e : effect) : block :=
  match e with
  | hoomd_context_initialize _ | hoomd_init_read_snapshot _
  | hoomd_md_nlist_cell => setup_block
  | nl_reset_exclusions exclusions =>
      if existsb (String.eqb "1-4") exclusions then pairs_14_block
      else setup_block
  | hoomd_md_pair_lj _ | lj_pair_coeff_set _ _ _ _
  | hoomd_group_charged | hoomd_md_charge_pppm
  | qq_set_params _ _ _ _ _ => nonbonded_block
  | hoomd_md_special_pair_lj | hoomd_md_special_pair_coulomb
  | lj_14_pair_coeff_set _ _ _ _ _ | qq_14_pair_coeff_set _ _ _ =>
      pairs_14_block
  | hoomd_md_bond_harmonic | harmonic_bond_bond_coeff_set _ _ _ => bond_block
  | hoomd_md_angle_harmonic | harmonic_angle_angle_coeff_set _ _ _ =>
      angle_block
  | hoomd_md_dihedral_harmonic
  | periodic_torsion_dihedral_coeff_set _ _ _ _ => periodic_block
  | hoomd_md_dihedral_opls | rb_torsion_dihedral_coeff_set _ _ _ _ _ =>
      rb_block
  | print _ | warnings_warn _ => output
  end.

(** The cutoff a special-pair coefficient call carries is 1.2. *)
Definition special_pair_cutoff_is_default (e : effect) : Prop :=
  match e with
  | lj_14_pair_coeff_set _ _ _ _ r_cut => r_cut = 12 / 10
  | qq_14_pair_coeff_set _ _ r_cut => r_cut = 12 / 10
  | _ => True
  end.

(** Whether the cross loop finds an NBFIX entry for a pair of type names:
    it looks in the table of the first type only. *)
Definition has_nbfix (structure : Structure.t) (pair : string * string)
  : bool :=
  let '(a1, a2) := pair in
  match Py.get (atom_type_table structure) a1 with
  | Some p1 =>
      match Py.get (AtomType.nbfix p1) a2 with
      | Some _ => true
      | None => false
      end
  | None => false
  end.

(* ================================================================== *)
(** * Properties *)

(* ------------------------------------------------------------------ *)
(** ** Dictionaries *)

Section DictFacts.
Context {V : Type}.
Implicit Types (d : Py.dict V) (k : string) (v : V).

Lemma contains_In k d : Py.contains k d = true <-> In k (Py.keys d).
Proof.
  induction d as [|[k' v'] d IH]; simpl.
  - split; [discriminate | tauto].
  - destruct (String.eqb_spec k' k) as [->|Hne].
    + split; auto.
    + rewrite IH. split; [auto | intros [H|H]; [contradiction | exact H]].
Qed.

Lemma contains_false_In k d : Py.contains k d = false <-> ~ In k (Py.keys d).
Proof.
  rewrite <- contains_In. destruct (Py.contains k d); split; congruence.
Qed.

Lemma setitem_new k v d :
  Py.contains k d = false -> Py.setitem d k v = d ++ [(k, v)].
Proof.
  induction d as [|[k' v'] d IH]; simpl; [reflexivity|].
  destruct (String.eqb k' k); [discriminate|].
  intros H. now rewrite IH.
Qed.

Lemma get_In k v d : Py.get d k = Some v -> In (k, v) d.
Proof.
  induction d as [|[k' v'] d IH]; simpl; [discriminate|].
  destruct (String.eqb_spec k' k) as [->|Hne].
  - intros [= ->]. now left.
  - auto.
Qed.

Lemma In_get k v d : NoDup (Py.keys d) -> In (k, v) d -> Py.get d k = Some v.
Proof.
  induction d as [|[k' v'] d IH]; simpl; [tauto|].
  intros Hnd [H|H]; inversion Hnd as [|? ? Hnotin Hnd']; subst.
  - inversion H; subst. now rewrite String.eqb_refl.
  - destruct (String.eqb_spec k' k) as [->|Hne]; [|auto].
    exfalso. apply Hnotin. change k with (fst (k, v)).
    now apply in_map.
Qed.

Lemma contains_get k d :
  Py.contains k d = true -> exists v, Py.get d k = Some v.
Proof.
  induction d as [|[k' v'] d IH]; simpl; [discriminate|].
  destruct (String.eqb k' k); eauto.
Qed.

Lemma keys_app d1 d2 : Py.keys (d1 ++ d2) = Py.keys d1 ++ Py.keys d2.
Proof. apply map_app. Qed.

End DictFacts.

(* ------------------------------------------------------------------ *)
(** ** The de-duplicating loop *)

Section FirstSeen.
Context {E V : Type} (key : E -> option string) (val : E -> V).

Lemma enter_NoDup d e : NoDup (Py.keys d) -> NoDup (Py.keys (enter key val d e)).
Proof.
  intros Hnd. unfold enter. destruct (key e) as [k|]; [|exact Hnd].
  destruct (Py.contains k d) eqn:Hc; simpl; [exact Hnd|].
  rewrite setitem_new by exact Hc. rewrite keys_app. simpl.
  apply NoDup_app. repeat split; auto.
  - constructor; [intros []|constructor].
  - intros x Hx [<-|[]]. now apply contains_false_In in Hc.
Qed.

Lemma fold_enter_NoDup l d :
  NoDup (Py.keys d) -> NoDup (Py.keys (fold_left (enter key val) l d)).
Proof.
  revert d. induction l as [|e l IH]; simpl; intros d Hnd; [exact Hnd|].
  apply IH. now apply enter_NoDup.
Qed.

Lemma fold_enter_In l : forall d k v,
  NoDup (Py.keys d) ->
  (In (k, v) (fold_left (enter key val) l d) <->
   In (k, v) d \/
   (~ In k (Py.keys d) /\ option_map val (first_with key k l) = Some v)).
Proof.
  induction l as [|e l IH]; simpl; intros d k v Hnd.
  - split; [auto | intros [H|[_ H]]; [exact H | discriminate]].
  - rewrite IH by now apply enter_NoDup.
    unfold enter. destruct (key e) as [k0|]; [|reflexivity].
    destruct (Py.contains k0 d) eqn:Hc; simpl.
    + destruct (String.eqb_spec k0 k) as [->|Hne]; [|reflexivity].
      apply contains_In in Hc. split; intros [H|[Hn _]]; auto; contradiction.
    + rewrite setitem_new by exact Hc. rewrite keys_app. simpl.
      apply contains_false_In in Hc.
      destruct (String.eqb_spec k0 k) as [->|Hne]; simpl.
      * split.
        -- intros [H|[Hn _]].
           ++ apply in_app_or in H. destruct H as [H|[H|[]]]; [now left|].
              inversion H; subst. right. auto.
           ++ exfalso. apply Hn. apply in_or_app. right. now left.
        -- intros [H|[_ H]]; left; apply in_or_app; [now left|].
           right. left. now inversion H.
      * split.
        -- intros [H|[Hn H]].
           ++ apply in_app_or in H. destruct H as [H|[H|[]]]; [now left|].
              inversion H; subst. contradiction.
           ++ right. split; [|exact H]. intros Hin. apply Hn.
              apply in_or_app. now left.
        -- intros [H|[Hn H]].
           ++ left. apply in_or_app. now left.
           ++ right. split; [|exact H]. intros Hin.
              apply in_app_or in Hin. destruct Hin as [Hin|[Hin|[]]]; auto.
Qed.

Lemma first_seen_NoDup l : NoDup (Py.keys (first_seen key val l)).
Proof. apply fold_enter_NoDup. constructor. Qed.

Lemma first_seen_In l k v :
  In (k, v) (first_seen key val l) <->
  option_map val (first_with key k l) = Some v.
Proof.
  unfold first_seen. rewrite fold_enter_In by constructor.
  simpl. tauto.
Qed.

Lemma first_seen_contains l k :
  Py.contains k (first_seen key val l) =
  match first_with key k l with Some _ => true | None => false end.
Proof.
  destruct (first_with key k l) as [e|] eqn:Hf.
  - apply contains_In.
    assert (H : In (k, val e) (first_seen key val l))
      by (apply first_seen_In; now rewrite Hf).
    change k with (fst (k, val e)). now apply in_map.
  - apply contains_false_In. intros Hin.
    apply in_map_iff in Hin. destruct Hin as [[k' v] [Hk Hin]].
    simpl in Hk. subst k'. apply first_seen_In in Hin.
    rewrite Hf in Hin. discriminate.
Qed.

End FirstSeen.

(* ------------------------------------------------------------------ *)
(** ** Counting calls *)

Lemma count_app {X} (p : X -> bool) (l1 l2 : list X) :
  count p (l1 ++ l2) = (count p l1 + count p l2)%nat.
Proof. unfold count. now rewrite filter_app, length_app. Qed.

Section Calls.
Context {V : Type} (mk : string * V -> list effect).
Context (is_call : string -> effect -> bool).
Hypothesis mk_is_call : forall k v name,
  count (is_call name) (mk (k, v)) = if String.eqb k name then 1%nat else 0%nat.

Lemma count_flat_map_items name (d : Py.dict V) :
  NoDup (Py.keys d) ->
  count (is_call name) (flat_map mk d) =
  if Py.contains name d then 1%nat else 0%nat.
Proof.
  induction d as [|[k v] d IH]; simpl; intros Hnd; [reflexivity|].
  inversion Hnd as [|? ? Hnotin Hnd']; subst.
  rewrite count_app, mk_is_call, IH by exact Hnd'.
  destruct (String.eqb_spec k name) as [->|Hne]; [|reflexivity].
  apply contains_false_In in Hnotin. now rewrite Hnotin.
Qed.

(** What a de-duplicating loop followed by a loop of calls over its table
    comes to: a signature borne by some entity gets exactly one call, made
    from the first entity that bears it; any other name gets none. *)
Lemma dedup_calls {E} (key : E -> option string) (val : E -> V)
    (l : list E) (name : string) :
  match first_with key name l with
  | Some e =>
      count (is_call name) (flat_map mk (first_seen key val l)) = 1%nat /\
      incl (mk (name, val e)) (flat_map mk (first_seen key val l))
  | None =>
      count (is_call name) (flat_map mk (first_seen key val l)) = 0%nat
  end.
Proof.
  rewrite count_flat_map_items by apply first_seen_NoDup.
  rewrite first_seen_contains.
  destruct (first_with key name l) as [e|] eqn:Hf; [|reflexivity].
  split; [reflexivity|].
  intros c Hc. apply in_flat_map. exists (name, val e). split; [|exact Hc].
  apply first_seen_In. now rewrite Hf.
Qed.

End Calls.

(* ------------------------------------------------------------------ *)
(** ** Running computations *)

Lemma truediv_ok {S} (x y : R) (w : S) :
  y <> 0 -> truediv x y w = (inr (x / y), w).
Proof.
  intros Hy. unfold truediv. destruct (Req_dec_T y 0); [contradiction|].
  reflexivity.
Qed.

Lemma truediv_zero {S} (x : R) (w : S) :
  truediv x 0 w = (inl Py.ZeroDivisionError, w).
Proof.
  unfold truediv. destruct (Req_dec_T 0 0); [reflexivity|contradiction].
Qed.

Lemma for_emits {X} (g : X -> list effect) (l : list X)
    (body : X -> M unit) :
  (forall x w, In x l ->
     body x w = (inr tt, {| heap := heap w; trace := trace w ++ g x |})) ->
  forall w,
    for_ l body w =
    (inr tt, {| heap := heap w; trace := trace w ++ flat_map g l |}).
Proof.
  induction l as [|x l IH]; intros Hbody w; simpl.
  - unfold ret. rewrite app_nil_r. now destruct w.
  - unfold bind. rewrite Hbody by now left.
    rewrite IH by (intros; apply Hbody; now right).
    simpl. now rewrite app_assoc.
Qed.

(** *** Sorting and pairing *)

Lemma insort_Permutation {X} (lt : X -> X -> bool) x l :
  Permutation (Py.insort lt x l) (x :: l).
Proof.
  induction l as [|y l IH]; simpl; [reflexivity|].
  destruct (lt x y); [reflexivity|].
  rewrite IH. apply perm_swap.
Qed.

Lemma fold_insort_Permutation {X} (lt : X -> X -> bool) l : forall acc,
  Permutation (fold_left (fun acc x => Py.insort lt x acc) l acc) (l ++ acc).
Proof.
  induction l as [|x l IH]; intros acc; simpl; [reflexivity|].
  rewrite IH, insort_Permutation. symmetry. apply Permutation_middle.
Qed.

Lemma sorted_Permutation {X} (lt : X -> X -> bool) l :
  Permutation (Py.sorted lt l) l.
Proof.
  unfold Py.sorted. rewrite fold_insort_Permutation. now rewrite app_nil_r.
Qed.

Lemma combinations_In {X} (l : list X) a b :
  In (a, b) (Py.combinations_with_replacement_2 l) -> In a l /\ In b l.
Proof.
  induction l as [|x l IH]; simpl; [tauto|].
  intros [H|H].
  - inversion H; subst. auto.
  - apply in_app_or in H. destruct H as [H|H].
    + apply in_map_iff in H. destruct H as [y [Hy Hin]].
      inversion Hy; subst. auto.
    + apply IH in H. tauto.
Qed.

Lemma getitem_ok {S V} (d : Py.dict V) k v (w : S) :
  Py.get d k = Some v -> getitem d k w = (inr v, w).
Proof. intros H. unfold getitem. now rewrite H. Qed.

Lemma lj_pairs_get structure a1 a2 :
  In (a1, a2) (lj_pairs structure) ->
  exists p1 p2,
    Py.get (atom_type_table structure) a1 = Some p1 /\
    Py.get (atom_type_table structure) a2 = Some p2.
Proof.
  intros H. apply combinations_In in H. destruct H as [H1 H2].
  apply (Permutation_in _ (sorted_Permutation _ _)) in H1.
  apply (Permutation_in _ (sorted_Permutation _ _)) in H2.
  apply contains_In, contains_get in H1. apply contains_In, contains_get in H2.
  destruct H1 as [p1 H1]. destruct H2 as [p2 H2]. eauto.
Qed.

Lemma Rpower_2_sixth_pos : 0 < Rpower 2 (1 / 6).
Proof. unfold Rpower. apply exp_pos. Qed.

(** The calls of [_init_hoomd_lj] under the 'lorentz' rule. *)
Lemma _init_hoomd_lj_run structure r_cut mixing_rule ref_distance ref_energy w :
  Py.lower mixing_rule = "lorentz" ->
  ref_distance <> 0 -> ref_energy <> 0 ->
  _init_hoomd_lj structure r_cut mixing_rule ref_distance ref_energy w =
  (inr tt,
   {| heap := heap w;
      trace := trace w ++ hoomd_md_pair_lj r_cut ::
        flat_map (lj_self_call ref_distance ref_energy)
          (atom_type_table structure) ++
        flat_map (lj_cross_call (atom_type_table structure)
                    ref_distance ref_energy)
          (lj_pairs structure) |}).
Proof.
  intros Hm Hd He. unfold _init_hoomd_lj, bind, emit.
  cbv beta iota zeta. cbn [heap trace].
  erewrite (for_emits (lj_self_call ref_distance ref_energy));
    cbn [heap trace].
  - erewrite (for_emits (lj_cross_call (atom_type_table structure)
                           ref_distance ref_energy)); cbn [heap trace].
    + rewrite <- !app_assoc. reflexivity.
    + intros [a1 a2] w' Hin. cbv beta iota.
      destruct (lj_pairs_get _ _ _ Hin) as [p1 [p2 [H1 H2]]].
      change (fold_left _ (Structure.atoms structure) [])
        with (atom_type_table structure).
      unfold lj_cross_call, bind. rewrite (getitem_ok _ _ _ _ H1). rewrite H1, H2.
      destruct (Py.get (AtomType.nbfix p1) a2) as [[[[rmin eps] r14] e14]|].
      * rewrite !truediv_ok; auto.
        apply Rmult_integral_contrapositive_currified; auto.
        apply Rgt_not_eq, Rpower_2_sixth_pos.
      * rewrite Hm. change ("lorentz" =? "lorentz")%string with true.
        cbv beta iota.
        rewrite (getitem_ok _ _ _ _ H1), (getitem_ok _ _ _ _ H2).
        rewrite truediv_ok by lra.
        rewrite (getitem_ok _ _ _ _ H1), (getitem_ok _ _ _ _ H2).
        rewrite truediv_ok by (apply pow_nonzero; assumption).
        reflexivity.
  - intros [name atom_type] w' _. simpl. unfold bind.
    rewrite !truediv_ok by assumption. reflexivity.
Qed.

(** The calls of the loop over the table of 1-4 pairs. *)
Lemma _init_hoomd_14_pairs_run structure r_cut ref_distance ref_energy w :
  ref_distance <> 0 -> ref_energy <> 0 ->
  _init_hoomd_14_pairs structure r_cut ref_distance ref_energy w =
  (inr tt,
   {| heap := heap w;
      trace := trace w ++
        [nl_reset_exclusions ["1-2"; "1-3"; "1-4"];
         hoomd_md_special_pair_lj; hoomd_md_special_pair_coulomb] ++
        flat_map (adjust_calls r_cut ref_distance ref_energy)
          (adjust_table structure) |}).
Proof.
  intros Hd He. unfold _init_hoomd_14_pairs, bind, emit.
  cbv beta iota zeta. cbn [heap trace].
  erewrite (for_emits (adjust_calls r_cut ref_distance ref_energy));
    cbn [heap trace].
  - rewrite <- !app_assoc. reflexivity.
  - intros [name adjust_type] w' _. cbv beta iota. unfold bind, emit.
    rewrite !truediv_ok by assumption. cbn [heap trace].
    rewrite <- app_assoc. reflexivity.
Qed.

Section HelperRuns.
Variable natural_sort_lt : string -> string -> bool.
Variable RB_to_OPLS : R -> R -> R -> R -> R -> R -> R * R * R * R.

(** The calls of the loop over the table of bond types. *)
Lemma _init_hoomd_bonds_run structure ref_distance ref_energy w :
  ref_distance <> 0 -> ref_energy <> 0 ->
  _init_hoomd_bonds natural_sort_lt structure ref_distance ref_energy w =
  (inr tt,
   {| heap := heap w;
      trace := trace w ++ hoomd_md_bond_harmonic ::
        flat_map (bond_call ref_distance ref_energy)
          (bond_table natural_sort_lt structure) |}).
Proof.
  intros Hd He. unfold _init_hoomd_bonds, bind, emit.
  cbv beta iota zeta. cbn [heap trace].
  erewrite (for_emits (bond_call ref_distance ref_energy)); cbn [heap trace].
  - rewrite <- app_assoc. reflexivity.
  - intros [name bond_type] w' _. cbv beta iota. unfold bind.
    rewrite !truediv_ok by assumption. reflexivity.
Qed.

Lemma _init_hoomd_angles_run structure ref_energy w :
  ref_energy <> 0 ->
  _init_hoomd_angles natural_sort_lt structure ref_energy w =
  (inr tt,
   {| heap := heap w;
      trace := trace w ++ hoomd_md_angle_harmonic ::
        flat_map (angle_call ref_energy)
          (angle_table natural_sort_lt structure) |}).
Proof.
  intros He. unfold _init_hoomd_angles, bind, emit.
  cbv beta iota zeta. cbn [heap trace].
  erewrite (for_emits (angle_call ref_energy)); cbn [heap trace].
  - rewrite <- app_assoc. reflexivity.
  - intros [name angle_type] w' _. cbv beta iota. unfold bind.
    rewrite !truediv_ok by assumption. reflexivity.
Qed.

Lemma _init_hoomd_rb_torsions_run structure ref_energy w :
  ref_energy <> 0 ->
  _init_hoomd_rb_torsions natural_sort_lt RB_to_OPLS structure ref_energy w =
  (inr tt,
   {| heap := heap w;
      trace := trace w ++ hoomd_md_dihedral_opls ::
        flat_map (rb_call RB_to_OPLS ref_energy)
          (rb_torsion_table natural_sort_lt structure) |}).
Proof.
  intros He. unfold _init_hoomd_rb_torsions, bind, emit.
  cbv beta iota zeta. cbn [heap trace].
  erewrite (for_emits (rb_call RB_to_OPLS ref_energy)); cbn [heap trace].
  - rewrite <- app_assoc. reflexivity.
  - intros [name dihedral_type] w' _. cbv beta iota. unfold bind, rb_call.
    rewrite !truediv_ok by assumption.
    destruct (RB_to_OPLS _ _ _ _ _ _) as [[[k1 k2] k3] k4]. reflexivity.
Qed.

(** Periodic dihedrals: when the object carries a [structure] attribute and
    no type in the table has a phase above the threshold. *)
Lemma _init_hoomd_dihedrals_run structure dihedrals ref_energy w :
  Structure.structure structure = Some dihedrals ->
  (forall name dihedral_type,
     In (name, dihedral_type) (dihedral_table natural_sort_lt dihedrals) ->
     DihedralType.phase dihedral_type <= 1 / 10000) ->
  ref_energy <> 0 ->
  _init_hoomd_dihedrals natural_sort_lt structure ref_energy w =
  (inr tt,
   {| heap := heap w;
      trace := trace w ++ hoomd_md_dihedral_harmonic ::
        flat_map (periodic_call ref_energy)
          (dihedral_table natural_sort_lt dihedrals) |}).
Proof.
  intros Hs Hphase He. unfold _init_hoomd_dihedrals. rewrite Hs.
  unfold bind, emit. cbv beta iota zeta. cbn [heap trace].
  erewrite (for_emits (periodic_call ref_energy)); cbn [heap trace].
  - rewrite <- app_assoc. reflexivity.
  - intros [name dihedral_type] w' Hin. cbv beta iota.
    destruct (Rgt_dec _ _) as [Hgt|_].
    + apply Hphase in Hin. lra.
    + unfold bind. rewrite !truediv_ok by assumption. reflexivity.
Qed.

End HelperRuns.

(* ------------------------------------------------------------------ *)
(** ** The order on strings, sorted lists and pairs *)

Lemma ascii_compare_refl (a : ascii) : Ascii.compare a a = Eq.
Proof. unfold Ascii.compare. apply N.compare_refl. Qed.

Lemma ascii_compare_lt_trans (a b c : ascii) :
  Ascii.compare a b = Lt -> Ascii.compare b c = Lt -> Ascii.compare a c = Lt.
Proof.
  unfold Ascii.compare. rewrite !N.compare_lt_iff. apply N.lt_trans.
Qed.

Lemma string_compare_refl (s : string) : String.compare s s = Eq.
Proof.
  induction s as [|a s IH]; simpl; [reflexivity|].
  now rewrite ascii_compare_refl.
Qed.

Lemma string_compare_lt_trans : forall s1 s2 s3 : string,
  String.compare s1 s2 = Lt -> String.compare s2 s3 = Lt ->
  String.compare s1 s3 = Lt.
Proof.
  induction s1 as [|a s1 IH]; intros [|b s2] [|c s3]; simpl;
    try discriminate; try reflexivity.
  destruct (Ascii.compare a b) eqn:Hab; try discriminate;
    destruct (Ascii.compare b c) eqn:Hbc; try discriminate; intros H1 H2.
  - apply Ascii.compare_eq_iff in Hab, Hbc. subst.
    rewrite ascii_compare_refl. eauto.
  - apply Ascii.compare_eq_iff in Hab. subst. now rewrite Hbc.
  - apply Ascii.compare_eq_iff in Hbc. subst. now rewrite Hab.
  - now rewrite (ascii_compare_lt_trans _ _ _ Hab Hbc).
Qed.

Lemma ltb_compare (a b : string) :
  String.ltb a b = true <-> String.compare a b = Lt.
Proof. unfold String.ltb. destruct (String.compare a b); split; congruence. Qed.

Lemma leb_ltb (a b : string) : String.leb a b = negb (String.ltb b a).
Proof.
  unfold String.leb, String.ltb. rewrite (String.compare_antisym b a).
  now destruct (String.compare a b).
Qed.

Lemma leb_refl (a : string) : String.leb a a = true.
Proof. unfold String.leb. now rewrite string_compare_refl. Qed.

Lemma ltb_leb (a b : string) : String.ltb a b = true -> String.leb a b = true.
Proof.
  rewrite ltb_compare. unfold String.leb. now intros ->.
Qed.

Lemma leb_trans (a b c : string) :
  String.leb a b = true -> String.leb b c = true -> String.leb a c = true.
Proof.
  unfold String.leb.
  destruct (String.compare a b) eqn:Hab; try discriminate;
    destruct (String.compare b c) eqn:Hbc; try discriminate; intros _ _.
  - apply String.compare_eq_iff in Hab, Hbc. subst.
    now rewrite string_compare_refl.
  - apply String.compare_eq_iff in Hab. subst. now rewrite Hbc.
  - apply String.compare_eq_iff in Hbc. subst. now rewrite Hab.
  - now rewrite (string_compare_lt_trans _ _ _ Hab Hbc).
Qed.

Lemma insort_In {X} (lt : X -> X -> bool) x y l :
  In y (Py.insort lt x l) <-> y = x \/ In y l.
Proof.
  split; intros H.
  - apply (Permutation_in _ (insort_Permutation lt x l)) in H.
    destruct H; auto.
  - apply (Permutation_in _ (Permutation_sym (insort_Permutation lt x l))).
    destruct H; [left|right]; auto.
Qed.

Lemma insort_sorted x l :
  StronglySorted le_string l ->
  StronglySorted le_string (Py.insort String.ltb x l).
Proof.
  induction 1 as [|y l Hs IH Hall]; simpl.
  - repeat constructor.
  - destruct (String.ltb x y) eqn:Hlt.
    + constructor; [now constructor|].
      apply ltb_leb in Hlt. constructor; [exact Hlt|].
      eapply Forall_impl; [|exact Hall].
      intros z Hz. eapply leb_trans; eassumption.
    + constructor; [exact IH|].
      apply Forall_forall. intros z Hz. apply insort_In in Hz.
      destruct Hz as [->|Hz].
      * unfold le_string. now rewrite leb_ltb, Hlt.
      * rewrite Forall_forall in Hall. auto.
Qed.

Lemma fold_insort_sorted l : forall acc,
  StronglySorted le_string acc ->
  StronglySorted le_string
    (fold_left (fun acc x => Py.insort String.ltb x acc) l acc).
Proof.
  induction l as [|x l IH]; simpl; intros acc Hs; [exact Hs|].
  apply IH. now apply insort_sorted.
Qed.

Lemma sorted_StronglySorted l :
  StronglySorted le_string (Py.sorted String.ltb l).
Proof. apply fold_insort_sorted. constructor. Qed.

Lemma combinations_sorted l a b :
  StronglySorted le_string l ->
  In (a, b) (Py.combinations_with_replacement_2 l) -> le_string a b.
Proof.
  induction 1 as [|x l Hs IH Hall]; simpl; [tauto|].
  intros [H|H].
  - inversion H; subst. apply leb_refl.
  - apply in_app_or in H. destruct H as [H|H]; [|auto].
    apply in_map_iff in H. destruct H as [y [Hy Hin]].
    inversion Hy; subst. rewrite Forall_forall in Hall. auto.
Qed.

Lemma combinations_total {X} (l : list X) a b :
  In a l -> In b l ->
  In (a, b) (Py.combinations_with_replacement_2 l) \/
  In (b, a) (Py.combinations_with_replacement_2 l).
Proof.
  induction l as [|x l IH]; simpl; [tauto|].
  intros [->|Ha] [->|Hb].
  - left. now left.
  - left. right. apply in_or_app. left. now apply in_map.
  - right. right. apply in_or_app. left. now apply in_map.
  - destruct (IH Ha Hb) as [H|H]; [left|right]; right; apply in_or_app;
      now right.
Qed.

Lemma combinations_NoDup {X} (l : list X) :
  NoDup l -> NoDup (Py.combinations_with_replacement_2 l).
Proof.
  induction 1 as [|x l Hnotin Hnd IH]; simpl; [constructor|].
  constructor.
  - intros H. apply in_app_or in H. destruct H as [H|H].
    + apply in_map_iff in H. destruct H as [y [Hy Hin]].
      inversion Hy; subst. contradiction.
    + apply combinations_In in H. tauto.
  - apply NoDup_app; [|exact IH|].
    + apply Finite.Injective_map_NoDup; [|exact Hnd].
      intros y z Hyz. now inversion Hyz.
    + intros [a b] Hin1 Hin2. apply in_map_iff in Hin1.
      destruct Hin1 as [y [Hy _]]. inversion Hy; subst.
      apply combinations_In in Hin2. tauto.
Qed.

(* ------------------------------------------------------------------ *)
(** ** The Lennard-Jones calls, counted *)

Lemma count_pair_NoDup (l : list (string * string)) a b :
  NoDup l ->
  count (fun p => String.eqb (fst p) a && String.eqb (snd p) b) l =
  if existsb (fun p => String.eqb (fst p) a && String.eqb (snd p) b) l
  then 1%nat else 0%nat.
Proof.
  induction 1 as [|[x y] l Hnotin Hnd IH]; [reflexivity|].
  unfold count in *. simpl.
  destruct (String.eqb_spec x a) as [->|Hx];
    destruct (String.eqb_spec y b) as [->|Hy]; simpl; try exact IH.
  rewrite IH.
  destruct (existsb _ l) eqn:He; [|reflexivity].
  exfalso. apply Hnotin. apply existsb_exists in He.
  destruct He as [[x y] [Hin Hxy]]. simpl in Hxy.
  apply andb_true_iff in Hxy. destruct Hxy as [H1 H2].
  apply String.eqb_eq in H1, H2. now subst.
Qed.

Lemma existsb_pair_In (l : list (string * string)) a b :
  existsb (fun p => String.eqb (fst p) a && String.eqb (snd p) b) l = true
  <-> In (a, b) l.
Proof.
  rewrite existsb_exists. split.
  - intros [[x y] [Hin Hxy]]. simpl in Hxy.
    apply andb_true_iff in Hxy. destruct Hxy as [H1 H2].
    apply String.eqb_eq in H1, H2. now subst.
  - intros Hin. exists (a, b). simpl. now rewrite !String.eqb_refl.
Qed.

Lemma lj_cross_count_pairs (d : Py.dict AtomType.t) rd re a b pairs :
  (forall a1 a2, In (a1, a2) pairs ->
     Py.contains a1 d = true /\ Py.contains a2 d = true) ->
  count (is_lj_pair_coeff_set a b) (flat_map (lj_cross_call d rd re) pairs) =
  count (fun p => String.eqb (fst p) a && String.eqb (snd p) b) pairs.
Proof.
  induction pairs as [|[a1 a2] pairs IH]; intros Hin; [reflexivity|].
  simpl flat_map. rewrite count_app, IH
    by (intros; apply Hin; now right).
  destruct (Hin a1 a2 (or_introl eq_refl)) as [H1 H2].
  apply contains_get in H1, H2. destruct H1 as [p1 H1], H2 as [p2 H2].
  unfold lj_cross_call. rewrite H1, H2.
  unfold count at 3. simpl filter.
  destruct (Py.get (AtomType.nbfix p1) a2) as [[[[rmin eps] r14] e14]|];
    unfold count; simpl;
    destruct (String.eqb a1 a && String.eqb a2 b); reflexivity.
Qed.

Lemma lj_pairs_NoDup structure : NoDup (lj_pairs structure).
Proof.
  apply combinations_NoDup.
  apply (Permutation_NoDup (Permutation_sym (sorted_Permutation _ _))).
  apply first_seen_NoDup.
Qed.

Lemma lj_pairs_In structure a b :
  In (a, b) (lj_pairs structure) <->
  Py.contains a (atom_type_table structure) = true /\
  Py.contains b (atom_type_table structure) = true /\
  le_string a b.
Proof.
  unfold lj_pairs. rewrite !contains_In. split.
  - intros H. pose proof (combinations_sorted _ _ _
                            (sorted_StronglySorted _) H) as Hle.
    apply combinations_In in H. destruct H as [Ha Hb].
    apply (Permutation_in _ (sorted_Permutation _ _)) in Ha, Hb. auto.
  - intros [Ha [Hb Hle]].
    apply (Permutation_in _ (Permutation_sym (sorted_Permutation String.ltb _)))
      in Ha, Hb.
    destruct (combinations_total _ _ _ Ha Hb) as [H|H]; [exact H|].
    pose proof (combinations_sorted _ _ _ (sorted_StronglySorted _) H) as Hle'.
    now rewrite (String.leb_antisym _ _ Hle Hle') in *.
Qed.

(** The cross loop sets the pair ([a], [b]) once if both are types of the
    structure and [a <= b], and never otherwise. *)
Lemma lj_cross_count structure ref_distance ref_energy a b :
  count (is_lj_pair_coeff_set a b)
    (flat_map (lj_cross_call (atom_type_table structure)
                 ref_distance ref_energy) (lj_pairs structure)) =
  if Py.contains a (atom_type_table structure)
     && Py.contains b (atom_type_table structure) && String.leb a b
  then 1%nat else 0%nat.
Proof.
  rewrite lj_cross_count_pairs.
  - rewrite count_pair_NoDup by apply lj_pairs_NoDup.
    destruct (existsb _ (lj_pairs structure)) eqn:He.
    + apply existsb_pair_In, lj_pairs_In in He.
      destruct He as [-> [-> ->]]. reflexivity.
    + destruct (Py.contains a _ && Py.contains b _ && String.leb a b) eqn:Hc;
        [|reflexivity].
      apply andb_true_iff in Hc. destruct Hc as [Hc Hle].
      apply andb_true_iff in Hc. destruct Hc as [Ha Hb].
      assert (Hin : In (a, b) (lj_pairs structure))
        by (apply lj_pairs_In; auto).
      apply existsb_pair_In in Hin. congruence.
  - intros a1 a2 Hin. apply lj_pairs_In in Hin. tauto.
Qed.

(** The self loop sets ([name], [name]) once for each type of the
    structure. *)
Lemma lj_self_count structure ref_distance ref_energy name :
  count (is_lj_pair_coeff_set name name)
    (flat_map (lj_self_call ref_distance ref_energy)
       (atom_type_table structure)) =
  if Py.contains name (atom_type_table structure) then 1%nat else 0%nat.
Proof.
  apply (count_flat_map_items (lj_self_call ref_distance ref_energy)
           (fun name => is_lj_pair_coeff_set name name)).
  - intros k v n. unfold count. simpl.
    destruct (String.eqb k n); reflexivity.
  - apply first_seen_NoDup.
Qed.

(* ------------------------------------------------------------------ *)
(** ** Harmonic angles *)

Lemma deg2rad_formula (x : R) : deg2rad x = x * PI / 180.
Proof. unfold deg2rad. field. Qed.

Lemma angle_call_count ref_energy k v name :
  count (is_angle_coeff_set name) (angle_call ref_energy (k, v)) =
  if String.eqb k name then 1%nat else 0%nat.
Proof.
  unfold count. simpl. destruct (String.eqb k name); reflexivity.
Qed.

(** C6: with a non-zero reference energy, [_init_hoomd_angles] returns
    normally and, after creating the harmonic angle force, makes for every
    angle signature of the structure exactly one coefficient call, whose
    [t0] is the [theteq] of the first angle bearing the signature times
    pi / 180 and whose [k] is twice its [k] divided by [ref_energy]; a
    name that is no angle signature of the structure gets no call. *)
Theorem C6_harmonic_angle_coefficients
    (natural_sort_lt : string -> string -> bool)
    (structure : Structure.t) (ref_energy : R) (w : World) :
  ref_energy <> 0 ->
  exists calls,
    _init_hoomd_angles natural_sort_lt structure ref_energy w =
      (inr tt, {| heap := heap w;
                  trace := trace w ++ hoomd_md_angle_harmonic :: calls |}) /\
    forall name,
      match first_with (angle_signature natural_sort_lt) name
              (Structure.angles structure) with
      | Some angle =>
          count (is_angle_coeff_set name) calls = 1%nat /\
          In (harmonic_angle_angle_coeff_set name
                (AngleType.theteq (Angle.type angle) * PI / 180)
                (2 * AngleType.k (Angle.type angle) / ref_energy)) calls
      | None => count (is_angle_coeff_set name) calls = 0%nat
      end.
Proof.
  intros He. eexists. split; [now apply _init_hoomd_angles_run|].
  intros name.
  pose proof (dedup_calls (angle_call ref_energy) is_angle_coeff_set
                (angle_call_count ref_energy)
                (angle_signature natural_sort_lt) Angle.type
                (Structure.angles structure) name) as H.
  fold (angle_table natural_sort_lt structure) in H.
  destruct (first_with _ name _) as [angle|]; [|exact H].
  destruct H as [Hc Hi]. split; [exact Hc|].
  apply Hi. simpl. left. now rewrite deg2rad_formula.
Qed.

Lemma C6_harmonic_angle_coefficients_witness :
  exists calls,
    _init_hoomd_angles String.ltb two_type_structure 1
      (initial (pmd_Structure two_type_structure)) =
      (inr tt, {| heap := pmd_Structure two_type_structure;
                  trace := [] ++ hoomd_md_angle_harmonic :: calls |}) /\
    forall name,
      match first_with (angle_signature String.ltb) name
              (Structure.angles two_type_structure) with
      | Some angle =>
          count (is_angle_coeff_set name) calls = 1%nat /\
          In (harmonic_angle_angle_coeff_set name
                (AngleType.theteq (Angle.type angle) * PI / 180)
                (2 * AngleType.k (Angle.type angle) / 1)) calls
      | None => count (is_angle_coeff_set name) calls = 0%nat
      end.
Proof.
  apply (C6_harmonic_angle_coefficients String.ltb two_type_structure 1
           (initial (pmd_Structure two_type_structure))).
  apply R1_neq_R0.
Defined.

(* ------------------------------------------------------------------ *)
(** ** What every computation of the module respects *)

Section Behaves.
Variable P : Py.exn -> Prop.

Lemma behaves_ret {A} (a : A) : behaves P (ret a).
Proof.
  intros w. simpl. repeat split.
  - exists []. now rewrite app_nil_r.
  - discriminate.
Qed.

Lemma behaves_raise {A} (e : Py.exn) : P e -> behaves P (@raise World A e).
Proof.
  intros He w. simpl. repeat split.
  - exists []. now rewrite app_nil_r.
  - now intros e' [= <-].
Qed.

Lemma behaves_emit (e : effect) : behaves P (emit e).
Proof.
  intros w. simpl. repeat split.
  - now exists [e].
  - discriminate.
Qed.

Lemma behaves_the_object : behaves P the_object.
Proof.
  intros w. simpl. repeat split.
  - exists []. now rewrite app_nil_r.
  - discriminate.
Qed.

Lemma behaves_bind {A B} (m : M A) (f : A -> M B) :
  behaves P m -> (forall a, behaves P (f a)) -> behaves P (bind m f).
Proof.
  intros Hm Hf w. unfold bind.
  destruct (Hm w) as [Hh [[c1 Ht] He]].
  destruct (m w) as [[e|a] w']; simpl in *.
  - repeat split; [exact Hh | now exists c1 |].
    intros e' [= <-]. now apply He.
  - destruct (Hf a w') as [Hh' [[c2 Ht'] He']].
    repeat split.
    + congruence.
    + exists (c1 ++ c2). now rewrite Ht', Ht, app_assoc.
    + exact He'.
Qed.

Lemma behaves_for_ {X} (l : list X) (body : X -> M unit) :
  (forall x, behaves P (body x)) -> behaves P (for_ l body).
Proof.
  intros Hbody. induction l as [|x l IH]; simpl.
  - apply behaves_ret.
  - apply behaves_bind; auto.
Qed.

Lemma behaves_truediv (x y : R) :
  P Py.ZeroDivisionError -> behaves P (truediv x y).
Proof.
  intros Hz. unfold truediv.
  destruct (Req_dec_T y 0); [now apply behaves_raise | apply behaves_ret].
Qed.

Lemma behaves_getitem {V} (d : Py.dict V) (k : string) :
  P (Py.KeyError k) -> behaves P (getitem d k).
Proof.
  intros Hk. unfold getitem.
  destruct (Py.get d k); [apply behaves_ret | now apply behaves_raise].
Qed.

Lemma behaves_getitem0 {X} (l : list X) :
  P Py.IndexError -> behaves P (getitem0 l).
Proof.
  intros Hi. unfold getitem0.
  destruct l; [now apply behaves_raise | apply behaves_ret].
Qed.

End Behaves.

(** Proves [behaves P m] along the structure of [m]; what it leaves is that
    the exceptions of [m] are in [P]. *)
Ltac behave :=
  repeat first
    [ apply behaves_ret
    | apply behaves_emit
    | apply behaves_the_object
    | apply behaves_truediv
    | apply behaves_getitem
    | apply behaves_getitem0
    | apply behaves_raise
    | apply behaves_bind; [|intros ?]
    | apply behaves_for_; intros ?
    | match goal with
      | |- behaves _ (match ?x with _ => _ end) => destruct x
      end
    | exact I ].

Lemma _init_hoomd_lj_lorentz_behaves structure r_cut ref_distance ref_energy :
  behaves not_ValueError
    (_init_hoomd_lj structure r_cut "lorentz" ref_distance ref_energy).
Proof.
  unfold _init_hoomd_lj.
  change (String.eqb (Py.lower "lorentz") "lorentz") with true.
  cbv beta iota zeta. behave.
Qed.

Lemma _init_hoomd_qq_behaves P structure Nx Ny Nz order r_cut :
  behaves P (_init_hoomd_qq structure Nx Ny Nz order r_cut).
Proof. unfold _init_hoomd_qq. behave. Qed.

Lemma _init_hoomd_14_pairs_behaves P structure r_cut ref_distance ref_energy :
  P Py.ZeroDivisionError ->
  behaves P (_init_hoomd_14_pairs structure r_cut ref_distance ref_energy).
Proof. intros Hz. unfold _init_hoomd_14_pairs. behave; exact Hz. Qed.

Section HelpersBehave.
Variable natural_sort_lt : string -> string -> bool.
Variable RB_to_OPLS : R -> R -> R -> R -> R -> R -> R * R * R * R.
Variable P : Py.exn -> Prop.
Hypothesis P_zero : P Py.ZeroDivisionError.
Hypothesis P_attribute : forall msg, P (Py.AttributeError msg).

Lemma _init_hoomd_bonds_behaves structure ref_distance ref_energy :
  behaves P (_init_hoomd_bonds natural_sort_lt structure ref_distance
               ref_energy).
Proof. unfold _init_hoomd_bonds. behave; exact P_zero. Qed.

Lemma _init_hoomd_angles_behaves structure ref_energy :
  behaves P (_init_hoomd_angles natural_sort_lt structure ref_energy).
Proof. unfold _init_hoomd_angles. behave; exact P_zero. Qed.

Lemma _init_hoomd_dihedrals_behaves structure ref_energy :
  behaves P (_init_hoomd_dihedrals natural_sort_lt structure ref_energy).
Proof.
  unfold _init_hoomd_dihedrals. behave;
    first [exact P_zero | apply P_attribute].
Qed.

Lemma _init_hoomd_rb_torsions_behaves structure ref_energy :
  behaves P (_init_hoomd_rb_torsions natural_sort_lt RB_to_OPLS structure
               ref_energy).
Proof. unfold _init_hoomd_rb_torsions. behave; exact P_zero. Qed.

End HelpersBehave.

(* ------------------------------------------------------------------ *)
(** ** The entry point *)

Section EntryPoint.
Variable natural_sort_lt : string -> string -> bool.
Variable RB_to_OPLS : R -> R -> R -> R -> R -> R -> R * R * R * R.

(** Past the type check the engine context is initialised, and what follows
    leaves the structure alone and raises no ValueError. *)
Lemma create_hoomd_simulation_on_structure ref_distance ref_mass ref_energy
    mixing_rule r_cut snapshot_kwargs pppm_kwargs structure :
  exists k : M unit,
    behaves not_ValueError k /\
    forall tr,
      create_hoomd_simulation natural_sort_lt RB_to_OPLS ref_distance ref_mass
        ref_energy mixing_rule r_cut snapshot_kwargs pppm_kwargs
        {| heap := pmd_Structure structure; trace := tr |} =
      k {| heap := pmd_Structure structure;
           trace := tr ++ [hoomd_context_initialize ""] |}.
Proof.
  eexists. split; cycle 1.
  - intros tr. unfold create_hoomd_simulation.
    unfold bind at 1. unfold the_object. cbn [heap trace].
    unfold bind at 1. unfold emit at 1. cbn [heap trace].
    reflexivity.
  - cbv beta.
    repeat first
      [ apply _init_hoomd_lj_lorentz_behaves
      | apply _init_hoomd_qq_behaves
      | apply _init_hoomd_14_pairs_behaves
      | apply _init_hoomd_bonds_behaves
      | apply _init_hoomd_angles_behaves
      | apply _init_hoomd_dihedrals_behaves
      | apply _init_hoomd_rb_torsions_behaves
      | match goal with
        | |- behaves _ (if ?x then _ else _) => destruct x
        end
      | progress behave
      | intros ? ].
Qed.

Lemma type_errors_not_mixing_rule mixing_rule :
  compound_error <> mixing_rule_error mixing_rule /\
  not_structure_error <> mixing_rule_error mixing_rule.
Proof.
  unfold compound_error, not_structure_error, mixing_rule_error.
  split; intros H; injection H as H; cbn in H; discriminate H.
Qed.

(** C5: [create_hoomd_simulation] raises a ValueError exactly when the
    object passed is an mb.Compound or is no parmed.Structure; it then
    leaves the world as it found it (no engine call, nothing printed); for
    a parmed.Structure no ValueError is raised and the first thing done is
    the initialisation of the engine context. *)
Theorem C5_type_check ref_distance ref_mass ref_energy mixing_rule r_cut
    snapshot_kwargs pppm_kwargs (o : object) (tr : list effect) :
  let r :=
    create_hoomd_simulation natural_sort_lt RB_to_OPLS ref_distance ref_mass
      ref_energy mixing_rule r_cut snapshot_kwargs pppm_kwargs
      {| heap := o; trace := tr |} in
  ((exists msg, fst r = inl (Py.ValueError msg)) <->
   (o = mb_Compound \/ forall s, o <> pmd_Structure s)) /\
  (o = mb_Compound \/ (forall s, o <> pmd_Structure s) ->
   snd r = {| heap := o; trace := tr |}) /\
  (forall s, o = pmd_Structure s ->
     (forall msg, fst r <> inl (Py.ValueError msg)) /\
     exists rest, trace (snd r) = tr ++ hoomd_context_initialize "" :: rest).
Proof.
  destruct o as [|s|]; cbv zeta.
  - repeat split.
    + intros _. now left.
    + intros _. now eexists.
    + discriminate.
    + discriminate.
  - destruct (create_hoomd_simulation_on_structure ref_distance ref_mass
                ref_energy mixing_rule r_cut snapshot_kwargs pppm_kwargs s)
      as [k [Hk Heq]].
    rewrite Heq.
    destruct (Hk {| heap := pmd_Structure s;
                    trace := tr ++ [hoomd_context_initialize ""] |})
      as [Hh [[calls Ht] He]].
    cbn [heap trace] in Hh, Ht.
    assert (Hno : forall msg,
               fst (k {| heap := pmd_Structure s;
                         trace := tr ++ [hoomd_context_initialize ""] |})
               <> inl (Py.ValueError msg))
      by (intros msg Hmsg; exact (He _ Hmsg)).
    repeat split.
    + intros [msg Hmsg]. now apply Hno in Hmsg.
    + intros [H|H]; [discriminate H | now destruct (H s)].
    + intros [H|H]; [discriminate H | now destruct (H s)].
    + exact Hno.
    + exists calls. rewrite Ht, <- app_assoc. reflexivity.
  - repeat split.
    + intros _. right. discriminate.
    + intros _. now eexists.
    + discriminate.
    + discriminate.
Qed.

(** C10: two calls that differ only in [mixing_rule] do the same and end
    the same, and no call raises the ValueError of the mixing-rule check,
    whatever rule it was given. *)
Theorem C10_mixing_rule_ignored ref_distance ref_mass ref_energy r_cut
    snapshot_kwargs pppm_kwargs (rule1 rule2 : string) (w : World) :
  create_hoomd_simulation natural_sort_lt RB_to_OPLS ref_distance ref_mass
    ref_energy rule1 r_cut snapshot_kwargs pppm_kwargs w =
  create_hoomd_simulation natural_sort_lt RB_to_OPLS ref_distance ref_mass
    ref_energy rule2 r_cut snapshot_kwargs pppm_kwargs w /\
  forall rule,
    fst (create_hoomd_simulation natural_sort_lt RB_to_OPLS ref_distance
           ref_mass ref_energy rule1 r_cut snapshot_kwargs pppm_kwargs w)
    <> inl (mixing_rule_error rule).
Proof.
  split; [reflexivity|].
  intros rule. destruct (type_errors_not_mixing_rule rule) as [Hc Hn].
  destruct w as [[|s|] tr].
  - intros H. apply Hc. simpl in H. congruence.
  - destruct (create_hoomd_simulation_on_structure ref_distance ref_mass
                ref_energy rule1 r_cut snapshot_kwargs pppm_kwargs s)
      as [k [Hk Heq]].
    rewrite Heq. intros H.
    destruct (Hk {| heap := pmd_Structure s;
                    trace := tr ++ [hoomd_context_initialize ""] |})
      as [_ [_ He]].
    exact (He _ H).
  - intros H. apply Hn. simpl in H. congruence.
Qed.

End EntryPoint.

(* ------------------------------------------------------------------ *)
(** ** One call per signature *)

Lemma once_from_table {E V} (key : E -> option string) (val : E -> V)
    (mk : string * V -> list effect) (is_call : string -> effect -> bool)
    (l : list E) (name : string) (call_of : E -> effect) :
  (forall k v n,
     count (is_call n) (mk (k, v)) = if String.eqb k n then 1%nat else 0%nat) ->
  (forall e, In (call_of e) (mk (name, val e))) ->
  once_from key name l is_call (flat_map mk (first_seen key val l)) call_of.
Proof.
  intros Hmk Hcall. unfold once_from.
  pose proof (dedup_calls mk is_call Hmk key val l name) as H.
  destruct (first_with key name l) as [e|]; [|exact H].
  destruct H as [Hc Hi]. split; [exact Hc|]. apply Hi, Hcall.
Qed.

Lemma lj_self_call_count rd re k v n :
  count (fun e => is_lj_pair_coeff_set n n e) (lj_self_call rd re (k, v)) =
  if String.eqb k n then 1%nat else 0%nat.
Proof. unfold count. simpl. destruct (String.eqb k n); reflexivity. Qed.

Lemma adjust_calls_count_lj r_cut rd re k v n :
  count (is_lj_14_pair_coeff_set n) (adjust_calls r_cut rd re (k, v)) =
  if String.eqb k n then 1%nat else 0%nat.
Proof. unfold count. simpl. destruct (String.eqb k n); reflexivity. Qed.

Lemma adjust_calls_count_qq r_cut rd re k v n :
  count (is_qq_14_pair_coeff_set n) (adjust_calls r_cut rd re (k, v)) =
  if String.eqb k n then 1%nat else 0%nat.
Proof. unfold count. simpl. destruct (String.eqb k n); reflexivity. Qed.

Lemma bond_call_count rd re k v n :
  count (is_bond_coeff_set n) (bond_call rd re (k, v)) =
  if String.eqb k n then 1%nat else 0%nat.
Proof. unfold count. simpl. destruct (String.eqb k n); reflexivity. Qed.

Lemma periodic_call_count re k v n :
  count (is_periodic_coeff_set n) (periodic_call re (k, v)) =
  if String.eqb k n then 1%nat else 0%nat.
Proof. unfold count. simpl. destruct (String.eqb k n); reflexivity. Qed.

Lemma rb_call_count RB_to_OPLS re k v n :
  count (is_rb_coeff_set n) (rb_call RB_to_OPLS re (k, v)) =
  if String.eqb k n then 1%nat else 0%nat.
Proof.
  unfold count, rb_call.
  destruct (RB_to_OPLS _ _ _ _ _ _) as [[[k1 k2] k3] k4]. simpl.
  destruct (String.eqb k n); reflexivity.
Qed.

(** The self loop of the Lennard-Jones helper serves every atom type once,
    from the first atom of the type. *)
Lemma lj_self_once structure rd re name :
  once_from atom_signature name (Structure.atoms structure)
    (fun n => is_lj_pair_coeff_set n n)
    (flat_map (lj_self_call rd re) (atom_type_table structure))
    (fun atom =>
       lj_pair_coeff_set name name
         (AtomType.sigma (Atom.atom_type atom) / rd)
         (AtomType.epsilon (Atom.atom_type atom) / re)).
Proof.
  apply once_from_table.
  - apply lj_self_call_count.
  - intros e. now left.
Qed.

Lemma adjust_once_lj structure r_cut rd re name :
  once_from adjust_signature name (Structure.adjusts structure)
    is_lj_14_pair_coeff_set
    (flat_map (adjust_calls r_cut rd re) (adjust_table structure))
    (fun adjust =>
       lj_14_pair_coeff_set name
         (AdjustType.sigma (Adjust.type adjust) / rd)
         (AdjustType.epsilon (Adjust.type adjust) / re) 1 r_cut).
Proof.
  apply once_from_table.
  - apply adjust_calls_count_lj.
  - intros e. now left.
Qed.

Lemma adjust_once_qq structure r_cut rd re name :
  once_from adjust_signature name (Structure.adjusts structure)
    is_qq_14_pair_coeff_set
    (flat_map (adjust_calls r_cut rd re) (adjust_table structure))
    (fun adjust =>
       qq_14_pair_coeff_set name
         (AdjustType.chgscale (Adjust.type adjust)) r_cut).
Proof.
  apply once_from_table.
  - apply adjust_calls_count_qq.
  - intros e. right. now left.
Qed.

Section Once.
Variable natural_sort_lt : string -> string -> bool.
Variable RB_to_OPLS : R -> R -> R -> R -> R -> R -> R * R * R * R.

Lemma bond_once structure rd re name :
  once_from (bond_signature natural_sort_lt) name (Structure.bonds structure)
    is_bond_coeff_set
    (flat_map (bond_call rd re) (bond_table natural_sort_lt structure))
    (fun bond =>
       harmonic_bond_bond_coeff_set name
         (2 * BondType.k (Bond.type bond) * rd ^ 2 / re)
         (BondType.req (Bond.type bond) / rd)).
Proof.
  apply once_from_table.
  - apply bond_call_count.
  - intros e. now left.
Qed.

Lemma angle_once structure re name :
  once_from (angle_signature natural_sort_lt) name
    (Structure.angles structure) is_angle_coeff_set
    (flat_map (angle_call re) (angle_table natural_sort_lt structure))
    (fun angle =>
       harmonic_angle_angle_coeff_set name
         (deg2rad (AngleType.theteq (Angle.type angle)))
         (2 * AngleType.k (Angle.type angle) / re)).
Proof.
  apply once_from_table.
  - apply angle_call_count.
  - intros e. now left.
Qed.

Lemma periodic_once dihedrals re name :
  once_from (dihedral_signature natural_sort_lt) name dihedrals
    is_periodic_coeff_set
    (flat_map (periodic_call re) (dihedral_table natural_sort_lt dihedrals))
    (fun dihedral =>
       periodic_torsion_dihedral_coeff_set name
         (2 * DihedralType.phi_k (Dihedral.type dihedral) / re) 1
         (DihedralType.per (Dihedral.type dihedral))).
Proof.
  apply once_from_table.
  - apply periodic_call_count.
  - intros e. now left.
Qed.

Lemma rb_once structure re name :
  once_from (rb_torsion_signature natural_sort_lt) name
    (Structure.rb_torsions structure) is_rb_coeff_set
    (flat_map (rb_call RB_to_OPLS re)
       (rb_torsion_table natural_sort_lt structure))
    (fun dihedral =>
       let '(k1, k2, k3, k4) :=
         RB_to_OPLS (RBTorsionType.c0 (RBTorsion.type dihedral) / re)
                    (RBTorsionType.c1 (RBTorsion.type dihedral) / re)
                    (RBTorsionType.c2 (RBTorsion.type dihedral) / re)
                    (RBTorsionType.c3 (RBTorsion.type dihedral) / re)
                    (RBTorsionType.c4 (RBTorsion.type dihedral) / re)
                    (RBTorsionType.c5 (RBTorsion.type dihedral) / re) in
       rb_torsion_dihedral_coeff_set name k1 k2 k3 k4).
Proof.
  apply once_from_table.
  - apply rb_call_count.
  - intros e. unfold rb_call.
    destruct (RB_to_OPLS _ _ _ _ _ _) as [[[k1 k2] k3] k4]. now left.
Qed.

End Once.

Lemma once_from_ext {E} (key : E -> option string) name (l : list E)
    is_call calls (f g : E -> effect) :
  (forall e, f e = g e) ->
  once_from key name l is_call calls f -> once_from key name l is_call calls g.
Proof.
  intros Hfg. unfold once_from.
  destruct (first_with key name l) as [e|]; [|auto].
  now rewrite Hfg.
Qed.

(* ------------------------------------------------------------------ *)
(** ** Reduced units *)

(** With non-zero reference scales, the self loop of the Lennard-Jones
    helper hands over [sigma / ref_distance] and [epsilon / ref_energy] for
    every atom type, the bond helper [2 * k * ref_distance ^ 2 / ref_energy]
    and [req / ref_distance] for every bond type, and the RB helper the
    conversion of [c0 / ref_energy] ... [c5 / ref_energy] for every RB type;
    with both references equal to one these are [sigma] and [epsilon],
    [2 * k] and [req], and the conversion of [c0] ... [c5].  What the cross
    loop of the Lennard-Jones helper then does to the pairs (name, name) is
    not part of this. *)
Lemma self_bond_rb_calls_in_reduced_units
    (natural_sort_lt : string -> string -> bool)
    (RB_to_OPLS : R -> R -> R -> R -> R -> R -> R * R * R * R)
    (structure : Structure.t) (r_cut ref_distance ref_energy : R) (w : World) :
  ref_distance <> 0 -> ref_energy <> 0 ->
  (exists selfs crosses,
     _init_hoomd_lj structure r_cut "lorentz" ref_distance ref_energy w =
       (inr tt, {| heap := heap w;
                   trace := trace w ++
                            hoomd_md_pair_lj r_cut :: selfs ++ crosses |}) /\
     forall name,
       once_from atom_signature name (Structure.atoms structure)
         (fun n => is_lj_pair_coeff_set n n) selfs
         (fun atom =>
            lj_pair_coeff_set name name
              (AtomType.sigma (Atom.atom_type atom) / ref_distance)
              (AtomType.epsilon (Atom.atom_type atom) / ref_energy)) /\
       (ref_distance = 1 -> ref_energy = 1 ->
        once_from atom_signature name (Structure.atoms structure)
          (fun n => is_lj_pair_coeff_set n n) selfs
          (fun atom =>
             lj_pair_coeff_set name name
               (AtomType.sigma (Atom.atom_type atom))
               (AtomType.epsilon (Atom.atom_type atom))))) /\
  (exists calls,
     _init_hoomd_bonds natural_sort_lt structure ref_distance ref_energy w =
       (inr tt, {| heap := heap w;
                   trace := trace w ++ hoomd_md_bond_harmonic :: calls |}) /\
     forall name,
       once_from (bond_signature natural_sort_lt) name
         (Structure.bonds structure) is_bond_coeff_set calls
         (fun bond =>
            harmonic_bond_bond_coeff_set name
              (2 * BondType.k (Bond.type bond) * ref_distance ^ 2
               / ref_energy)
              (BondType.req (Bond.type bond) / ref_distance)) /\
       (ref_distance = 1 -> ref_energy = 1 ->
        once_from (bond_signature natural_sort_lt) name
          (Structure.bonds structure) is_bond_coeff_set calls
          (fun bond =>
             harmonic_bond_bond_coeff_set name
               (2 * BondType.k (Bond.type bond))
               (BondType.req (Bond.type bond))))) /\
  (exists calls,
     _init_hoomd_rb_torsions natural_sort_lt RB_to_OPLS structure
       ref_energy w =
       (inr tt, {| heap := heap w;
                   trace := trace w ++ hoomd_md_dihedral_opls :: calls |}) /\
     forall name,
       once_from (rb_torsion_signature natural_sort_lt) name
         (Structure.rb_torsions structure) is_rb_coeff_set calls
         (fun dihedral =>
            let '(k1, k2, k3, k4) :=
              RB_to_OPLS
                (RBTorsionType.c0 (RBTorsion.type dihedral) / ref_energy)
                (RBTorsionType.c1 (RBTorsion.type dihedral) / ref_energy)
                (RBTorsionType.c2 (RBTorsion.type dihedral) / ref_energy)
                (RBTorsionType.c3 (RBTorsion.type dihedral) / ref_energy)
                (RBTorsionType.c4 (RBTorsion.type dihedral) / ref_energy)
                (RBTorsionType.c5 (RBTorsion.type dihedral) / ref_energy) in
            rb_torsion_dihedral_coeff_set name k1 k2 k3 k4) /\
       (ref_energy = 1 ->
        once_from (rb_torsion_signature natural_sort_lt) name
          (Structure.rb_torsions structure) is_rb_coeff_set calls
          (fun dihedral =>
             let '(k1, k2, k3, k4) :=
               RB_to_OPLS
                 (RBTorsionType.c0 (RBTorsion.type dihedral))
                 (RBTorsionType.c1 (RBTorsion.type dihedral))
                 (RBTorsionType.c2 (RBTorsion.type dihedral))
                 (RBTorsionType.c3 (RBTorsion.type dihedral))
                 (RBTorsionType.c4 (RBTorsion.type dihedral))
                 (RBTorsionType.c5 (RBTorsion.type dihedral)) in
             rb_torsion_dihedral_coeff_set name k1 k2 k3 k4))).
Proof.
  intros Hd He. split; [|split].
  - do 2 eexists. split; [now apply _init_hoomd_lj_run|].
    intros name. split; [apply lj_self_once|].
    intros -> ->. eapply once_from_ext; [|apply lj_self_once].
    intros e. cbv beta. now rewrite !Rdiv_1_r.
  - eexists. split; [now apply _init_hoomd_bonds_run|].
    intros name. split; [apply bond_once|].
    intros -> ->. eapply once_from_ext; [|apply bond_once].
    intros e. cbv beta. f_equal; field.
  - eexists. split; [now apply _init_hoomd_rb_torsions_run|].
    intros name. split; [apply rb_once|].
    intros ->. eapply once_from_ext; [|apply rb_once].
    intros e. cbv beta. now rewrite !Rdiv_1_r.
Qed.

(* ------------------------------------------------------------------ *)
(** ** Lennard-Jones cross terms *)

(** C1: for the structure with the two atom types A (sigma 1, epsilon 4)
    and B (sigma 3, epsilon 9), no NBFIX, and both references equal to one,
    the cross loop sets the pair (A, B) exactly once, with
    sigma = (1 + 3) / (2 * 1) and epsilon = 4 * 9 / 1 ^ 2: the product of
    the two epsilons over the squared reference energy, which is not
    sqrt (4 * 9) / 1. *)
Theorem C1_lorentz_epsilon_is_a_product :
  exists selfs crosses,
    _init_hoomd_lj two_type_structure (12 / 10) "lorentz" 1 1
      (initial (pmd_Structure two_type_structure)) =
    (inr tt, {| heap := pmd_Structure two_type_structure;
                trace := [] ++
                         hoomd_md_pair_lj (12 / 10) :: selfs ++ crosses |}) /\
    count (is_lj_pair_coeff_set "A" "B") crosses = 1%nat /\
    In (lj_pair_coeff_set "A" "B" ((1 + 3) / (2 * 1)) (4 * 9 / 1 ^ 2))
       crosses /\
    4 * 9 / 1 ^ 2 <> sqrt (4 * 9) / 1.
Proof.
  do 2 eexists. split; [|split; [|split]].
  - apply _init_hoomd_lj_run;
      [reflexivity | apply R1_neq_R0 | apply R1_neq_R0].
  - rewrite lj_cross_count. reflexivity.
  - vm_compute. right. left. reflexivity.
  - replace (4 * 9) with (6 * 6) by lra.
    rewrite sqrt_square by lra. lra.
Qed.

(** C7: for the structure with the single atom type A (sigma 1,
    epsilon 4) and both references equal to two, the Lennard-Jones helper
    sets the pair (A, A) twice.  The self loop hands over sigma = 1 / 2 and
    epsilon = 4 / 2, the values in reduced units; the cross loop then sets
    the same pair again with sigma = (1 + 1) / (2 * 2) and
    epsilon = 4 * 4 / 2 ^ 2, and this last call is the one left in force:
    its epsilon is the square of the epsilon over the square of the
    reference energy, which is not 4 / 2.  With both references equal to
    one the call left in force carries 4 * 4 / 1 ^ 2, which is not the
    epsilon 4 of the atom type. *)
Theorem C7_self_epsilon_left_in_force :
  _init_hoomd_lj one_type_structure (12 / 10) "lorentz" 2 2
    (initial (pmd_Structure one_type_structure)) =
  (inr tt,
   {| heap := pmd_Structure one_type_structure;
      trace := [hoomd_md_pair_lj (12 / 10);
                lj_pair_coeff_set "A" "A" (1 / 2) (4 / 2);
                lj_pair_coeff_set "A" "A" ((1 + 1) / (2 * 2))
                  (4 * 4 / 2 ^ 2)] |}) /\
  4 * 4 / 2 ^ 2 <> 4 / 2 /\
  _init_hoomd_lj one_type_structure (12 / 10) "lorentz" 1 1
    (initial (pmd_Structure one_type_structure)) =
  (inr tt,
   {| heap := pmd_Structure one_type_structure;
      trace := [hoomd_md_pair_lj (12 / 10);
                lj_pair_coeff_set "A" "A" (1 / 1) (4 / 1);
                lj_pair_coeff_set "A" "A" ((1 + 1) / (2 * 1))
                  (4 * 4 / 1 ^ 2)] |}) /\
  4 * 4 / 1 ^ 2 <> 4.
Proof.
  assert (H2 : (2 : R) <> 0) by lra.
  split; [|split; [|split]].
  - rewrite _init_hoomd_lj_run; [reflexivity | reflexivity | exact H2 | exact H2].
  - lra.
  - rewrite _init_hoomd_lj_run;
      [reflexivity | reflexivity | apply R1_neq_R0 | apply R1_neq_R0].
  - lra.
Qed.

(* ------------------------------------------------------------------ *)
(** ** One call per signature, helper by helper *)

Lemma count_cons_false {X} (p : X -> bool) x l :
  p x = false -> count p (x :: l) = count p l.
Proof. intros H. unfold count. simpl. now rewrite H. Qed.

Lemma lj_cross_self_count structure rd re name :
  count (is_lj_pair_coeff_set name name)
    (flat_map (lj_cross_call (atom_type_table structure) rd re)
       (lj_pairs structure)) =
  count (is_lj_pair_coeff_set name name)
    (flat_map (lj_self_call rd re) (atom_type_table structure)).
Proof.
  rewrite lj_cross_count, lj_self_count, leb_refl.
  now destruct (Py.contains name _).
Qed.

Lemma sorted_two {X} (lt : X -> X -> bool) (a b : X) :
  Py.sorted lt [a; b] = if lt b a then [b; a] else [a; b].
Proof. reflexivity. Qed.

Lemma bond_key_empty natural_sort_lt t1 t2 :
  t1 = "" \/ t2 = "" -> bond_key natural_sort_lt t1 t2 = None.
Proof.
  intros H. unfold bond_key. rewrite sorted_two.
  destruct (natural_sort_lt t2 t1);
    destruct H as [-> | ->]; simpl; try reflexivity;
    now rewrite andb_false_r.
Qed.

Lemma bond_key_spec natural_sort_lt t1 t2 :
  bond_key natural_sort_lt t1 t2 =
  if String.eqb t1 "" || String.eqb t2 ""
  then None
  else Some (Py.join "-" (Py.sorted natural_sort_lt [t1; t2])).
Proof.
  unfold bond_key. rewrite sorted_two.
  destruct (natural_sort_lt t2 t1);
    destruct (String.eqb t1 ""), (String.eqb t2 ""); reflexivity.
Qed.

(** C2, as the code has it, on the structure with the single atom type A:
    the pair (A, A) is set twice, once by the self loop and once by the
    cross loop. *)
Lemma C2_lj_self_pair_set_twice :
  count (is_lj_pair_coeff_set "A" "A")
    (trace (snd (_init_hoomd_lj one_type_structure (12 / 10) "lorentz" 1 1
                   (initial (pmd_Structure one_type_structure))))) = 2%nat.
Proof.
  rewrite _init_hoomd_lj_run;
    [|reflexivity | apply R1_neq_R0 | apply R1_neq_R0].
  cbn [snd trace initial app].
  rewrite count_cons_false by reflexivity.
  rewrite count_app, lj_cross_self_count, lj_self_count. reflexivity.
Qed.

(** C2, amended: with non-zero reference scales every helper named here
    returns normally and the loop over its de-duplicated table makes, for
    every signature borne by an entity, exactly one call per coefficient
    table, with the coefficients of the first entity that bears it, and no
    call for any other name.  The Lennard-Jones self loop does so for the
    atom types (the cross loop then sets each pair (name, name) once more);
    the 1-4 helper for both special-pair tables; the bond helper for the
    bonds whose two type names are both non-empty, the signature of such a
    bond being the '-'-join of its two type names in sorted order, while a
    bond with an empty type name has no signature and gets no call; the
    angle helper and the RB helper.  The signatures are: the type name of
    an atom; the '-'-join of the two type names of a 1-4 pair in sorted
    order; for an angle the '-'-join of its three type names with the two
    outer ones in natural-sort order; for an RB torsion the '-'-join of its
    four type names as given if the two inner ones are in natural-sort
    order, and in reverse if not. *)
Theorem C2_one_call_per_signature
    (natural_sort_lt : string -> string -> bool)
    (RB_to_OPLS : R -> R -> R -> R -> R -> R -> R * R * R * R)
    (structure : Structure.t) (r_cut ref_distance ref_energy : R) (w : World) :
  ref_distance <> 0 -> ref_energy <> 0 ->
  (exists selfs crosses,
     _init_hoomd_lj structure r_cut "lorentz" ref_distance ref_energy w =
       (inr tt, {| heap := heap w;
                   trace := trace w ++
                            hoomd_md_pair_lj r_cut :: selfs ++ crosses |}) /\
     forall name,
       once_from atom_signature name (Structure.atoms structure)
         (fun n => is_lj_pair_coeff_set n n) selfs
         (fun atom =>
            lj_pair_coeff_set name name
              (AtomType.sigma (Atom.atom_type atom) / ref_distance)
              (AtomType.epsilon (Atom.atom_type atom) / ref_energy)) /\
       count (is_lj_pair_coeff_set name name) crosses =
       count (is_lj_pair_coeff_set name name) selfs) /\
  (exists calls,
     _init_hoomd_14_pairs structure r_cut ref_distance ref_energy w =
       (inr tt, {| heap := heap w;
                   trace := trace w ++
                     [nl_reset_exclusions ["1-2"; "1-3"; "1-4"];
                      hoomd_md_special_pair_lj;
                      hoomd_md_special_pair_coulomb] ++ calls |}) /\
     forall name,
       once_from adjust_signature name (Structure.adjusts structure)
         is_lj_14_pair_coeff_set calls
         (fun adjust =>
            lj_14_pair_coeff_set name
              (AdjustType.sigma (Adjust.type adjust) / ref_distance)
              (AdjustType.epsilon (Adjust.type adjust) / ref_energy)
              1 r_cut) /\
       once_from adjust_signature name (Structure.adjusts structure)
         is_qq_14_pair_coeff_set calls
         (fun adjust =>
            qq_14_pair_coeff_set name
              (AdjustType.chgscale (Adjust.type adjust)) r_cut)) /\
  (exists calls,
     _init_hoomd_bonds natural_sort_lt structure ref_distance ref_energy w =
       (inr tt, {| heap := heap w;
                   trace := trace w ++ hoomd_md_bond_harmonic :: calls |}) /\
     (forall name,
        once_from (bond_signature natural_sort_lt) name
          (Structure.bonds structure) is_bond_coeff_set calls
          (fun bond =>
             harmonic_bond_bond_coeff_set name
               (2 * BondType.k (Bond.type bond) * ref_distance ^ 2
                / ref_energy)
               (BondType.req (Bond.type bond) / ref_distance))) /\
     (forall bond,
        bond_signature natural_sort_lt bond =
        if String.eqb (Atom.type (Bond.atom1 bond)) ""
           || String.eqb (Atom.type (Bond.atom2 bond)) ""
        then None
        else Some (Py.join "-"
                     (Py.sorted natural_sort_lt
                        [Atom.type (Bond.atom1 bond);
                         Atom.type (Bond.atom2 bond)])))) /\
  (exists calls,
     _init_hoomd_angles natural_sort_lt structure ref_energy w =
       (inr tt, {| heap := heap w;
                   trace := trace w ++ hoomd_md_angle_harmonic :: calls |}) /\
     forall name,
       once_from (angle_signature natural_sort_lt) name
         (Structure.angles structure) is_angle_coeff_set calls
         (fun angle =>
            harmonic_angle_angle_coeff_set name
              (deg2rad (AngleType.theteq (Angle.type angle)))
              (2 * AngleType.k (Angle.type angle) / ref_energy))) /\
  (exists calls,
     _init_hoomd_rb_torsions natural_sort_lt RB_to_OPLS structure
       ref_energy w =
       (inr tt, {| heap := heap w;
                   trace := trace w ++ hoomd_md_dihedral_opls :: calls |}) /\
     forall name,
       once_from (rb_torsion_signature natural_sort_lt) name
         (Structure.rb_torsions structure) is_rb_coeff_set calls
         (fun dihedral =>
            let '(k1, k2, k3, k4) :=
              RB_to_OPLS
                (RBTorsionType.c0 (RBTorsion.type dihedral) / ref_energy)
                (RBTorsionType.c1 (RBTorsion.type dihedral) / ref_energy)
                (RBTorsionType.c2 (RBTorsion.type dihedral) / ref_energy)
                (RBTorsionType.c3 (RBTorsion.type dihedral) / ref_energy)
                (RBTorsionType.c4 (RBTorsion.type dihedral) / ref_energy)
                (RBTorsionType.c5 (RBTorsion.type dihedral) / ref_energy) in
            rb_torsion_dihedral_coeff_set name k1 k2 k3 k4)) /\
  (forall atom, atom_signature atom = Some (Atom.type atom)) /\
  (forall adjust,
     adjust_signature adjust =
     Some (Py.join "-"
             (Py.sorted String.ltb
                [Atom.type (Adjust.atom1 adjust);
                 Atom.type (Adjust.atom2 adjust)]))) /\
  (forall angle,
     exists a b,
       Py.sorted natural_sort_lt
         [Atom.type (Angle.atom1 angle); Atom.type (Angle.atom3 angle)] =
       [a; b] /\
       angle_signature natural_sort_lt angle =
       Some (Py.join "-" [a; Atom.type (Angle.atom2 angle); b])) /\
  (forall dihedral,
     let t1 := Atom.type (RBTorsion.atom1 dihedral) in
     let t2 := Atom.type (RBTorsion.atom2 dihedral) in
     let t3 := Atom.type (RBTorsion.atom3 dihedral) in
     let t4 := Atom.type (RBTorsion.atom4 dihedral) in
     rb_torsion_signature natural_sort_lt dihedral =
     Some (if Py.list_eq [t2; t3] (Py.sorted natural_sort_lt [t2; t3])
           then Py.join "-" [t1; t2; t3; t4]
           else Py.join "-" [t4; t3; t2; t1])).
Proof.
  intros Hd He.
  split; [|split; [|split; [|split; [|split; [|split; [|split; [|split]]]]]]].
  - do 2 eexists. split; [now apply _init_hoomd_lj_run|].
    intros name. split; [apply lj_self_once | apply lj_cross_self_count].
  - eexists. split; [now apply _init_hoomd_14_pairs_run|].
    intros name. split; [apply adjust_once_lj | apply adjust_once_qq].
  - eexists. split; [now apply _init_hoomd_bonds_run|].
    split; [intros name; apply bond_once|].
    intros bond. apply bond_key_spec.
  - eexists. split; [now apply _init_hoomd_angles_run|].
    intros name. apply angle_once.
  - eexists. split; [now apply _init_hoomd_rb_torsions_run|].
    intros name. apply rb_once.
  - reflexivity.
  - reflexivity.
  - intros angle. unfold angle_signature, angle_key. rewrite sorted_two.
    destruct (natural_sort_lt _ _); do 2 eexists; split; reflexivity.
  - reflexivity.
Qed.

Lemma C2_one_call_per_signature_witness :
  map (bond_signature String.ltb) (Structure.bonds two_type_structure) =
    [Some "A-B"; Some "A-B"]%string /\
  map Bond.type (Structure.bonds two_type_structure) =
    [bond_type_1; bond_type_2] /\
  exists calls,
    _init_hoomd_bonds String.ltb two_type_structure 1 1
      (initial (pmd_Structure two_type_structure)) =
    (inr tt, {| heap := pmd_Structure two_type_structure;
                trace := [] ++ hoomd_md_bond_harmonic :: calls |}) /\
    count (is_bond_coeff_set "A-B") calls = 1%nat /\
    In (harmonic_bond_bond_coeff_set "A-B"
          (2 * BondType.k bond_type_1 * 1 ^ 2 / 1)
          (BondType.req bond_type_1 / 1)) calls.
Proof.
  split; [reflexivity|]. split; [reflexivity|].
  destruct (C2_one_call_per_signature String.ltb example_RB_to_OPLS
              two_type_structure (12 / 10) 1 1
              (initial (pmd_Structure two_type_structure))
              R1_neq_R0 R1_neq_R0)
    as [_ [_ [[calls [Hrun [Hcalls _]]] _]]].
  exists calls. split; [exact Hrun | exact (Hcalls "A-B")].
Defined.

(* ------------------------------------------------------------------ *)
(** ** Canonical keys *)

Lemma ltb_strict (a b : string) :
  a <> b -> String.ltb a b = negb (String.ltb b a).
Proof.
  intros Hne. unfold String.ltb. rewrite (String.compare_antisym a b).
  destruct (String.compare b a) eqn:Hc; try reflexivity.
  apply String.compare_eq_iff in Hc. congruence.
Qed.

Lemma first_seen_contains_iff {E V} (key : E -> option string) (val : E -> V)
    (l : list E) (k : string) :
  Py.contains k (first_seen key val l) = true <->
  exists e, In e l /\ key e = Some k.
Proof.
  rewrite first_seen_contains. unfold first_with.
  destruct (find _ l) as [e|] eqn:Hf.
  - apply find_some in Hf. destruct Hf as [Hin Hk].
    destruct (key e) as [k'|] eqn:Hke; [|discriminate].
    apply String.eqb_eq in Hk. subst k'. split; eauto.
  - split; [discriminate|]. intros [e [Hin Hk]].
    pose proof (find_none _ _ Hf e Hin) as Hn. cbv beta in Hn.
    rewrite Hk, String.eqb_refl in Hn. discriminate.
Qed.

Lemma atom_type_table_contains structure a :
  Py.contains a (atom_type_table structure) = true <->
  In a (map Atom.type (Structure.atoms structure)).
Proof.
  unfold atom_type_table. rewrite first_seen_contains_iff, in_map_iff.
  unfold atom_signature.
  split; intros [e [H1 H2]]; exists e; split; congruence || assumption.
Qed.

Lemma lj_self_call_In rd re d a b sigma epsilon :
  In (lj_pair_coeff_set a b sigma epsilon) (flat_map (lj_self_call rd re) d) ->
  a = b.
Proof.
  intros H. apply in_flat_map in H. destruct H as [[name t] [_ H]].
  simpl in H. destruct H as [H|[]]. now inversion H.
Qed.

Lemma lj_cross_call_In structure rd re a b sigma epsilon :
  In (lj_pair_coeff_set a b sigma epsilon)
     (flat_map (lj_cross_call (atom_type_table structure) rd re)
        (lj_pairs structure)) ->
  le_string a b.
Proof.
  intros H. apply in_flat_map in H. destruct H as [[a1 a2] [Hin H]].
  apply lj_pairs_In in Hin. destruct Hin as [_ [_ Hle]].
  unfold lj_cross_call in H.
  destruct (Py.get _ a1) as [p1|]; [|destruct H].
  destruct (Py.get _ a2) as [p2|]; [|destruct H].
  destruct (Py.get (AtomType.nbfix p1) a2) as [[[[rmin eps] r14] e14]|];
    destruct H as [H|[]]; inversion H; now subst.
Qed.

Lemma adjust_key_sym t1 t2 : adjust_key t1 t2 = adjust_key t2 t1.
Proof.
  destruct (String.eqb_spec t1 t2) as [->|Hne]; [reflexivity|].
  unfold adjust_key. rewrite !sorted_two, (ltb_strict t1 t2 Hne).
  now destruct (String.ltb t2 t1).
Qed.

Lemma adjust_key_sorted t1 t2 :
  exists a b,
    Permutation [a; b] [t1; t2] /\ le_string a b /\
    adjust_key t1 t2 = Py.join "-" [a; b].
Proof.
  unfold adjust_key. rewrite sorted_two.
  destruct (String.ltb t2 t1) eqn:Hlt.
  - exists t2, t1. repeat split; [apply perm_swap | now apply ltb_leb].
  - exists t1, t2. repeat split; [reflexivity|].
    unfold le_string. now rewrite leb_ltb, Hlt.
Qed.

Lemma app_hyphen_inj (a b c d : string) :
  hyphen_free a = true -> hyphen_free c = true ->
  (a ++ "-" ++ b)%string = (c ++ "-" ++ d)%string -> a = c /\ b = d.
Proof.
  revert c. induction a as [|x a IH]; intros [|y c] Ha Hc H; simpl in *.
  - injection H as H. now split.
  - injection H as Hy _. subst y. discriminate.
  - injection H as Hx _. subst x. discriminate.
  - injection H as Hxy H. subst y.
    apply andb_true_iff in Ha as [_ Ha].
    apply andb_true_iff in Hc as [_ Hc].
    destruct (IH c Ha Hc H) as [-> ->]. now split.
Qed.

Lemma join_two_inj (a b c d : string) :
  hyphen_free a = true -> hyphen_free c = true ->
  Py.join "-" [a; b] = Py.join "-" [c; d] -> a = c /\ b = d.
Proof. intros Ha Hc H. now apply app_hyphen_inj. Qed.

Lemma join_three_inj (a1 a2 a3 b1 b2 b3 : string) :
  forallb hyphen_free [a1; a2; b1; b2] = true ->
  Py.join "-" [a1; a2; a3] = Py.join "-" [b1; b2; b3] ->
  a1 = b1 /\ a2 = b2 /\ a3 = b3.
Proof.
  simpl. rewrite !andb_true_iff. intros [H1 [H2 [H3 [H4 _]]]] H.
  apply app_hyphen_inj in H as [-> H]; try assumption.
  apply app_hyphen_inj in H as [-> ->]; auto.
Qed.

Lemma join_four_inj (a1 a2 a3 a4 b1 b2 b3 b4 : string) :
  forallb hyphen_free [a1; a2; a3; b1; b2; b3] = true ->
  Py.join "-" [a1; a2; a3; a4] = Py.join "-" [b1; b2; b3; b4] ->
  a1 = b1 /\ a2 = b2 /\ a3 = b3 /\ a4 = b4.
Proof.
  simpl. rewrite !andb_true_iff.
  intros [H1 [H2 [H3 [H4 [H5 [H6 _]]]]]] H.
  apply app_hyphen_inj in H as [-> H]; try assumption.
  apply app_hyphen_inj in H as [-> H]; try assumption.
  apply app_hyphen_inj in H as [-> ->]; auto.
Qed.

Section KeysUnderReversal.
Variable natural_sort_lt : string -> string -> bool.

(** The two names are the same, or one comes strictly before the other. *)
Lemma bond_key_sym t1 t2 :
  t1 = t2 \/ natural_sort_lt t1 t2 <> natural_sort_lt t2 t1 ->
  bond_key natural_sort_lt t1 t2 = bond_key natural_sort_lt t2 t1.
Proof.
  intros [->|H]; [reflexivity|].
  unfold bond_key. rewrite !sorted_two.
  destruct (natural_sort_lt t1 t2), (natural_sort_lt t2 t1);
    try reflexivity; now destruct H.
Qed.

Lemma angle_key_sym t1 t2 t3 :
  t1 = t3 \/ natural_sort_lt t1 t3 <> natural_sort_lt t3 t1 ->
  angle_key natural_sort_lt t1 t2 t3 = angle_key natural_sort_lt t3 t2 t1.
Proof.
  intros [->|H]; [reflexivity|].
  unfold angle_key. rewrite !sorted_two.
  destruct (natural_sort_lt t1 t3), (natural_sort_lt t3 t1);
    try reflexivity; now destruct H.
Qed.

Lemma list_eq_two (a b c d : string) :
  Py.list_eq [a; b] [c; d] = String.eqb a c && String.eqb b d.
Proof. simpl. now rewrite andb_true_r. Qed.

Lemma dihedral_key_sym t1 t2 t3 t4 :
  t2 <> t3 ->
  natural_sort_lt t2 t3 <> natural_sort_lt t3 t2 ->
  dihedral_key natural_sort_lt t1 t2 t3 t4 =
  dihedral_key natural_sort_lt t4 t3 t2 t1.
Proof.
  intros Hne H. unfold dihedral_key.
  rewrite !sorted_two.
  assert (H23 : String.eqb t2 t3 = false) by now apply String.eqb_neq.
  assert (H32 : String.eqb t3 t2 = false)
    by (apply String.eqb_neq; congruence).
  destruct (natural_sort_lt t2 t3), (natural_sort_lt t3 t2);
    try (now destruct H);
    rewrite !list_eq_two, ?String.eqb_refl, ?H23, ?H32; reflexivity.
Qed.

(** With equal inner names the order given is kept. *)
Lemma dihedral_key_inner_equal t1 t2 t4 :
  dihedral_key natural_sort_lt t1 t2 t2 t4 = Py.join "-" [t1; t2; t2; t4].
Proof.
  unfold dihedral_key. rewrite sorted_two.
  destruct (natural_sort_lt t2 t2);
    now rewrite list_eq_two, String.eqb_refl.
Qed.

(** The comparison does not tell the two names apart: each order of the
    atoms gets a key of its own. *)
Lemma bond_key_tie t1 t2 :
  t1 <> t2 -> natural_sort_lt t1 t2 = natural_sort_lt t2 t1 ->
  t1 <> ""%string -> t2 <> ""%string ->
  hyphen_free t1 = true -> hyphen_free t2 = true ->
  bond_key natural_sort_lt t1 t2 <> bond_key natural_sort_lt t2 t1.
Proof.
  intros Hne Htie H1 H2 Hf1 Hf2. rewrite !bond_key_spec.
  apply String.eqb_neq in H1, H2. rewrite H1, H2. cbn [orb].
  rewrite !sorted_two, Htie.
  destruct (natural_sort_lt t2 t1); intros [= E];
    apply join_two_inj in E as [E _]; congruence.
Qed.

Lemma angle_key_tie t1 t2 t3 :
  t1 <> t3 -> natural_sort_lt t1 t3 = natural_sort_lt t3 t1 ->
  forallb hyphen_free [t1; t2; t3] = true ->
  angle_key natural_sort_lt t1 t2 t3 <> angle_key natural_sort_lt t3 t2 t1.
Proof.
  intros Hne Htie Hf. simpl in Hf. rewrite !andb_true_iff in Hf.
  destruct Hf as [Hf1 [Hf2 [Hf3 _]]].
  unfold angle_key. rewrite !sorted_two, Htie.
  destruct (natural_sort_lt t3 t1); intros E;
    apply join_three_inj in E as [E _];
    try congruence; simpl; now rewrite ?Hf1, ?Hf2, ?Hf3.
Qed.

Lemma dihedral_key_tie t1 t2 t3 t4 :
  t2 <> t3 -> natural_sort_lt t2 t3 = natural_sort_lt t3 t2 ->
  forallb hyphen_free [t1; t2; t3; t4] = true ->
  dihedral_key natural_sort_lt t1 t2 t3 t4 <>
  dihedral_key natural_sort_lt t4 t3 t2 t1.
Proof.
  intros Hne Htie Hf. simpl in Hf. rewrite !andb_true_iff in Hf.
  destruct Hf as [Hf1 [Hf2 [Hf3 [Hf4 _]]]].
  unfold dihedral_key. rewrite !sorted_two, Htie.
  assert (H23 : String.eqb t2 t3 = false) by now apply String.eqb_neq.
  assert (H32 : String.eqb t3 t2 = false)
    by (apply String.eqb_neq; congruence).
  destruct (natural_sort_lt t3 t2);
    rewrite !list_eq_two, ?String.eqb_refl, ?H23, ?H32; cbn [andb];
    intros E;
    apply join_four_inj in E as [_ [E _]];
    try congruence; simpl; now rewrite ?Hf1, ?Hf2, ?Hf3, ?Hf4.
Qed.

End KeysUnderReversal.

(** C3, as the code has it: the keys of the dihedrals over (A, C, C, B) and
    over (B, C, C, A), one the reverse of the other, differ (the two inner
    names being equal, the code keeps the order given, whatever the key
    order is); and on the structure with the single atom type A the pair
    (A, A) is set twice. *)
Lemma C3_keys_not_all_canonical :
  dihedral_key String.ltb "A" "C" "C" "B" <>
  dihedral_key String.ltb "B" "C" "C" "A" /\
  count (is_lj_pair_coeff_set "A" "A")
    (trace (snd (_init_hoomd_lj one_type_structure (12 / 10) "lorentz" 1 1
                   (initial (pmd_Structure one_type_structure))))) = 2%nat.
Proof.
  split; [discriminate|].
  rewrite _init_hoomd_lj_run;
    [|reflexivity | apply R1_neq_R0 | apply R1_neq_R0].
  cbn [snd trace initial app].
  rewrite count_cons_false by reflexivity.
  rewrite count_app, lj_cross_self_count, lj_self_count. reflexivity.
Qed.

(** C3, amended: with non-zero reference scales, every Lennard-Jones call
    is for a pair (a1, a2) with a1 <= a2, and the cross loop sets every
    unordered pair of atom types of the structure exactly once (the pairs
    (a, a) included, which the self loop has set before); the 1-4 key is
    the '-'-join of the two type names in sorted order and does not depend
    on the order of the two atoms.  The bond key does not change when the
    two atoms are swapped if their type names are equal or the natural-sort
    comparison puts one of the two strictly before the other, and the angle
    key likewise for its two outer names; the dihedral key does not change
    when the four atoms are reversed if its two inner names differ and the
    comparison puts one of them strictly before the other.  Nothing is
    asked of the comparison on other names.  Where the comparison does not
    tell two distinct names apart, the two orders get two different keys
    (for names without a hyphen, and for a bond non-empty ones); and a
    dihedral whose inner names are equal keeps the order it is given. *)
Theorem C3_canonical_keys
    (natural_sort_lt : string -> string -> bool)
    (structure : Structure.t) (r_cut ref_distance ref_energy : R) (w : World) :
  (ref_distance <> 0 -> ref_energy <> 0 ->
   exists selfs crosses,
     _init_hoomd_lj structure r_cut "lorentz" ref_distance ref_energy w =
       (inr tt, {| heap := heap w;
                   trace := trace w ++
                            hoomd_md_pair_lj r_cut :: selfs ++ crosses |}) /\
     (forall a b sigma epsilon,
        In (lj_pair_coeff_set a b sigma epsilon) (selfs ++ crosses) ->
        le_string a b) /\
     (forall a b,
        In a (map Atom.type (Structure.atoms structure)) ->
        In b (map Atom.type (Structure.atoms structure)) ->
        a <> b ->
        (count (is_lj_pair_coeff_set a b) crosses +
         count (is_lj_pair_coeff_set b a) crosses)%nat = 1%nat) /\
     (forall a,
        In a (map Atom.type (Structure.atoms structure)) ->
        count (is_lj_pair_coeff_set a a) crosses = 1%nat)) /\
  (forall t1 t2,
     adjust_key t1 t2 = adjust_key t2 t1 /\
     exists a b,
       Permutation [a; b] [t1; t2] /\ le_string a b /\
       adjust_key t1 t2 = Py.join "-" [a; b]) /\
  (forall t1 t2,
     (t1 = t2 \/ natural_sort_lt t1 t2 <> natural_sort_lt t2 t1 ->
      bond_key natural_sort_lt t1 t2 = bond_key natural_sort_lt t2 t1) /\
     (t1 <> t2 -> natural_sort_lt t1 t2 = natural_sort_lt t2 t1 ->
      t1 <> ""%string -> t2 <> ""%string ->
      hyphen_free t1 = true -> hyphen_free t2 = true ->
      bond_key natural_sort_lt t1 t2 <> bond_key natural_sort_lt t2 t1)) /\
  (forall t1 t2 t3,
     (t1 = t3 \/ natural_sort_lt t1 t3 <> natural_sort_lt t3 t1 ->
      angle_key natural_sort_lt t1 t2 t3 =
      angle_key natural_sort_lt t3 t2 t1) /\
     (t1 <> t3 -> natural_sort_lt t1 t3 = natural_sort_lt t3 t1 ->
      forallb hyphen_free [t1; t2; t3] = true ->
      angle_key natural_sort_lt t1 t2 t3 <>
      angle_key natural_sort_lt t3 t2 t1)) /\
  (forall t1 t2 t3 t4,
     (t2 <> t3 -> natural_sort_lt t2 t3 <> natural_sort_lt t3 t2 ->
      dihedral_key natural_sort_lt t1 t2 t3 t4 =
      dihedral_key natural_sort_lt t4 t3 t2 t1) /\
     (t2 <> t3 -> natural_sort_lt t2 t3 = natural_sort_lt t3 t2 ->
      forallb hyphen_free [t1; t2; t3; t4] = true ->
      dihedral_key natural_sort_lt t1 t2 t3 t4 <>
      dihedral_key natural_sort_lt t4 t3 t2 t1) /\
     dihedral_key natural_sort_lt t1 t2 t2 t4 =
     Py.join "-" [t1; t2; t2; t4]).
Proof.
  split; [|split; [|split; [|split]]].
  - intros Hd He. do 2 eexists.
    split; [now apply _init_hoomd_lj_run|].
    split; [|split].
    + intros a b sigma epsilon H. apply in_app_or in H. destruct H as [H|H].
      * apply lj_self_call_In in H. subst. apply leb_refl.
      * now apply lj_cross_call_In in H.
    + intros a b Ha Hb Hne. rewrite !lj_cross_count.
      apply atom_type_table_contains in Ha, Hb. rewrite Ha, Hb. simpl.
      rewrite (leb_ltb a b), (leb_ltb b a), (ltb_strict a b Hne).
      now destruct (String.ltb b a).
    + intros a Ha. rewrite lj_cross_count, leb_refl.
      apply atom_type_table_contains in Ha. now rewrite Ha.
  - intros t1 t2. split; [apply adjust_key_sym | apply adjust_key_sorted].
  - intros t1 t2. split; [apply bond_key_sym | apply bond_key_tie].
  - intros t1 t2 t3. split; [apply angle_key_sym | apply angle_key_tie].
  - intros t1 t2 t3 t4. split; [apply dihedral_key_sym|].
    split; [apply dihedral_key_tie | apply dihedral_key_inner_equal].
Qed.

Lemma C3_canonical_keys_witness :
  (exists selfs crosses,
     _init_hoomd_lj two_type_structure (12 / 10) "lorentz" 1 1
       (initial (pmd_Structure two_type_structure)) =
     (inr tt, {| heap := pmd_Structure two_type_structure;
                 trace := [] ++
                          hoomd_md_pair_lj (12 / 10) :: selfs ++ crosses |}) /\
     (count (is_lj_pair_coeff_set "A" "B") crosses +
      count (is_lj_pair_coeff_set "B" "A") crosses)%nat = 1%nat) /\
  bond_key String.ltb "A" "B" = bond_key String.ltb "B" "A" /\
  dihedral_key String.ltb "A" "B" "C" "D" =
  dihedral_key String.ltb "D" "C" "B" "A" /\
  caseless_lt "ca" "CA" = caseless_lt "CA" "ca" /\
  bond_key caseless_lt "ca" "CA" <> bond_key caseless_lt "CA" "ca".
Proof.
  destruct (C3_canonical_keys String.ltb two_type_structure (12 / 10) 1 1
              (initial (pmd_Structure two_type_structure)))
    as [Hlj [_ [Hbond [_ Hdihedral]]]].
  destruct (C3_canonical_keys caseless_lt two_type_structure (12 / 10) 1 1
              (initial (pmd_Structure two_type_structure)))
    as [_ [_ [Htie _]]].
  split; [|split; [|split; [|split]]].
  - destruct (Hlj R1_neq_R0 R1_neq_R0)
      as [selfs [crosses [Hrun [_ [Hpair _]]]]].
    exists selfs, crosses. split; [exact Hrun|].
    apply Hpair; [now left | right; now left | discriminate].
  - apply (proj1 (Hbond "A" "B")). right. discriminate.
  - apply (proj1 (Hdihedral "A" "B" "C" "D")); discriminate.
  - reflexivity.
  - apply (proj2 (Htie "ca" "CA")); try discriminate; reflexivity.
Defined.

(* ------------------------------------------------------------------ *)
(** ** hoomdxml.py *)

Lemma always_raises_raise {S A} (e : Py.exn) : always_raises (@raise S A e).
Proof. intros w. now exists e, w. Qed.

Lemma always_raises_bind_raise {S A B} (e : Py.exn) (f : A -> St S B) :
  always_raises (bind (raise e) f).
Proof. intros w. now exists e, w. Qed.

Lemma always_raises_bind_ret {S A B} (a : A) (f : A -> St S B) :
  always_raises (f a) -> always_raises (bind (ret a) f).
Proof. intros H w. exact (H w). Qed.

Lemma always_raises_bind {S A B} (m : St S A) (f : A -> St S B) :
  (forall a, always_raises (f a)) -> always_raises (bind m f).
Proof.
  intros H w. unfold bind. destruct (m w) as [[e|a] w'].
  - now exists e, w'.
  - apply H.
Qed.

(** Without optional nodes the loader never returns: what is left of its
    body after the required nodes reads a name that was never bound. *)
Lemma load_hoomdxml_without_optional_nodes float filename :
  always_raises (load_hoomdxml float filename false).
Proof.
  unfold load_hoomdxml. cbv iota.
  repeat first
    [ apply always_raises_raise
    | apply always_raises_bind_raise
    | apply always_raises_bind_ret; cbv beta iota
    | apply always_raises_bind; intros ?; cbv beta iota ].
Qed.

(** C4: on a well-formed file with a box, two positions and two types,
    [load_hoomdxml] without optional nodes raises UnboundLocalError for
    [optional_data] and prints nothing; so it does for no file and no
    reading of numbers return a trajectory.  With [optional_nodes] set the
    same file is loaded: two rows of coordinates, two atoms, and no
    optional data. *)
Theorem C4_load_hoomdxml_needs_optional_nodes :
  load_hoomdxml example_float "init.xml" false example_host =
    (inl (Py.UnboundLocalError "optional_data"), example_host) /\
  (forall float filename h,
     exists e h', load_hoomdxml float filename false h = (inl e, h')) /\
  fst (load_hoomdxml example_float "init.xml" true example_host) =
    inr (traj_and_optional_data example_trajectory []) /\
  n_atoms example_trajectory = 2%nat.
Proof.
  split; [|split; [|split]].
  - vm_compute. reflexivity.
  - intros float filename h.
    apply load_hoomdxml_without_optional_nodes.
  - vm_compute. reflexivity.
  - reflexivity.
Qed.

(** C8: [save_hoomdxml] raises NameError for [component] whatever it is
    given, and leaves the files alone (nothing is opened, nothing is
    written): so it is in the module as written, which does not bind that
    name, and in any host whose module namespace does not. *)
Theorem C8_save_hoomdxml_raises_NameError (traj : Trajectory)
    (optional_nodes : option (Py.dict DataFrame)) (filename : string) :
  (forall files out,
     save_hoomdxml traj optional_nodes filename
       {| namespace := hoomdxml_namespace; disk := files; stdout := out |} =
     (inl (Py.NameError "component"),
      {| namespace := hoomdxml_namespace; disk := files; stdout := out |})) /\
  (forall h,
     Py.get (namespace h) "component" = None ->
     save_hoomdxml traj optional_nodes filename h =
     (inl (Py.NameError "component"), h)).
Proof.
  split.
  - intros files out. reflexivity.
  - intros h Hget. unfold save_hoomdxml, bind, load_global.
    rewrite Hget. reflexivity.
Qed.

(* ------------------------------------------------------------------ *)
(** ** The helpers on the example structure *)

(** The two bonds A-B and B-A share the key "A-B"; the parameters are those
    of the first. *)
Example bonds_of_two_type_structure :
  _init_hoomd_bonds String.ltb two_type_structure 1 1
    (initial (pmd_Structure two_type_structure)) =
  (inr tt,
   {| heap := pmd_Structure two_type_structure;
      trace := [hoomd_md_bond_harmonic;
                harmonic_bond_bond_coeff_set "A-B"
                  (2 * 100 * 1 ^ 2 / 1) (2 / 1)] |}).
Proof.
  rewrite _init_hoomd_bonds_run by apply R1_neq_R0. reflexivity.
Qed.

(** Each 1-4 key is set in both special-pair tables, with the cutoff the
    helper was given. *)
Example pairs_14_of_two_type_structure :
  _init_hoomd_14_pairs two_type_structure (12 / 10) 1 1
    (initial (pmd_Structure two_type_structure)) =
  (inr tt,
   {| heap := pmd_Structure two_type_structure;
      trace := [nl_reset_exclusions ["1-2"; "1-3"; "1-4"];
                hoomd_md_special_pair_lj; hoomd_md_special_pair_coulomb;
                lj_14_pair_coeff_set "A-B" (1 / 1) (2 / 1) 1 (12 / 10);
                qq_14_pair_coeff_set "A-B" (1 / 2) (12 / 10)] |}).
Proof.
  rewrite _init_hoomd_14_pairs_run by apply R1_neq_R0. reflexivity.
Qed.

(** A zero reference energy stops the angle helper at its first division,
    after the force has been created. *)
Example angles_with_zero_reference :
  _init_hoomd_angles String.ltb two_type_structure 0
    (initial (pmd_Structure two_type_structure)) =
  (inl Py.ZeroDivisionError,
   {| heap := pmd_Structure two_type_structure;
      trace := [hoomd_md_angle_harmonic] |}).
Proof.
  unfold _init_hoomd_angles, bind, emit. cbv beta iota zeta.
  cbn [heap trace initial app].
  change (Py.items _) with
    [("A-B-A", angle_type_1)].
  cbn [for_]. unfold bind. rewrite truediv_zero. reflexivity.
Qed.

(** A plain structure with dihedral types: the helper stops on reading the
    attribute [structure]. *)
Example dihedrals_of_plain_structure :
  _init_hoomd_dihedrals String.ltb two_type_structure 1
    (initial (pmd_Structure two_type_structure)) =
  (inl (Py.AttributeError "'Structure' object has no attribute 'structure'"),
   initial (pmd_Structure two_type_structure)).
Proof. reflexivity. Qed.

(* ================================================================== *)
(** * Further properties *)

(* ------------------------------------------------------------------ *)
(** ** Computations that add a known list of calls *)

Lemma appends_apply (m : M unit) calls o tr :
  appends m calls ->
  m {| heap := o; trace := tr |} =
  (inr tt, {| heap := o; trace := tr ++ calls |}).
Proof. intros H. exact (H {| heap := o; trace := tr |}). Qed.

Lemma appends_ret : appends (ret tt) [].
Proof. intros [o tr]. unfold ret. cbn [heap trace]. now rewrite app_nil_r. Qed.

Lemma appends_seq (m1 m2 : M unit) c1 c2 :
  appends m1 c1 -> appends m2 c2 ->
  appends (bind m1 (fun _ => m2)) (c1 ++ c2).
Proof.
  intros H1 H2 w. unfold bind. rewrite H1, H2. cbn [heap trace].
  now rewrite app_assoc.
Qed.

Lemma appends_emit_seq (e : effect) (m : M unit) c :
  appends m c -> appends (bind (emit e) (fun _ => m)) (e :: c).
Proof.
  intros H w. unfold bind, emit. rewrite H. cbn [heap trace].
  now rewrite <- app_assoc.
Qed.

Lemma appends_emit (e : effect) : appends (emit e) [e].
Proof. intros w. reflexivity. Qed.

Lemma appends_bind_ret {A} (a : A) (f : A -> M unit) c :
  appends (f a) c -> appends (bind (ret a) f) c.
Proof. intros H w. exact (H w). Qed.

Lemma appends_gated (condition : bool) line (m : M unit) c :
  appends m c ->
  appends (if condition then bind (emit (print line)) (fun _ => m)
           else ret tt)
    (gated condition line c).
Proof.
  intros H. destruct condition; simpl.
  - now apply appends_emit_seq.
  - apply appends_ret.
Qed.

Lemma raises_raise {A} (e : Py.exn) : raises_after (@raise World A e) e [].
Proof. intros [o tr]. unfold raise. cbn [heap trace]. now rewrite app_nil_r. Qed.

Lemma raises_bind_l {A B} (m : M A) (f : A -> M B) e c :
  raises_after m e c -> raises_after (bind m f) e c.
Proof. intros H w. unfold bind. now rewrite H. Qed.

Lemma raises_seq {B} (m1 : M unit) (m2 : M B) e c1 c2 :
  appends m1 c1 -> raises_after m2 e c2 ->
  raises_after (bind m1 (fun _ => m2)) e (c1 ++ c2).
Proof.
  intros H1 H2 w. unfold bind. rewrite H1, H2. cbn [heap trace].
  now rewrite app_assoc.
Qed.

Lemma raises_emit_seq {B} (x : effect) (m : M B) e c :
  raises_after m e c -> raises_after (bind (emit x) (fun _ => m)) e (x :: c).
Proof.
  intros H w. unfold bind, emit. rewrite H. cbn [heap trace].
  now rewrite <- app_assoc.
Qed.

Lemma raises_bind_ret {A B} (a : A) (f : A -> M B) e c :
  raises_after (f a) e c -> raises_after (bind (ret a) f) e c.
Proof. intros H w. exact (H w). Qed.

Lemma raises_apply {A} (m : M A) e calls o tr :
  raises_after m e calls ->
  m {| heap := o; trace := tr |} =
  (inl e, {| heap := o; trace := tr ++ calls |}).
Proof. intros H. exact (H {| heap := o; trace := tr |}). Qed.

(** The helpers, when all goes well. *)
Lemma _init_hoomd_lj_appends structure r_cut mixing_rule rd re :
  Py.lower mixing_rule = "lorentz" -> rd <> 0 -> re <> 0 ->
  appends (_init_hoomd_lj structure r_cut mixing_rule rd re)
    (lj_calls structure r_cut rd re).
Proof. intros Hm Hd He w. now apply _init_hoomd_lj_run. Qed.

Lemma _init_hoomd_qq_appends structure Nx Ny Nz order r_cut :
  appends (_init_hoomd_qq structure Nx Ny Nz order r_cut)
    (qq_calls Nx Ny Nz order r_cut).
Proof.
  intros w. unfold _init_hoomd_qq, bind, emit. cbn [heap trace].
  now rewrite <- !app_assoc.
Qed.

Lemma _init_hoomd_14_pairs_appends structure r_cut rd re :
  rd <> 0 -> re <> 0 ->
  appends (_init_hoomd_14_pairs structure r_cut rd re)
    (pairs_14_calls structure r_cut rd re).
Proof. intros Hd He w. now apply _init_hoomd_14_pairs_run. Qed.

Section HelpersAppend.
Variable natural_sort_lt : string -> string -> bool.
Variable RB_to_OPLS : R -> R -> R -> R -> R -> R -> R * R * R * R.

Lemma _init_hoomd_bonds_appends structure rd re :
  rd <> 0 -> re <> 0 ->
  appends (_init_hoomd_bonds natural_sort_lt structure rd re)
    (bond_calls natural_sort_lt structure rd re).
Proof. intros Hd He w. now apply _init_hoomd_bonds_run. Qed.

Lemma _init_hoomd_angles_appends structure re :
  re <> 0 ->
  appends (_init_hoomd_angles natural_sort_lt structure re)
    (angle_calls natural_sort_lt structure re).
Proof. intros He w. now apply _init_hoomd_angles_run. Qed.

Lemma _init_hoomd_rb_torsions_appends structure re :
  re <> 0 ->
  appends (_init_hoomd_rb_torsions natural_sort_lt RB_to_OPLS structure re)
    (rb_calls natural_sort_lt RB_to_OPLS structure re).
Proof. intros He w. now apply _init_hoomd_rb_torsions_run. Qed.

End HelpersAppend.

(* ------------------------------------------------------------------ *)
(** ** The entry point, from the first call to the last *)

Section EntryPointRuns.
Variable natural_sort_lt : string -> string -> bool.
Variable RB_to_OPLS : R -> R -> R -> R -> R -> R -> R * R * R * R.

(** Steps through the blocks of the entry point that come before the
    periodic dihedrals. *)
Ltac enter_structure Hsk :=
  unfold create_hoomd_simulation;
  unfold bind at 1; unfold the_object; cbn [heap trace];
  unfold snapshot_kwargs_fit in Hsk; apply negb_true_iff in Hsk;
  rewrite Hsk.

(** X1: for a structure with at least one atom, non-zero reference scales,
    keyword dictionaries the callees accept and no periodic dihedral types,
    the entry point returns normally, and what it does is, in this order:
    the four calls that set the engine up; then, each announced by its
    printed line and only if its condition holds, the Lennard-Jones and
    Coulomb calls, the 1-4 calls (with cutoff 1.2), the bond calls, the
    angle calls and the RB torsion calls; then the closing line. *)
Theorem X1_create_hoomd_simulation_calls ref_distance ref_mass ref_energy
    mixing_rule r_cut snapshot_kwargs pppm_kwargs structure tr :
  ref_distance <> 0 -> ref_energy <> 0 ->
  Structure.atoms structure <> [] ->
  snapshot_kwargs_fit snapshot_kwargs = true ->
  pppm_kwargs_fit pppm_kwargs = true ->
  Structure.dihedral_types structure = [] ->
  create_hoomd_simulation natural_sort_lt RB_to_OPLS ref_distance ref_mass
    ref_energy mixing_rule r_cut snapshot_kwargs pppm_kwargs
    {| heap := pmd_Structure structure; trace := tr |} =
  (inr tt,
   {| heap := pmd_Structure structure;
      trace := tr ++
        setup_calls structure ref_distance ref_mass ref_energy
          snapshot_kwargs ++
        forces_before_dihedrals natural_sort_lt structure ref_distance
          ref_energy r_cut pppm_kwargs ++
        gated (truthy (Structure.rb_torsion_types structure))
          "Processing RB torsions"
          (rb_calls natural_sort_lt RB_to_OPLS structure ref_energy) ++
        [print "HOOMD SimulationContext updated from ParmEd Structure"] |}).
Proof.
  intros Hd He Hatoms Hsk Hpk Hdt.
  enter_structure Hsk.
  apply appends_apply.
  unfold setup_calls. cbn [app].
  apply appends_emit_seq, appends_bind_ret.
  do 3 apply appends_emit_seq.
  unfold forces_before_dihedrals, first_atom_typed.
  destruct (Structure.atoms structure) as [|atom0 atoms]; [contradiction|].
  cbn [getitem0]. apply appends_bind_ret.
  unfold pppm_kwargs_fit in Hpk. apply negb_true_iff in Hpk. rewrite Hpk.
  rewrite <- !app_assoc.
  apply appends_seq.
  { apply appends_gated, appends_seq.
    - now apply _init_hoomd_lj_appends.
    - apply _init_hoomd_qq_appends. }
  apply appends_seq.
  { apply appends_gated. now apply _init_hoomd_14_pairs_appends. }
  apply appends_seq.
  { apply appends_gated. now apply _init_hoomd_bonds_appends. }
  apply appends_seq.
  { apply appends_gated. now apply _init_hoomd_angles_appends. }
  rewrite Hdt. cbn [truthy]. apply appends_bind_ret.
  apply appends_seq.
  { apply appends_gated. now apply _init_hoomd_rb_torsions_appends. }
  apply appends_emit.
Qed.

End EntryPointRuns.

Lemma X1_create_hoomd_simulation_calls_witness :
  create_hoomd_simulation String.ltb example_RB_to_OPLS 1 1 1 "lorentz"
    (12 / 10) [] [] (initial (pmd_Structure two_type_structure)) =
  (inr tt,
   {| heap := pmd_Structure two_type_structure;
      trace := [] ++
        setup_calls two_type_structure 1 1 1 [] ++
        forces_before_dihedrals String.ltb two_type_structure 1 1 (12 / 10)
          [] ++
        gated (truthy (Structure.rb_torsion_types two_type_structure))
          "Processing RB torsions"
          (rb_calls String.ltb example_RB_to_OPLS two_type_structure 1) ++
        [print "HOOMD SimulationContext updated from ParmEd Structure"] |}).
Proof.
  apply (X1_create_hoomd_simulation_calls String.ltb example_RB_to_OPLS
           1 1 1 "lorentz" (12 / 10) [] [] two_type_structure []).
  - apply R1_neq_R0.
  - apply R1_neq_R0.
  - discriminate.
  - reflexivity.
  - reflexivity.
  - reflexivity.
Defined.

Section EntryPointStops.
Variable natural_sort_lt : string -> string -> bool.
Variable RB_to_OPLS : R -> R -> R -> R -> R -> R -> R * R * R * R.

(** X2: a plain parmed structure (one without an attribute [structure])
    that has periodic dihedral types makes the entry point raise
    AttributeError: the engine has been set up, the blocks up to the angles
    have been carried out and the line announcing the periodic torsions has
    been printed, but no dihedral force is created and the RB torsions are
    never reached. *)
Theorem X2_periodic_dihedrals_stop_the_entry_point ref_distance ref_mass
    ref_energy mixing_rule r_cut snapshot_kwargs pppm_kwargs structure tr :
  ref_distance <> 0 -> ref_energy <> 0 ->
  Structure.atoms structure <> [] ->
  snapshot_kwargs_fit snapshot_kwargs = true ->
  pppm_kwargs_fit pppm_kwargs = true ->
  Structure.dihedral_types structure <> [] ->
  Structure.structure structure = None ->
  create_hoomd_simulation natural_sort_lt RB_to_OPLS ref_distance ref_mass
    ref_energy mixing_rule r_cut snapshot_kwargs pppm_kwargs
    {| heap := pmd_Structure structure; trace := tr |} =
  (inl (Py.AttributeError "'Structure' object has no attribute 'structure'"),
   {| heap := pmd_Structure structure;
      trace := tr ++
        setup_calls structure ref_distance ref_mass ref_energy
          snapshot_kwargs ++
        forces_before_dihedrals natural_sort_lt structure ref_distance
          ref_energy r_cut pppm_kwargs ++
        [print "Processing periodic torsions"] |}).
Proof.
  intros Hd He Hatoms Hsk Hpk Hdt Hs.
  unfold create_hoomd_simulation.
  unfold bind at 1; unfold the_object; cbn [heap trace].
  unfold snapshot_kwargs_fit in Hsk; apply negb_true_iff in Hsk.
  rewrite Hsk.
  apply raises_apply.
  unfold setup_calls. cbn [app].
  apply raises_emit_seq, raises_bind_ret.
  do 3 apply raises_emit_seq.
  unfold forces_before_dihedrals, first_atom_typed.
  destruct (Structure.atoms structure) as [|atom0 atoms]; [contradiction|].
  cbn [getitem0]. apply raises_bind_ret.
  unfold pppm_kwargs_fit in Hpk. apply negb_true_iff in Hpk. rewrite Hpk.
  rewrite <- !app_assoc.
  apply raises_seq.
  { apply appends_gated, appends_seq.
    - now apply _init_hoomd_lj_appends.
    - apply _init_hoomd_qq_appends. }
  apply raises_seq.
  { apply appends_gated. now apply _init_hoomd_14_pairs_appends. }
  apply raises_seq.
  { apply appends_gated. now apply _init_hoomd_bonds_appends. }
  apply raises_seq.
  { apply appends_gated. now apply _init_hoomd_angles_appends. }
  destruct (Structure.dihedral_types structure) as [|dt dts];
    [contradiction|].
  cbn [truthy]. apply raises_bind_l, raises_emit_seq.
  unfold _init_hoomd_dihedrals. rewrite Hs. apply raises_raise.
Qed.

(** X3: a structure without atoms makes the entry point raise IndexError
    when it looks at the type of the first atom; by then the engine has
    been set up (context, snapshot, neighbour list, exclusions) and nothing
    else has been done. *)
Theorem X3_structure_without_atoms ref_distance ref_mass ref_energy
    mixing_rule r_cut snapshot_kwargs pppm_kwargs structure tr :
  Structure.atoms structure = [] ->
  snapshot_kwargs_fit snapshot_kwargs = true ->
  create_hoomd_simulation natural_sort_lt RB_to_OPLS ref_distance ref_mass
    ref_energy mixing_rule r_cut snapshot_kwargs pppm_kwargs
    {| heap := pmd_Structure structure; trace := tr |} =
  (inl Py.IndexError,
   {| heap := pmd_Structure structure;
      trace := tr ++
        setup_calls structure ref_distance ref_mass ref_energy
          snapshot_kwargs |}).
Proof.
  intros Hatoms Hsk.
  unfold create_hoomd_simulation.
  unfold bind at 1; unfold the_object; cbn [heap trace].
  unfold snapshot_kwargs_fit in Hsk; apply negb_true_iff in Hsk.
  rewrite Hsk.
  apply raises_apply.
  unfold setup_calls.
  apply raises_emit_seq, raises_bind_ret.
  do 3 apply raises_emit_seq.
  rewrite Hatoms. cbn [getitem0]. apply raises_bind_l, raises_raise.
Qed.

End EntryPointStops.

(** A structure with a periodic dihedral type, otherwise as the example. *)
Lemma X2_periodic_dihedrals_stop_the_entry_point_witness :
  create_hoomd_simulation String.ltb example_RB_to_OPLS 1 1 1 "lorentz"
    (12 / 10) [] [] (initial (pmd_Structure dihedral_structure)) =
  (inl (Py.AttributeError "'Structure' object has no attribute 'structure'"),
   {| heap := pmd_Structure dihedral_structure;
      trace := [] ++
        setup_calls dihedral_structure 1 1 1 [] ++
        forces_before_dihedrals String.ltb dihedral_structure 1 1 (12 / 10)
          [] ++
        [print "Processing periodic torsions"] |}).
Proof.
  apply (X2_periodic_dihedrals_stop_the_entry_point String.ltb
           example_RB_to_OPLS 1 1 1 "lorentz" (12 / 10) [] []
           dihedral_structure []).
  - apply R1_neq_R0.
  - apply R1_neq_R0.
  - discriminate.
  - reflexivity.
  - reflexivity.
  - discriminate.
  - reflexivity.
Defined.

Lemma X3_structure_without_atoms_witness :
  create_hoomd_simulation String.ltb example_RB_to_OPLS 1 1 1 "lorentz"
    (12 / 10) [] [] (initial (pmd_Structure empty_structure)) =
  (inl Py.IndexError,
   {| heap := pmd_Structure empty_structure;
      trace := [] ++ setup_calls empty_structure 1 1 1 [] |}).
Proof.
  apply (X3_structure_without_atoms String.ltb example_RB_to_OPLS 1 1 1
           "lorentz" (12 / 10) [] [] empty_structure []); reflexivity.
Defined.

(* ------------------------------------------------------------------ *)
(** ** What the entry point never adds to the trace *)

Section OnlyEmits.
Variable Q : effect -> Prop.

Lemma only_emits_nothing {A} (m : M A) :
  (forall w, snd (m w) = w) -> only_emits Q m.
Proof.
  intros H w. exists []. rewrite H, app_nil_r. split; [reflexivity|constructor].
Qed.

Lemma only_emits_ret {A} (a : A) : only_emits Q (ret a).
Proof. now apply only_emits_nothing. Qed.

Lemma only_emits_raise {A} (e : Py.exn) : only_emits Q (@raise World A e).
Proof. now apply only_emits_nothing. Qed.

Lemma only_emits_the_object : only_emits Q the_object.
Proof. now apply only_emits_nothing. Qed.

Lemma only_emits_truediv (x y : R) : only_emits Q (truediv x y).
Proof.
  apply only_emits_nothing. intros w. unfold truediv.
  now destruct (Req_dec_T y 0).
Qed.

Lemma only_emits_getitem {V} (d : Py.dict V) (k : string) :
  only_emits Q (getitem d k).
Proof.
  apply only_emits_nothing. intros w. unfold getitem.
  now destruct (Py.get d k).
Qed.

Lemma only_emits_getitem0 {X} (l : list X) : only_emits Q (getitem0 l).
Proof. apply only_emits_nothing. intros w. now destruct l. Qed.

Lemma only_emits_emit (e : effect) : Q e -> only_emits Q (emit e).
Proof. intros He w. exists [e]. split; [reflexivity|]. now constructor. Qed.

Lemma only_emits_bind {A B} (m : M A) (f : A -> M B) :
  only_emits Q m -> (forall a, only_emits Q (f a)) -> only_emits Q (bind m f).
Proof.
  intros Hm Hf w. unfold bind. destruct (Hm w) as [c1 [Ht1 HQ1]].
  destruct (m w) as [[e|a] w']; cbn [snd] in *.
  - now exists c1.
  - destruct (Hf a w') as [c2 [Ht2 HQ2]]. exists (c1 ++ c2). split.
    + now rewrite Ht2, Ht1, app_assoc.
    + apply Forall_app. now split.
Qed.


Lemma only_emits_apply {A} (m : M A) o tr :
  only_emits Q m ->
  exists calls,
    trace (snd (m {| heap := o; trace := tr |})) = tr ++ calls /\
    Forall Q calls.
Proof. intros H. exact (H {| heap := o; trace := tr |}). Qed.


Lemma only_emits_for_ {X} (l : list X) (body : X -> M unit) :
  (forall x, only_emits Q (body x)) -> only_emits Q (for_ l body).
Proof.
  intros Hbody. induction l as [|x l IH]; simpl.
  - apply only_emits_ret.
  - apply only_emits_bind; auto.
Qed.

End OnlyEmits.

(** Proves [only_emits Q m] along the structure of [m], unfolding the
    helpers of the module on the way. *)
Ltac emits :=
  repeat first
    [ apply only_emits_ret
    | apply only_emits_raise
    | apply only_emits_the_object
    | apply only_emits_truediv
    | apply only_emits_getitem
    | apply only_emits_getitem0
    | apply only_emits_emit; cbn; first [exact I | reflexivity | discriminate]
    | apply only_emits_bind; [|intros ?]
    | apply only_emits_for_; intros ?
    | match goal with
      | |- only_emits _ (match ?x with _ => _ end) => destruct x
      end
    | progress unfold _init_hoomd_lj, _init_hoomd_qq, _init_hoomd_14_pairs,
        _init_hoomd_bonds, _init_hoomd_angles, _init_hoomd_dihedrals,
        _init_hoomd_rb_torsions
    | progress cbv beta iota zeta ].

Section EntryPointNever.
Variable natural_sort_lt : string -> string -> bool.
Variable RB_to_OPLS : R -> R -> R -> R -> R -> R -> R * R * R * R.

(** X4: whatever cutoff the entry point is given, and however it ends,
    every special-pair coefficient call it makes (Lennard-Jones and Coulomb
    1-4 tables) carries the cutoff 1.2. *)
Theorem X4_special_pair_cutoff_is_default ref_distance ref_mass ref_energy
    mixing_rule r_cut snapshot_kwargs pppm_kwargs (w : World) :
  exists calls,
    trace (snd (create_hoomd_simulation natural_sort_lt RB_to_OPLS
                  ref_distance ref_mass ref_energy mixing_rule r_cut
                  snapshot_kwargs pppm_kwargs w)) = trace w ++ calls /\
    (forall name sigma epsilon alpha cutoff,
       In (lj_14_pair_coeff_set name sigma epsilon alpha cutoff) calls ->
       cutoff = 12 / 10) /\
    (forall name alpha cutoff,
       In (qq_14_pair_coeff_set name alpha cutoff) calls ->
       cutoff = 12 / 10).
Proof.
  assert (H : only_emits special_pair_cutoff_is_default
                (create_hoomd_simulation natural_sort_lt RB_to_OPLS
                   ref_distance ref_mass ref_energy mixing_rule r_cut
                   snapshot_kwargs pppm_kwargs)).
  { unfold create_hoomd_simulation. emits. }
  destruct (H w) as [calls [Ht HQ]]. exists calls.
  rewrite Forall_forall in HQ.
  split; [exact Ht|]. split.
  - intros name sigma epsilon alpha cutoff Hin. exact (HQ _ Hin).
  - intros name alpha cutoff Hin. exact (HQ _ Hin).
Qed.


(** Steps to the blocks of the entry point for a structure given by its
    fields, so that an empty list among them shows. *)
Ltac skip_block :=
  unfold create_hoomd_simulation;
  unfold bind at 1; unfold the_object; cbn [heap trace];
  apply only_emits_apply;
  cbn [Structure.atoms Structure.adjusts Structure.bond_types
       Structure.angle_types Structure.dihedral_types
       Structure.rb_torsion_types truthy];
  emits.

(** X6: a block of the entry point is skipped altogether when the list it
    is conditioned on is empty: no special-pair call and no exclusion of
    1-4 neighbours without [adjusts]; no bond call without [bond_types],
    even if the structure has bonds; no angle call without [angle_types];
    no periodic-dihedral call without [dihedral_types]; no RB call without
    [rb_torsion_types]. *)
Theorem X6_empty_lists_skip_their_blocks ref_distance ref_mass ref_energy
    mixing_rule r_cut snapshot_kwargs pppm_kwargs structure tr :
  exists calls,
    trace (snd (create_hoomd_simulation natural_sort_lt RB_to_OPLS
                  ref_distance ref_mass ref_energy mixing_rule r_cut
                  snapshot_kwargs pppm_kwargs
                  {| heap := pmd_Structure structure; trace := tr |}))
    = tr ++ calls /\
    (Structure.adjusts structure = [] ->
     Forall (fun e => block_of e <> pairs_14_block) calls) /\
    (Structure.bond_types structure = [] ->
     Forall (fun e => block_of e <> bond_block) calls) /\
    (Structure.angle_types structure = [] ->
     Forall (fun e => block_of e <> angle_block) calls) /\
    (Structure.dihedral_types structure = [] ->
     Forall (fun e => block_of e <> periodic_block) calls) /\
    (Structure.rb_torsion_types structure = [] ->
     Forall (fun e => block_of e <> rb_block) calls).
Proof.
  destruct (create_hoomd_simulation_on_structure natural_sort_lt RB_to_OPLS
              ref_distance ref_mass ref_energy mixing_rule r_cut
              snapshot_kwargs pppm_kwargs structure) as [k [Hk Heq]].
  destruct (Hk {| heap := pmd_Structure structure;
                  trace := tr ++ [hoomd_context_initialize ""] |})
    as [_ [[rest Hrest] _]].
  cbn [trace] in Hrest.
  exists (hoomd_context_initialize "" :: rest).
  assert (Htrace :
            trace (snd (create_hoomd_simulation natural_sort_lt RB_to_OPLS
                          ref_distance ref_mass ref_energy mixing_rule r_cut
                          snapshot_kwargs pppm_kwargs
                          {| heap := pmd_Structure structure; trace := tr |}))
            = tr ++ hoomd_context_initialize "" :: rest).
  { rewrite Heq, Hrest, <- app_assoc. reflexivity. }
  split; [exact Htrace|].
  assert (Hsame : forall Q calls',
            trace (snd (create_hoomd_simulation natural_sort_lt RB_to_OPLS
                          ref_distance ref_mass ref_energy mixing_rule r_cut
                          snapshot_kwargs pppm_kwargs
                          {| heap := pmd_Structure structure; trace := tr |}))
            = tr ++ calls' ->
            Forall Q calls' ->
            Forall Q (hoomd_context_initialize "" :: rest)).
  { intros Q calls' Hc HQ. rewrite Htrace in Hc.
    apply app_inv_head in Hc. now rewrite Hc. }
  clear Heq Hrest Htrace. clear k Hk.
  destruct structure as [atoms bonds angles dihedrals rb_torsions adjusts
                           bond_types angle_types dihedral_types
                           rb_torsion_types attribute].
  cbn [Structure.adjusts Structure.bond_types Structure.angle_types
       Structure.dihedral_types Structure.rb_torsion_types].
  repeat split; intros ->;
    match goal with
    | |- Forall ?Q _ =>
        match type of Hsame with
        | forall _ _, trace (snd ?t) = _ -> _ =>
            assert (H : exists calls',
                      trace (snd t) = tr ++ calls' /\ Forall Q calls')
              by skip_block;
            destruct H as [calls' [Hc HQ]]; exact (Hsame _ _ Hc HQ)
        end
    end.
Qed.

End EntryPointNever.



Lemma X6_empty_lists_skip_their_blocks_witness :
  exists calls,
    trace (snd (create_hoomd_simulation String.ltb example_RB_to_OPLS 1 1 1
                  "lorentz" (12 / 10) [] []
                  {| heap := pmd_Structure dihedral_structure;
                     trace := [] |}))
    = [] ++ calls /\
    Forall (fun e => block_of e <> bond_block) calls /\
    Forall (fun e => block_of e <> rb_block) calls.
Proof.
  destruct (X6_empty_lists_skip_their_blocks String.ltb example_RB_to_OPLS
              1 1 1 "lorentz" (12 / 10) [] [] dihedral_structure [])
    as [calls [Htrace [_ [Hbonds [_ [_ Hrb]]]]]].
  exists calls. split; [exact Htrace|]. split.
  - apply Hbonds. reflexivity.
  - apply Hrb. reflexivity.
Defined.

(* ------------------------------------------------------------------ *)
(** ** The Lennard-Jones helper: NBFIX and the mixing rule *)

Lemma first_seen_get {E V} (key : E -> option string) (val : E -> V)
    (l : list E) (k : string) (e : E) :
  first_with key k l = Some e ->
  Py.get (first_seen key val l) k = Some (val e).
Proof.
  intros H. apply In_get; [apply first_seen_NoDup|].
  apply first_seen_In. now rewrite H.
Qed.

Lemma first_seen_get_inv {E V} (key : E -> option string) (val : E -> V)
    (l : list E) (k : string) (v : V) :
  Py.get (first_seen key val l) k = Some v ->
  exists e, first_with key k l = Some e /\ val e = v.
Proof.
  intros H. apply get_In, first_seen_In in H.
  destruct (first_with key k l) as [e|]; [|discriminate].
  exists e. split; [reflexivity|]. now inversion H.
Qed.

(** X7: under a rule that lower-cases to 'lorentz' (so 'Lorentz' or
    'LORENTZ' as well) and with non-zero reference scales, the cross loop
    sets a pair of atom types (a1, a2), a1 <= a2, exactly once, and the
    coefficients are decided by the NBFIX table of the first type alone:
    if it has an entry (rmin, eps, ...) for a2, sigma is
    rmin / (ref_distance * 2^(1/6)) and epsilon is eps / ref_energy;
    if not, sigma is (sigma1 + sigma2) / (2 * ref_distance) and epsilon is
    epsilon1 * epsilon2 / ref_energy^2, whatever the NBFIX table of the
    second type holds. *)
Theorem X7_lj_cross_coefficients (structure : Structure.t)
    (r_cut : R) (mixing_rule : string) (ref_distance ref_energy : R)
    (w : World) (a1 a2 : string) (atom1 atom2 : Atom.t) :
  Py.lower mixing_rule = "lorentz" ->
  ref_distance <> 0 -> ref_energy <> 0 ->
  first_with atom_signature a1 (Structure.atoms structure) = Some atom1 ->
  first_with atom_signature a2 (Structure.atoms structure) = Some atom2 ->
  le_string a1 a2 ->
  exists selfs crosses,
    _init_hoomd_lj structure r_cut mixing_rule ref_distance ref_energy w =
      (inr tt, {| heap := heap w;
                  trace := trace w ++
                           hoomd_md_pair_lj r_cut :: selfs ++ crosses |}) /\
    count (is_lj_pair_coeff_set a1 a2) crosses = 1%nat /\
    In (match Py.get (AtomType.nbfix (Atom.atom_type atom1)) a2 with
        | Some (rmin, eps, _, _) =>
            lj_pair_coeff_set a1 a2
              (rmin / (ref_distance * Rpower 2 (1 / 6)))
              (eps / ref_energy)
        | None =>
            lj_pair_coeff_set a1 a2
              ((AtomType.sigma (Atom.atom_type atom1) +
                AtomType.sigma (Atom.atom_type atom2)) / (2 * ref_distance))
              (AtomType.epsilon (Atom.atom_type atom1) *
               AtomType.epsilon (Atom.atom_type atom2) / ref_energy ^ 2)
        end) crosses.
Proof.
  intros Hm Hd He H1 H2 Hle.
  do 2 eexists. split; [now apply _init_hoomd_lj_run|].
  pose proof (first_seen_get atom_signature Atom.atom_type _ _ _ H1) as G1.
  pose proof (first_seen_get atom_signature Atom.atom_type _ _ _ H2) as G2.
  fold (atom_type_table structure) in G1, G2.
  assert (C1 : Py.contains a1 (atom_type_table structure) = true)
    by (unfold atom_type_table; rewrite first_seen_contains; now rewrite H1).
  assert (C2 : Py.contains a2 (atom_type_table structure) = true)
    by (unfold atom_type_table; rewrite first_seen_contains; now rewrite H2).
  split.
  - rewrite lj_cross_count, C1, C2. unfold le_string in Hle. now rewrite Hle.
  - apply in_flat_map. exists (a1, a2). split.
    + apply lj_pairs_In. auto.
    + unfold lj_cross_call. rewrite G1, G2.
      destruct (Py.get (AtomType.nbfix (Atom.atom_type atom1)) a2)
        as [[[[rmin eps] r14] e14]|]; now left.
Qed.

Lemma X7_lj_cross_coefficients_witness :
  exists selfs crosses,
    _init_hoomd_lj nbfix_structure (12 / 10) "LORENTZ" 1 1
      (initial (pmd_Structure nbfix_structure)) =
      (inr tt, {| heap := pmd_Structure nbfix_structure;
                  trace := [] ++
                           hoomd_md_pair_lj (12 / 10) :: selfs ++ crosses |}) /\
    count (is_lj_pair_coeff_set "A" "B") crosses = 1%nat /\
    In (lj_pair_coeff_set "A" "B" (2 / (1 * Rpower 2 (1 / 6))) (5 / 1))
       crosses.
Proof.
  apply (X7_lj_cross_coefficients nbfix_structure (12 / 10) "LORENTZ" 1 1
           (initial (pmd_Structure nbfix_structure)) "A" "B"
           atom_A_nbfix atom_B_nbfix).
  - reflexivity.
  - apply R1_neq_R0.
  - apply R1_neq_R0.
  - reflexivity.
  - reflexivity.
  - reflexivity.
Defined.

Lemma for_emits_raises {X} (g : X -> list effect) (before : list X) (x : X)
    (after : list X) (body : X -> M unit) (e : Py.exn) :
  (forall y w, In y before ->
     body y w = (inr tt, {| heap := heap w; trace := trace w ++ g y |})) ->
  (forall w, body x w = (inl e, w)) ->
  forall w,
    for_ (before ++ x :: after) body w =
    (inl e, {| heap := heap w; trace := trace w ++ flat_map g before |}).
Proof.
  intros Hbefore Hx. induction before as [|y before IH]; intros w; simpl.
  - unfold bind. rewrite Hx, app_nil_r. now destruct w.
  - unfold bind. rewrite Hbefore by now left.
    rewrite IH by (intros; apply Hbefore; now right).
    cbn [heap trace]. now rewrite app_assoc.
Qed.

Lemma lower_not_lorentz rule :
  Py.lower rule <> "lorentz" -> String.eqb (Py.lower rule) "lorentz" = false.
Proof. intros H. now apply String.eqb_neq. Qed.

(** The body of the cross loop on a pair the structure has an NBFIX entry
    for: the rule is not looked at. *)
Lemma lj_cross_body_nbfix structure rule rd re a1 a2 w :
  rd <> 0 -> re <> 0 ->
  In (a1, a2) (lj_pairs structure) ->
  has_nbfix structure (a1, a2) = true ->
  (t1 <- getitem (atom_type_table structure) a1 ;;
   let nb_fix_info := Py.get (AtomType.nbfix t1) a2 in
   ' (sigma, epsilon) <-
     match nb_fix_info with
     | None =>
         if String.eqb (Py.lower rule) "lorentz" then
           p1 <- getitem (atom_type_table structure) a1 ;;
           p2 <- getitem (atom_type_table structure) a2 ;;
           sigma <- truediv (AtomType.sigma p1 + AtomType.sigma p2)
                            (2 * rd) ;;
           q1 <- getitem (atom_type_table structure) a1 ;;
           q2 <- getitem (atom_type_table structure) a2 ;;
           epsilon <- truediv (AtomType.epsilon q1 * AtomType.epsilon q2)
                              (re ^ 2) ;;
           ret (sigma, epsilon)
         else raise (mixing_rule_error rule)
     | Some (rmin, eps, _, _) =>
         sigma <- truediv rmin (rd * Rpower 2 (1 / 6)) ;;
         epsilon <- truediv eps re ;;
         ret (sigma, epsilon)
     end ;;
   emit (lj_pair_coeff_set a1 a2 sigma epsilon))%py w =
  (inr tt,
   {| heap := heap w;
      trace := trace w ++
               lj_cross_call (atom_type_table structure) rd re (a1, a2) |}).
Proof.
  intros Hd He Hin Hnb.
  destruct (lj_pairs_get _ _ _ Hin) as [p1 [p2 [H1 H2]]].
  unfold has_nbfix in Hnb. rewrite H1 in Hnb.
  unfold lj_cross_call, bind.
  rewrite (getitem_ok _ _ _ _ H1). rewrite H1, H2.
  destruct (Py.get (AtomType.nbfix p1) a2) as [[[[rmin eps] r14] e14]|];
    [|discriminate].
  rewrite !truediv_ok; auto.
  apply Rmult_integral_contrapositive_currified; auto.
  apply Rgt_not_eq, Rpower_2_sixth_pos.
Qed.

(** X8: [_init_hoomd_lj] called with a rule that does not lower-case to
    'lorentz' (and non-zero reference scales) makes the self-interaction
    calls and then walks the pairs of type names in its order: as long as
    the structure has an NBFIX entry for the pair it sets the pair from that
    entry, without looking at the rule; at the first pair without an entry
    it raises the ValueError naming the rule, leaving the calls made so far
    in place.  If every pair has an entry it returns normally. *)
Theorem X8_unsupported_mixing_rule (structure : Structure.t) (r_cut : R)
    (mixing_rule : string) (ref_distance ref_energy : R) (w : World) :
  Py.lower mixing_rule <> "lorentz" ->
  ref_distance <> 0 -> ref_energy <> 0 ->
  (forall before pair after,
     lj_pairs structure = before ++ pair :: after ->
     forallb (has_nbfix structure) before = true ->
     has_nbfix structure pair = false ->
     _init_hoomd_lj structure r_cut mixing_rule ref_distance ref_energy w =
     (inl (mixing_rule_error mixing_rule),
      {| heap := heap w;
         trace := trace w ++ hoomd_md_pair_lj r_cut ::
           flat_map (lj_self_call ref_distance ref_energy)
             (atom_type_table structure) ++
           flat_map (lj_cross_call (atom_type_table structure)
                       ref_distance ref_energy) before |})) /\
  (forallb (has_nbfix structure) (lj_pairs structure) = true ->
   _init_hoomd_lj structure r_cut mixing_rule ref_distance ref_energy w =
   (inr tt,
    {| heap := heap w;
       trace := trace w ++
                lj_calls structure r_cut ref_distance ref_energy |})).
Proof.
  intros Hm Hd He.
  apply lower_not_lorentz in Hm.
  assert (Hself : forall w',
            for_ (Py.items (atom_type_table structure))
              (fun '(name, atom_type) =>
                 sigma <- truediv (AtomType.sigma atom_type) ref_distance ;;
                 epsilon <- truediv (AtomType.epsilon atom_type) ref_energy ;;
                 emit (lj_pair_coeff_set name name sigma epsilon))%py w' =
            (inr tt,
             {| heap := heap w';
                trace := trace w' ++
                  flat_map (lj_self_call ref_distance ref_energy)
                    (atom_type_table structure) |})).
  { apply for_emits. intros [name atom_type] w' _. cbv beta iota.
    unfold bind. rewrite !truediv_ok by assumption. reflexivity. }
  split.
  - intros before [a1 a2] after Hsplit Hbefore Hpair.
    unfold _init_hoomd_lj, bind at 1 2, emit at 1.
    cbv beta iota zeta. cbn [heap trace].
    change (fold_left _ (Structure.atoms structure) [])
      with (atom_type_table structure).
    rewrite Hself. cbn [heap trace].
    change (Py.combinations_with_replacement_2 _) with (lj_pairs structure).
    rewrite Hsplit.
    erewrite (for_emits_raises
                (lj_cross_call (atom_type_table structure)
                   ref_distance ref_energy)).
    + cbn [heap trace]. rewrite <- !app_assoc. reflexivity.
    + intros [b1 b2] w' Hin. apply lj_cross_body_nbfix; auto.
      * rewrite Hsplit. apply in_or_app. now left.
      * rewrite forallb_forall in Hbefore. now apply Hbefore.
    + intros w'.
      assert (Hin : In (a1, a2) (lj_pairs structure))
        by (rewrite Hsplit; apply in_or_app; right; now left).
      destruct (lj_pairs_get _ _ _ Hin) as [p1 [p2 [H1 H2]]].
      unfold has_nbfix in Hpair. rewrite H1 in Hpair.
      unfold bind. rewrite (getitem_ok _ _ _ _ H1).
      destruct (Py.get (AtomType.nbfix p1) a2); [discriminate|].
      rewrite Hm. reflexivity.
  - intros Hall.
    unfold _init_hoomd_lj, bind at 1 2, emit at 1.
    cbv beta iota zeta. cbn [heap trace].
    change (fold_left _ (Structure.atoms structure) [])
      with (atom_type_table structure).
    rewrite Hself. cbn [heap trace].
    change (Py.combinations_with_replacement_2 _) with (lj_pairs structure).
    erewrite (for_emits
                (lj_cross_call (atom_type_table structure)
                   ref_distance ref_energy)).
    + cbn [heap trace]. unfold lj_calls. rewrite <- !app_assoc. reflexivity.
    + intros [b1 b2] w' Hin. apply lj_cross_body_nbfix; auto.
      rewrite forallb_forall in Hall. now apply Hall.
Qed.

Lemma X8_unsupported_mixing_rule_witness :
  _init_hoomd_lj two_type_structure (12 / 10) "geometric" 1 1
    (initial (pmd_Structure two_type_structure)) =
  (inl (mixing_rule_error "geometric"),
   {| heap := pmd_Structure two_type_structure;
      trace := [] ++ hoomd_md_pair_lj (12 / 10) ::
        flat_map (lj_self_call 1 1) (atom_type_table two_type_structure) ++
        flat_map (lj_cross_call (atom_type_table two_type_structure) 1 1)
          [] |}).
Proof.
  refine (proj1 (X8_unsupported_mixing_rule two_type_structure (12 / 10)
                   "geometric" 1 1
                   (initial (pmd_Structure two_type_structure))
                   _ R1_neq_R0 R1_neq_R0)
            [] ("A", "A") [("A", "B"); ("B", "B")] eq_refl eq_refl eq_refl).
  discriminate.
Defined.

(* ------------------------------------------------------------------ *)
(** ** A zero reference energy *)

Lemma fold_enter_skips {E V} (key : E -> option string) (val : E -> V)
    (l : list E) (d : Py.dict V) :
  (forall e, In e l -> key e = None) -> fold_left (enter key val) l d = d.
Proof.
  revert d. induction l as [|e l IH]; intros d H; simpl; [reflexivity|].
  unfold enter at 2. rewrite (H e) by now left.
  apply IH. intros e' He'. apply H. now right.
Qed.

Lemma first_seen_nil {E V} (key : E -> option string) (val : E -> V)
    (l : list E) :
  first_seen key val l = [] <-> forall e, In e l -> key e = None.
Proof.
  split.
  - intros Hnil e Hin. destruct (key e) as [k|] eqn:Hk; [|reflexivity].
    assert (Hc : Py.contains k (first_seen key val l) = true)
      by (apply first_seen_contains_iff; eauto).
    rewrite Hnil in Hc. discriminate.
  - intros H. now apply fold_enter_skips.
Qed.

Lemma for_first_raises {X} (l : list X) (body : X -> M unit) (e : Py.exn) :
  l <> [] ->
  (forall x w, In x l -> body x w = (inl e, w)) ->
  forall w, for_ l body w = (inl e, w).
Proof.
  intros Hne Hbody w. destruct l as [|x l]; [contradiction|].
  simpl. unfold bind. now rewrite Hbody by now left.
Qed.

Lemma truediv_twice_zero {S} (x y rd : R) (f : R -> R -> St S unit) w :
  bind (truediv x rd) (fun a => bind (truediv y 0) (fun b => f a b)) w =
  (inl Py.ZeroDivisionError, w).
Proof.
  unfold bind, truediv at 1. destruct (Req_dec_T rd 0); [reflexivity|].
  unfold ret. now rewrite truediv_zero.
Qed.

Section ZeroReference.
Variable natural_sort_lt : string -> string -> bool.
Variable RB_to_OPLS : R -> R -> R -> R -> R -> R -> R * R * R * R.

(** X9: with [ref_energy = 0] a helper that has a coefficient to set raises
    ZeroDivisionError at its first division: its force has been created and
    no coefficient has been set.  A helper with nothing to set (no atom, no
    1-4 pair, no bond with two non-empty type names, no angle, no RB
    torsion) only creates its force and returns normally. *)
Theorem X9_zero_reference_energy (structure : Structure.t)
    (r_cut ref_distance : R) (w : World) :
  (Structure.atoms structure <> [] ->
   _init_hoomd_lj structure r_cut "lorentz" ref_distance 0 w =
   (inl Py.ZeroDivisionError,
    {| heap := heap w; trace := trace w ++ [hoomd_md_pair_lj r_cut] |})) /\
  (Structure.atoms structure = [] ->
   _init_hoomd_lj structure r_cut "lorentz" ref_distance 0 w =
   (inr tt,
    {| heap := heap w; trace := trace w ++ [hoomd_md_pair_lj r_cut] |})) /\
  (Structure.adjusts structure <> [] ->
   _init_hoomd_14_pairs structure r_cut ref_distance 0 w =
   (inl Py.ZeroDivisionError,
    {| heap := heap w;
       trace := trace w ++
         [nl_reset_exclusions ["1-2"; "1-3"; "1-4"];
          hoomd_md_special_pair_lj; hoomd_md_special_pair_coulomb] |})) /\
  ((exists bond, In bond (Structure.bonds structure) /\
                 bond_signature natural_sort_lt bond <> None) ->
   _init_hoomd_bonds natural_sort_lt structure ref_distance 0 w =
   (inl Py.ZeroDivisionError,
    {| heap := heap w; trace := trace w ++ [hoomd_md_bond_harmonic] |})) /\
  ((forall bond, In bond (Structure.bonds structure) ->
                 bond_signature natural_sort_lt bond = None) ->
   _init_hoomd_bonds natural_sort_lt structure ref_distance 0 w =
   (inr tt,
    {| heap := heap w; trace := trace w ++ [hoomd_md_bond_harmonic] |})) /\
  (Structure.angles structure <> [] ->
   _init_hoomd_angles natural_sort_lt structure 0 w =
   (inl Py.ZeroDivisionError,
    {| heap := heap w; trace := trace w ++ [hoomd_md_angle_harmonic] |})) /\
  (Structure.angles structure = [] ->
   _init_hoomd_angles natural_sort_lt structure 0 w =
   (inr tt,
    {| heap := heap w; trace := trace w ++ [hoomd_md_angle_harmonic] |})) /\
  (Structure.rb_torsions structure <> [] ->
   _init_hoomd_rb_torsions natural_sort_lt RB_to_OPLS structure 0 w =
   (inl Py.ZeroDivisionError,
    {| heap := heap w; trace := trace w ++ [hoomd_md_dihedral_opls] |})).
Proof.
  assert (Hne : forall {E V} (key : E -> option string) (val : E -> V) l,
            (exists e, In e l /\ key e <> None) ->
            Py.items (first_seen key val l) <> []).
  { intros E V key val l [e [Hin Hk]] Hnil.
    apply Hk. now apply (proj1 (first_seen_nil key val l) Hnil). }
  assert (Hall : forall {E} (key : E -> option string) (l : list E),
            l <> [] -> (forall e, key e <> None) ->
            exists e, In e l /\ key e <> None).
  { intros E key [|e l] Hl Hk; [contradiction|]. exists e. split; auto.
    now left. }
  repeat match goal with |- _ /\ _ => split end.
  - intros Hatoms. unfold _init_hoomd_lj, bind at 1 2, emit at 1.
    cbv beta iota zeta. cbn [heap trace].
    rewrite for_first_raises with (e := Py.ZeroDivisionError).
    + reflexivity.
    + apply (Hne _ _ atom_signature). apply Hall; [exact Hatoms|].
      discriminate.
    + intros [name atom_type] w' _. apply truediv_twice_zero.
  - intros Hatoms. unfold _init_hoomd_lj, bind, emit.
    cbv beta iota zeta. rewrite Hatoms. cbn. reflexivity.
  - intros Hadj. unfold _init_hoomd_14_pairs, bind at 1 2 3 4, emit at 1 2 3.
    cbv beta iota zeta. cbn [heap trace].
    rewrite for_first_raises with (e := Py.ZeroDivisionError).
    + now rewrite <- !app_assoc.
    + apply (Hne _ _ adjust_signature). apply Hall; [exact Hadj|].
      discriminate.
    + intros [name adjust_type] w' _. apply truediv_twice_zero.
  - intros Hbond. unfold _init_hoomd_bonds, bind at 1, emit at 1.
    cbv beta iota zeta. cbn [heap trace].
    rewrite for_first_raises with (e := Py.ZeroDivisionError).
    + reflexivity.
    + now apply (Hne _ _ (bond_signature natural_sort_lt)).
    + intros [name bond_type] w' _. unfold bind. now rewrite truediv_zero.
  - intros Hbond. unfold _init_hoomd_bonds, bind at 1, emit at 1.
    cbv beta iota zeta. cbn [heap trace].
    change (fold_left _ (Structure.bonds structure) [])
      with (first_seen (bond_signature natural_sort_lt) Bond.type
              (Structure.bonds structure)).
    rewrite (proj2 (first_seen_nil _ _ _) Hbond). reflexivity.
  - intros Hang. unfold _init_hoomd_angles, bind at 1, emit at 1.
    cbv beta iota zeta. cbn [heap trace].
    rewrite for_first_raises with (e := Py.ZeroDivisionError).
    + reflexivity.
    + apply (Hne _ _ (angle_signature natural_sort_lt)).
      apply Hall; [exact Hang|]. discriminate.
    + intros [name angle_type] w' _. unfold bind. now rewrite truediv_zero.
  - intros Hang. unfold _init_hoomd_angles, bind, emit.
    cbv beta iota zeta. rewrite Hang. cbn. reflexivity.
  - intros Hrb. unfold _init_hoomd_rb_torsions, bind at 1, emit at 1.
    cbv beta iota zeta. cbn [heap trace].
    rewrite for_first_raises with (e := Py.ZeroDivisionError).
    + reflexivity.
    + apply (Hne _ _ (rb_torsion_signature natural_sort_lt)).
      apply Hall; [exact Hrb|]. discriminate.
    + intros [name dihedral_type] w' _. unfold bind.
      now rewrite truediv_zero.
Qed.

End ZeroReference.

Lemma X9_zero_reference_energy_witness :
  _init_hoomd_angles String.ltb two_type_structure 0
    (initial (pmd_Structure two_type_structure)) =
  (inl Py.ZeroDivisionError,
   {| heap := pmd_Structure two_type_structure;
      trace := [] ++ [hoomd_md_angle_harmonic] |}).
Proof.
  destruct (X9_zero_reference_energy String.ltb example_RB_to_OPLS
              two_type_structure (12 / 10) 1
              (initial (pmd_Structure two_type_structure)))
    as [_ [_ [_ [_ [_ [H _]]]]]].
  apply H. discriminate.
Defined.

(* ------------------------------------------------------------------ *)
(** ** A periodic dihedral with a phase shift *)

Section PhaseShift.
Variable natural_sort_lt : string -> string -> bool.

(** X10: on an object that carries the inner [structure],
    [_init_hoomd_dihedrals] does not warn about and pass over a dihedral
    type whose phase exceeds 0.0001: it sets the coefficients of the types
    before the first such type, in table order, and then raises
    AttributeError for [phae], the attribute the warning text asks for.
    The types after it get no coefficients. *)
Theorem X10_phase_shift_raises (structure : Structure.t)
    (dihedrals : list Dihedral.t) (ref_energy : R) (w : World)
    (before after : list (string * DihedralType.t)) (name : string)
    (dihedral_type : DihedralType.t) :
  Structure.structure structure = Some dihedrals ->
  ref_energy <> 0 ->
  dihedral_table natural_sort_lt dihedrals =
    before ++ (name, dihedral_type) :: after ->
  (forall item, In item before ->
     DihedralType.phase (snd item) <= 1 / 10000) ->
  DihedralType.phase dihedral_type > 1 / 10000 ->
  _init_hoomd_dihedrals natural_sort_lt structure ref_energy w =
  (inl (Py.AttributeError "'DihedralType' object has no attribute 'phae'"),
   {| heap := heap w;
      trace := trace w ++ hoomd_md_dihedral_harmonic ::
        flat_map (periodic_call ref_energy) before |}).
Proof.
  intros Hs He Htable Hbefore Hshift.
  unfold _init_hoomd_dihedrals. rewrite Hs.
  unfold bind at 1, emit at 1. cbv beta iota zeta. cbn [heap trace].
  change (fold_left _ dihedrals [])
    with (dihedral_table natural_sort_lt dihedrals).
  unfold Py.items. rewrite Htable.
  rewrite (for_emits_raises (periodic_call ref_energy) before
             (name, dihedral_type) after _
             (Py.AttributeError
                "'DihedralType' object has no attribute 'phae'")).
  - cbn [heap trace]. now rewrite <- app_assoc.
  - intros [name' dihedral_type'] w' Hin. cbv beta iota.
    destruct (Rgt_dec _ _) as [Hgt|_].
    + apply Hbefore in Hin. simpl in Hin. lra.
    + unfold bind. rewrite truediv_ok by assumption. reflexivity.
  - intros w'. cbv beta iota.
    destruct (Rgt_dec _ _) as [_|Hle]; [reflexivity|contradiction].
Qed.

End PhaseShift.

Lemma X10_phase_shift_raises_witness :
  _init_hoomd_dihedrals String.ltb shifted_dihedral_structure 1
    (initial (pmd_Structure shifted_dihedral_structure)) =
  (inl (Py.AttributeError "'DihedralType' object has no attribute 'phae'"),
   {| heap := pmd_Structure shifted_dihedral_structure;
      trace := [] ++ hoomd_md_dihedral_harmonic ::
        flat_map (periodic_call 1) [("B-A-B-A", dihedral_type_1)] |}).
Proof.
  apply (X10_phase_shift_raises String.ltb shifted_dihedral_structure
           shifted_dihedrals 1
           (initial (pmd_Structure shifted_dihedral_structure))
           [("B-A-B-A", dihedral_type_1)] [] "B-B-B-B"
           dihedral_type_shifted).
  - reflexivity.
  - exact R1_neq_R0.
  - reflexivity.
  - intros item [<-|[]]. simpl. lra.
  - simpl. lra.
Defined.

(* ------------------------------------------------------------------ *)
(** ** Keys of type names without a hyphen *)

Section KeysDistinguish.
Variable natural_sort_lt : string -> string -> bool.

(** X11: the keys tell type names apart when no name contains a hyphen.
    Two 1-4 pairs or two bonds with the same key are over the same two
    type names in one order or the other; two angles with the same key have
    the same middle type and the same two outer types; two dihedrals with
    the same key have the same four types, in the same or in reverse order.
    So parameters are only ever shared between entities that C3 identifies.
    Whatever order [natural_sort] is. *)
Theorem X11_equal_keys_same_types (t1 t2 t3 t4 u1 u2 u3 u4 : string)
    (Hnames : forallb hyphen_free [t1; t2; t3; t4; u1; u2; u3; u4] = true) :
  (adjust_key t1 t2 = adjust_key u1 u2 ->
   (t1 = u1 /\ t2 = u2) \/ (t1 = u2 /\ t2 = u1)) /\
  (forall key,
     bond_key natural_sort_lt t1 t2 = Some key ->
     bond_key natural_sort_lt u1 u2 = Some key ->
     (t1 = u1 /\ t2 = u2) \/ (t1 = u2 /\ t2 = u1)) /\
  (angle_key natural_sort_lt t1 t2 t3 = angle_key natural_sort_lt u1 u2 u3 ->
   t2 = u2 /\ ((t1 = u1 /\ t3 = u3) \/ (t1 = u3 /\ t3 = u1))) /\
  (dihedral_key natural_sort_lt t1 t2 t3 t4 =
   dihedral_key natural_sort_lt u1 u2 u3 u4 ->
   (t1 = u1 /\ t2 = u2 /\ t3 = u3 /\ t4 = u4) \/
   (t1 = u4 /\ t2 = u3 /\ t3 = u2 /\ t4 = u1)).
Proof.
  simpl in Hnames. rewrite !andb_true_iff in Hnames.
  destruct Hnames as [Ht1 [Ht2 [Ht3 [Ht4 [Hu1 [Hu2 [Hu3 [Hu4 _]]]]]]]].
  split; [|split; [|split]].
  - unfold adjust_key. rewrite !sorted_two.
    destruct (String.ltb t2 t1), (String.ltb u2 u1); intros H;
      apply join_two_inj in H as [-> ->]; auto.
  - intros key. unfold bond_key. rewrite !sorted_two.
    destruct (natural_sort_lt t2 t1), (natural_sort_lt u2 u1);
      repeat match goal with
             | |- context [if ?c then _ else _] => destruct c
             end;
      intros [= <-] [= H];
      apply join_two_inj in H as [-> ->]; auto.
  - unfold angle_key. rewrite !sorted_two.
    destruct (natural_sort_lt t3 t1), (natural_sort_lt u3 u1); intros H;
      apply join_three_inj in H as [-> [-> ->]];
      simpl; rewrite ?andb_true_iff; auto 10.
  - unfold dihedral_key.
    destruct (Py.list_eq [t2; t3] _), (Py.list_eq [u2; u3] _); intros H;
      apply join_four_inj in H as [-> [-> [-> ->]]];
      simpl; rewrite ?andb_true_iff; auto 10.
Qed.

End KeysDistinguish.

Lemma X11_equal_keys_same_types_witness :
  adjust_key "CT" "HC" = adjust_key "HC" "CT" /\
  (("CT" = "HC" /\ "HC" = "CT") \/ ("CT" = "CT" /\ "HC" = "HC"))%string.
Proof.
  split; [reflexivity|].
  apply (proj1 (X11_equal_keys_same_types String.ltb
                  "CT" "HC" "CT" "HC" "HC" "CT" "HC" "CT" eq_refl)).
  reflexivity.
Defined.

(* ------------------------------------------------------------------ *)
(** ** Keyword dictionaries the callees refuse *)

Section KeywordDictionaries.
Variable natural_sort_lt : string -> string -> bool.
Variable RB_to_OPLS : R -> R -> R -> R -> R -> R -> R * R * R * R.

(** X17: a keyword dictionary that its callee refuses is noticed late.
    When [snapshot_kwargs] names an argument the entry point passes itself,
    TypeError is raised after the engine context has been initialized.
    When [pppm_kwargs] names [structure], [nl] or [r_cut], or a parameter
    that [_init_hoomd_qq] does not have, and the first atom has a type
    name, TypeError is raised after the engine has been set up and all
    Lennard-Jones coefficients have been set; no charge call is made. *)
Theorem X17_refused_keyword_dictionaries ref_distance ref_mass ref_energy
    mixing_rule r_cut snapshot_kwargs pppm_kwargs structure tr :
  (snapshot_kwargs_fit snapshot_kwargs = false ->
   exists message,
     create_hoomd_simulation natural_sort_lt RB_to_OPLS ref_distance ref_mass
       ref_energy mixing_rule r_cut snapshot_kwargs pppm_kwargs
       {| heap := pmd_Structure structure; trace := tr |} =
     (inl (Py.TypeError message),
      {| heap := pmd_Structure structure;
         trace := tr ++ [hoomd_context_initialize ""] |})) /\
  (snapshot_kwargs_fit snapshot_kwargs = true ->
   pppm_kwargs_fit pppm_kwargs = false ->
   first_atom_typed structure = true ->
   ref_distance <> 0 -> ref_energy <> 0 ->
   exists message,
     create_hoomd_simulation natural_sort_lt RB_to_OPLS ref_distance ref_mass
       ref_energy mixing_rule r_cut snapshot_kwargs pppm_kwargs
       {| heap := pmd_Structure structure; trace := tr |} =
     (inl (Py.TypeError message),
      {| heap := pmd_Structure structure;
         trace := tr ++
           setup_calls structure ref_distance ref_mass ref_energy
             snapshot_kwargs ++
           print "Processing LJ and QQ" ::
           lj_calls structure r_cut ref_distance ref_energy |})).
Proof.
  split.
  - intros Hsk. eexists.
    unfold create_hoomd_simulation.
    unfold bind at 1; unfold the_object; cbn [heap trace].
    unfold snapshot_kwargs_fit in Hsk; apply negb_false_iff in Hsk.
    rewrite Hsk.
    apply raises_apply.
    apply raises_emit_seq, raises_bind_l, raises_raise.
  - intros Hsk Hpk Hfirst Hd He. eexists.
    unfold create_hoomd_simulation.
    unfold bind at 1; unfold the_object; cbn [heap trace].
    unfold snapshot_kwargs_fit in Hsk; apply negb_true_iff in Hsk.
    rewrite Hsk.
    apply raises_apply.
    unfold setup_calls. cbn [app].
    apply raises_emit_seq, raises_bind_ret.
    do 3 apply raises_emit_seq.
    unfold first_atom_typed in Hfirst.
    destruct (Structure.atoms structure) as [|atom0 atoms];
      [discriminate|].
    cbn [getitem0]. apply raises_bind_ret. rewrite Hfirst.
    unfold pppm_kwargs_fit in Hpk. apply negb_false_iff in Hpk. rewrite Hpk.
    apply raises_bind_l, raises_emit_seq.
    rewrite <- (app_nil_r (lj_calls structure r_cut ref_distance ref_energy)).
    apply raises_seq; [|apply raises_raise].
    now apply _init_hoomd_lj_appends.
Qed.

End KeywordDictionaries.

Lemma X17_refused_keyword_dictionaries_witness :
  exists message,
    create_hoomd_simulation String.ltb example_RB_to_OPLS 1 1 1 "lorentz"
      (12 / 10) [] [("Nx", Py.Int 8); ("rcut", Py.Float 3)]
      {| heap := pmd_Structure two_type_structure; trace := [] |} =
    (inl (Py.TypeError message),
     {| heap := pmd_Structure two_type_structure;
        trace := [] ++
          setup_calls two_type_structure 1 1 1 [] ++
          print "Processing LJ and QQ" ::
          lj_calls two_type_structure (12 / 10) 1 1 |}).
Proof.
  apply (proj2 (X17_refused_keyword_dictionaries String.ltb
                  example_RB_to_OPLS 1 1 1 "lorentz" (12 / 10) []
                  [("Nx", Py.Int 8); ("rcut", Py.Float 3)]
                  two_type_structure [])).
  - reflexivity.
  - reflexivity.
  - reflexivity.
  - exact R1_neq_R0.
  - exact R1_neq_R0.
Defined.

(* ------------------------------------------------------------------ *)
(** ** The loader: the box *)

Section LoaderBox.
Variable float : string -> option R.

Lemma attribute_value_Some node name :
  attribute_value float node name <> None ->
  exists s x, Py.get (Xml.attrib node) name = Some s /\ float s = Some x.
Proof.
  unfold attribute_value. intros H.
  destruct (Py.get _ name) as [s|]; [|contradiction].
  destruct (float s) as [x|] eqn:Hx; [|contradiction]. now exists s, x.
Qed.

Lemma configuration_parse h filename config :
  configuration h filename = Some config ->
  exists root, etree_parse filename h = (inr root, h) /\
               Xml.find root "configuration" = Some config.
Proof.
  unfold configuration, etree_parse. intros H.
  destruct (Py.get (disk h) filename) as [[root|]|]; try discriminate.
  now exists root.
Qed.

(** Reading one attribute of the box. *)
Lemma read_attribute_ok {B} node name s x (k : R -> St Host B) h :
  Py.get (Xml.attrib node) name = Some s -> float s = Some x ->
  bind (bind (getitem (Xml.attrib node) name) (to_float float)) k h = k x h.
Proof.
  intros Hs Hx. unfold bind, getitem, to_float. rewrite Hs. unfold ret.
  now rewrite Hx.
Qed.

Lemma read_attribute_missing {B} node name (k : R -> St Host B) h :
  Py.get (Xml.attrib node) name = None ->
  bind (bind (getitem (Xml.attrib node) name) (to_float float)) k h =
  (inl (Py.KeyError name), h).
Proof. intros Hs. unfold bind, getitem. now rewrite Hs. Qed.

Lemma read_attribute_not_a_number {B} node name s (k : R -> St Host B) h :
  Py.get (Xml.attrib node) name = Some s -> float s = None ->
  bind (bind (getitem (Xml.attrib node) name) (to_float float)) k h =
  (inl (Py.ValueError ("could not convert string to float: " ++ s)), h).
Proof.
  intros Hs Hx. unfold bind, getitem, to_float. rewrite Hs. unfold ret.
  now rewrite Hx.
Qed.

End LoaderBox.

(** The loader up to the box, given the configuration and the box. *)
Ltac enter_box Hc Hb :=
  let root := fresh "root" in
  let Hroot := fresh "Hroot" in
  apply configuration_parse in Hc as [root [Hroot Hc]];
  unfold load_hoomdxml; unfold bind at 1; rewrite Hroot;
  cbv beta iota zeta; rewrite Hc;
  unfold bind at 1, not_None at 1, ret at 1; cbv beta iota;
  rewrite Hb;
  unfold bind at 1, not_None at 1, ret at 1; cbv beta iota.

(** Reading an attribute that is known to stand for a number. *)
Ltac read_attribute float box Hbefore :=
  match goal with
  | |- context [getitem (Xml.attrib box) ?a] =>
      let s := fresh "s" in
      let x := fresh "x" in
      let Hs := fresh "Hs" in
      let Hx := fresh "Hx" in
      destruct (attribute_value_Some float box a
                  (Hbefore a ltac:(simpl; tauto))) as [s [x [Hs Hx]]];
      rewrite (read_attribute_ok float box a s x _ _ Hs Hx)
  end.

Section LoaderBoxErrors.
Variable float : string -> option R.

(** X12: the loader needs all six attributes of the box, [yz] too, which
    it does not use.  It reads them in the order lx, ly, lz, xy, xz, yz; at
    the first one that is missing it raises KeyError with that name, at the
    first one whose text [float] does not accept it raises ValueError; in
    both cases nothing has been printed or changed, and the rest of the
    file is not looked at. *)
Theorem X12_box_attributes (filename : string) (optional_nodes : bool)
    (h : Host) (config box : Xml.element) (before after : list string)
    (name : string) :
  configuration h filename = Some config ->
  Xml.find config "box" = Some box ->
  box_attributes = before ++ name :: after ->
  (forall a, In a before -> attribute_value float box a <> None) ->
  (Py.get (Xml.attrib box) name = None ->
   load_hoomdxml float filename optional_nodes h =
   (inl (Py.KeyError name), h)) /\
  (forall s,
     Py.get (Xml.attrib box) name = Some s -> float s = None ->
     load_hoomdxml float filename optional_nodes h =
     (inl (Py.ValueError ("could not convert string to float: " ++ s)), h)).
Proof.
  intros Hc Hb Hsplit Hbefore.
  assert (Hload : exists k,
            load_hoomdxml float filename optional_nodes h =
            bind (bind (getitem (Xml.attrib box) name) (to_float float)) k h).
  { enter_box Hc Hb. unfold box_attributes in Hsplit.
    destruct before as [|b0 [|b1 [|b2 [|b3 [|b4 [|b5 before]]]]]];
      simpl in Hsplit; injection Hsplit as <-; intros; subst;
      try (destruct before; discriminate);
      repeat read_attribute float box Hbefore;
      eexists; reflexivity. }
  destruct Hload as [k ->]. split.
  - intros Hs. now apply read_attribute_missing.
  - intros s Hs Hx. now apply read_attribute_not_a_number.
Qed.

End LoaderBoxErrors.

Lemma X12_box_attributes_witness :
  load_hoomdxml example_float "plain.xml" true plain_box_host =
  (inl (Py.KeyError "xy"), plain_box_host).
Proof.
  refine (proj1 (X12_box_attributes example_float "plain.xml" true
                   plain_box_host plain_box_configuration plain_box
                   ["lx"; "ly"; "lz"] ["xz"; "yz"] "xy"
                   eq_refl eq_refl eq_refl _) eq_refl).
  intros a [<-|[<-|[<-|[]]]]; vm_compute; discriminate.
Defined.

(* ------------------------------------------------------------------ *)
(** ** The loader: the positions *)

Lemma text_lines_ok {B} (node : Xml.element) (lines : list string)
    (k : list string -> St Host B) (h : Host) (found : option Xml.element) :
  found = Some node ->
  data_lines node = Some lines ->
  bind (text_lines found) k h = k lines h.
Proof.
  intros -> Hlines. unfold data_lines in Hlines.
  unfold text_lines, bind, not_None, ret.
  destruct (Xml.text node) as [t|]; [|discriminate].
  simpl in Hlines. now injection Hlines as <-.
Qed.

Section LoaderPositions.
Variable float : string -> option R.

(** X13: a file without a particle cannot be loaded.  When the box is in
    order and the text of the position node has no line after its first,
    the loader raises UnboundLocalError for [n], the loop variable it
    counts the atoms with; nothing has been printed or changed.  So it is
    with and without [optional_nodes]. *)
Theorem X13_no_position_line (filename : string) (optional_nodes : bool)
    (h : Host) (config box position : Xml.element) :
  configuration h filename = Some config ->
  Xml.find config "box" = Some box ->
  (forall a, In a box_attributes -> attribute_value float box a <> None) ->
  Xml.find config "position" = Some position ->
  data_lines position = Some [] ->
  load_hoomdxml float filename optional_nodes h =
  (inl (Py.UnboundLocalError "n"), h).
Proof.
  intros Hc Hb Hbox Hp Hlines. unfold box_attributes in Hbox.
  enter_box Hc Hb. repeat read_attribute float box Hbox.
  rewrite (text_lines_ok position [] _ h _ Hp Hlines).
  reflexivity.
Qed.

End LoaderPositions.

Lemma X13_no_position_line_witness :
  load_hoomdxml example_float "empty.xml" true empty_host =
  (inl (Py.UnboundLocalError "n"), empty_host).
Proof.
  apply (X13_no_position_line example_float "empty.xml" true empty_host
           empty_configuration
           (Xml.Element "box"
              [("lx", "10"); ("ly", "10"); ("lz", "10");
               ("xy", "0"); ("xz", "0"); ("yz", "0")] None [])
           empty_position).
  - reflexivity.
  - reflexivity.
  - intros a [<-|[<-|[<-|[<-|[<-|[<-|[]]]]]]]; vm_compute; discriminate.
  - reflexivity.
  - reflexivity.
Defined.

(* ------------------------------------------------------------------ *)
(** ** The loader: a file with the required nodes *)






Section LoaderReturns.
Variable float : string -> option R.






End LoaderReturns.



(* ------------------------------------------------------------------ *)
(** ** The loader: what it does to the host *)

Lemma quiet_ret {A} (a : A) : quiet (ret a).
Proof. now intros h. Qed.

Lemma quiet_raise {A} (e : Py.exn) : quiet (@raise Host A e).
Proof. now intros h. Qed.

Lemma quiet_bind {A B} (m : St Host A) (f : A -> St Host B) :
  quiet m -> (forall a, quiet (f a)) -> quiet (bind m f).
Proof.
  intros Hm Hf h. unfold bind. specialize (Hm h).
  destruct (m h) as [[e|a] h']; simpl in Hm; subst h'; [reflexivity|].
  apply Hf.
Qed.

Lemma quiet_not_None {A} (o : option A) (attribute : string) :
  quiet (not_None o attribute).
Proof. destruct o; [apply quiet_ret | apply quiet_raise]. Qed.

Lemma quiet_getitem {A} (d : Py.dict A) (k : string) : quiet (getitem d k).
Proof.
  unfold getitem. destruct (Py.get d k); [apply quiet_ret | apply quiet_raise].
Qed.

Lemma quiet_try_except {A} (m handler : St Host A) (caught : Py.exn -> bool) :
  quiet m -> quiet handler -> quiet (try_except m caught handler).
Proof.
  intros Hm Hh h. unfold try_except. specialize (Hm h).
  destruct (m h) as [[e|a] h']; simpl in Hm; subst h'; [|reflexivity].
  destruct (caught e); [apply Hh | reflexivity].
Qed.

Lemma quiet_comprehension {A B} (f : A -> St Host B) (l : list A) :
  (forall x, quiet (f x)) -> quiet (comprehension f l).
Proof.
  intros Hf. induction l as [|x l IH]; simpl; [now intros h|].
  apply quiet_bind; [apply Hf|]. intros y.
  apply quiet_bind; [exact IH|]. now intros ys h.
Qed.

Lemma quiet_for_fold {A B} (l : list A) (b : B) (body : B -> A -> St Host B) :
  (forall b x, quiet (body b x)) -> quiet (for_fold l b body).
Proof.
  intros Hbody. revert b. induction l as [|x l IH]; intros b; simpl.
  - now intros h.
  - apply quiet_bind; [apply Hbody | exact IH].
Qed.

Lemma quiet_etree_parse filename : quiet (etree_parse filename).
Proof.
  intros h. unfold etree_parse.
  now destruct (Py.get (disk h) filename) as [[root|]|].
Qed.

Lemma quiet_to_float float s : quiet (to_float float s).
Proof.
  unfold to_float. destruct (float s); [apply quiet_ret | apply quiet_raise].
Qed.

Lemma quiet_text_lines node : quiet (text_lines node).
Proof.
  unfold text_lines. apply quiet_bind; [apply quiet_not_None|]. intros n.
  apply quiet_bind; [apply quiet_not_None|]. intros t. apply quiet_ret.
Qed.

Lemma quiet_set_column df node values : quiet (set_column df node values).
Proof.
  unfold set_column. destruct df as [|[name col] df];
    [apply quiet_ret|].
  destruct (_ || _); [apply quiet_ret | apply quiet_raise].
Qed.

Lemma reports_quiet_bind {A B} header (m : St Host A) (f : A -> St Host B) :
  quiet m -> (forall a, reports header (f a)) -> reports header (bind m f).
Proof.
  intros Hm Hf h. unfold bind. specialize (Hm h).
  destruct (m h) as [[e|a] h']; simpl in Hm; subst h'.
  - simpl. repeat split. left. split; [reflexivity|]. now exists e.
  - apply Hf.
Qed.

Lemma reports_print {A} header found (m : St Host A) :
  quiet m ->
  reports header (bind (print_line header)
                    (fun _ => bind (print_line found) (fun _ => m))).
Proof.
  intros Hm h. unfold bind, print_line. cbv beta iota.
  match goal with
  | |- context [m ?h'] => specialize (Hm h'); destruct (m h') as [r h'']
  end.
  simpl in Hm. subst h''.
  destruct r as [e|a]; simpl; repeat split; right; exists found;
    now rewrite <- app_assoc.
Qed.

(** Goals [quiet m] for the pieces of the loader. *)
Ltac quiet :=
  repeat first
    [ apply quiet_ret
    | apply quiet_raise
    | apply quiet_etree_parse
    | apply quiet_not_None
    | apply quiet_getitem
    | apply quiet_to_float
    | apply quiet_text_lines
    | apply quiet_set_column
    | apply quiet_bind; [|intros ?]
    | apply quiet_comprehension; intros ?
    | apply quiet_for_fold; intros ? ?
    | apply quiet_try_except
    | match goal with
      | |- quiet (match ?x with _ => _ end) => destruct x
      end ].

(** X15: the loader changes no file and no global, whatever the file and
    however it ends.  It prints either nothing, and then it raises, or its
    report of two lines, the first of which names the file: so when it
    returns it has printed the report, and it never prints one line
    only. *)
Theorem X15_load_hoomdxml_effects (float : string -> option R)
    (filename : string) (optional_nodes : bool) (h : Host) :
  let outcome := load_hoomdxml float filename optional_nodes h in
  namespace (snd outcome) = namespace h /\
  disk (snd outcome) = disk h /\
  ((stdout (snd outcome) = stdout h /\ exists e, fst outcome = inl e) \/
   exists found,
     stdout (snd outcome) = stdout h ++ [report_header filename; found]).
Proof.
  cbv zeta. revert h.
  change (reports (report_header filename)
            (load_hoomdxml float filename optional_nodes)).
  unfold load_hoomdxml.
  repeat (apply reports_quiet_bind; [quiet | intros ?]).
  cbv zeta.
  repeat (apply reports_quiet_bind; [quiet | intros ?]).
  match goal with
  | |- reports _ (match ?x with _ => _ end) => destruct x
  end.
  apply reports_print. quiet.
Qed.

(* ------------------------------------------------------------------ *)
(** ** The loader: what it returns *)

Lemma bind_inr {S A B} (m : St S A) (f : A -> St S B) s b s' :
  bind m f s = (inr b, s') ->
  exists a s1, m s = (inr a, s1) /\ f a s1 = (inr b, s').
Proof.
  unfold bind. destruct (m s) as [[e|a] s1]; [discriminate|].
  intros H. now exists a, s1.
Qed.

Lemma quiet_bind_inr {A B} (m : St Host A) (f : A -> St Host B) h b h' :
  quiet m -> bind m f h = (inr b, h') ->
  exists a, m h = (inr a, h) /\ f a h = (inr b, h').
Proof.
  intros Hm H. apply bind_inr in H as [a [h1 [Ha H]]].
  pose proof (Hm h) as Hq. rewrite Ha in Hq. simpl in Hq. subst h1.
  now exists a.
Qed.

Lemma not_None_inr {A} (o : option A) attribute (h h' : Host) a :
  not_None o attribute h = (inr a, h') -> o = Some a.
Proof. destruct o; simpl; unfold ret, raise; congruence. Qed.

Lemma text_lines_inr found lines (h h' : Host) :
  text_lines found h = (inr lines, h') ->
  exists node, found = Some node /\ data_lines node = Some lines.
Proof.
  unfold text_lines. intros H.
  apply quiet_bind_inr in H as [node [Hnode H]]; [|apply quiet_not_None].
  apply quiet_bind_inr in H as [t [Ht H]]; [|apply quiet_not_None].
  apply not_None_inr in Hnode, Ht. exists node. split; [assumption|].
  unfold data_lines. rewrite Ht. unfold ret in H. simpl. congruence.
Qed.

Section LoaderResult.
Variable float : string -> option R.

Lemma read_attribute_inr node name x (h h' : Host) :
  bind (getitem (Xml.attrib node) name) (to_float float) h = (inr x, h') ->
  attribute_value float node name = Some x.
Proof.
  unfold bind, getitem, to_float, attribute_value.
  destruct (Py.get _ name) as [s|]; [|discriminate].
  unfold ret. destruct (float s); unfold ret, raise; congruence.
Qed.

Lemma quiet_read_attribute node name :
  quiet (bind (getitem (Xml.attrib node) name) (to_float float)).
Proof.
  apply quiet_bind; [apply quiet_getitem|]. intros s. apply quiet_to_float.
Qed.

Lemma read_fields_inr fields row (h h' : Host) :
  comprehension (to_float float) fields h = (inr row, h') ->
  Forall2 (fun field x => float field = Some x) fields row.
Proof.
  revert row h'.
  induction fields as [|field fields IH]; intros row h'; simpl.
  - unfold ret. intros [= <- _]. constructor.
  - intros H.
    apply quiet_bind_inr in H as [x [Hx H]]; [|apply quiet_to_float].
    apply quiet_bind_inr in H as [xs [Hxs H]];
      [|apply quiet_comprehension; intros; apply quiet_to_float].
    unfold ret in H. injection H as <- _. constructor; [|now apply (IH xs h)].
    unfold to_float in Hx. destruct (float field); [|discriminate].
    unfold ret in Hx. congruence.
Qed.

Lemma read_lines_inr lines rows (h h' : Host) :
  comprehension
    (fun pos => comprehension (to_float float) (Py.split pos)) lines h =
  (inr rows, h') ->
  parsed_as float lines rows.
Proof.
  assert (Hq : forall pos,
            quiet (comprehension (to_float float) (Py.split pos)))
    by (intros; apply quiet_comprehension; intros; apply quiet_to_float).
  revert rows h'.
  induction lines as [|line lines IH]; intros rows h'; simpl.
  - unfold ret. intros [= <- _]. constructor.
  - intros H.
    apply quiet_bind_inr in H as [row [Hrow H]]; [|apply Hq].
    apply quiet_bind_inr in H as [rows' [Hrows H]];
      [|now apply quiet_comprehension].
    unfold ret in H. injection H as <- _.
    constructor; [now apply read_fields_inr in Hrow | now apply (IH rows' h)].
Qed.

(** X16: what the loader returns, whatever the file holds besides.  When
    it returns, [optional_nodes] was set and the result is the pair of a
    trajectory and a dictionary.  The file has a configuration with a box
    and a position node; the unit cell is built from the attributes lx, ly,
    lz, xy and xz of the box, the entry in the second row and third column
    being [xy * lz]; the coordinates are the numbers of the position lines
    after the first, line by line and field by field; there is at least
    one such line, and the topology has one atom per line. *)
Theorem X16_what_is_loaded (filename : string) (optional_nodes : bool)
    (h h' : Host) (result : loaded) :
  load_hoomdxml float filename optional_nodes h = (inr result, h') ->
  optional_nodes = true /\
  exists traj data config box position lines lx ly lz xy xz,
    result = traj_and_optional_data traj data /\
    configuration h filename = Some config /\
    Xml.find config "box" = Some box /\
    map (attribute_value float box) ["lx"; "ly"; "lz"; "xy"; "xz"]%string =
      map Some [lx; ly; lz; xy; xz] /\
    unitcell_vectors traj = unit_cell lx ly lz xy xz /\
    Xml.find config "position" = Some position /\
    data_lines position = Some lines /\
    lines <> [] /\
    parsed_as float lines (xyz traj) /\
    List.length (atoms_df (topology traj)) = List.length lines.
Proof.
  intros H. unfold load_hoomdxml in H.
  apply quiet_bind_inr in H as [root [Hroot H]]; [|apply quiet_etree_parse].
  cbv zeta in H.
  apply quiet_bind_inr in H as [config [Hconfig H]]; [|apply quiet_not_None].
  apply quiet_bind_inr in H as [box [Hbox H]]; [|apply quiet_not_None].
  apply quiet_bind_inr in H as [lx [Hlx H]]; [|apply quiet_read_attribute].
  apply quiet_bind_inr in H as [ly [Hly H]]; [|apply quiet_read_attribute].
  apply quiet_bind_inr in H as [lz [Hlz H]]; [|apply quiet_read_attribute].
  apply quiet_bind_inr in H as [xy [Hxy H]]; [|apply quiet_read_attribute].
  apply quiet_bind_inr in H as [xz [Hxz H]]; [|apply quiet_read_attribute].
  apply quiet_bind_inr in H as [yz [Hyz H]]; [|apply quiet_read_attribute].
  apply quiet_bind_inr in H as [lines [Hlines H]]; [|apply quiet_text_lines].
  apply quiet_bind_inr in H as [rows [Hrows H]];
    [|apply quiet_comprehension; intros;
      apply quiet_comprehension; intros; apply quiet_to_float].
  apply quiet_bind_inr in H as [n [Hn H]]; [|quiet].
  apply quiet_bind_inr in H as [names [Hnames H]]; [|apply quiet_text_lines].
  apply quiet_bind_inr in H as [optional [Hoptional H]]; [|quiet].
  apply quiet_bind_inr in H as [[data per_particle_df] [Hlocals H]]; [|quiet].
  apply bind_inr in H as [[] [h1 [_ H]]].
  apply bind_inr in H as [[] [h2 [_ H]]].
  apply bind_inr in H as [atoms [h3 [Hatoms H]]].
  apply not_None_inr in Hconfig, Hbox.
  apply read_attribute_inr in Hlx, Hly, Hlz, Hxy, Hxz.
  apply text_lines_inr in Hlines as [position [Hposition Hlines]].
  apply read_lines_inr in Hrows.
  assert (Hset : optional_nodes = true).
  { destruct optional_nodes; [reflexivity|].
    unfold ret in Hoptional. injection Hoptional as <-. discriminate. }
  subst optional_nodes. split; [reflexivity|].
  unfold ret in H. injection H as <- _.
  assert (Hne : lines <> [] /\ n = List.length lines).
  { destruct lines; [discriminate|]. unfold ret in Hn. split; congruence. }
  destruct Hne as [Hne ->].
  eexists _, data, config, box, position, lines, lx, ly, lz, xy, xz.
  split; [reflexivity|]. cbn [xyz topology unitcell_vectors atoms_df].
  repeat split; try assumption.
  - unfold configuration, etree_parse in *.
    destruct (Py.get (disk h) filename) as [[root'|]|]; try discriminate.
    congruence.
  - simpl. congruence.
  - destruct (Nat.eqb_spec (List.length names) (List.length lines))
      as [Heq|_].
    + unfold ret in Hatoms. injection Hatoms as <- _.
      now rewrite length_map.
    + destruct names; [|discriminate].
      unfold ret in Hatoms. injection Hatoms as <- _.
      apply repeat_length.
Qed.

End LoaderResult.

Lemma X16_what_is_loaded_witness :
  exists traj data config box position lines lx ly lz xy xz,
    traj_and_optional_data example_trajectory [] =
      traj_and_optional_data traj data /\
    configuration example_host "init.xml" = Some config /\
    Xml.find config "box" = Some box /\
    map (attribute_value example_float box)
      ["lx"; "ly"; "lz"; "xy"; "xz"]%string =
      map Some [lx; ly; lz; xy; xz] /\
    unitcell_vectors traj = unit_cell lx ly lz xy xz /\
    Xml.find config "position" = Some position /\
    data_lines position = Some lines /\
    lines <> [] /\
    parsed_as example_float lines (xyz traj) /\
    List.length (atoms_df (topology traj)) = List.length lines.
Proof.
  refine (proj2 (X16_what_is_loaded example_float "init.xml" true
                   example_host
                   {| namespace := hoomdxml_namespace;
                      disk := disk example_host;
                      stdout := [report_header "init.xml"; "[]"%string] |}
                   (traj_and_optional_data example_trajectory []) _)).
  vm_compute. reflexivity.
Defined.
